(** * Stock-analyser: the quantitative analysis core of [backend/main.py]

    A shallow embedding of the trend classifier ([check_trend]), the
    support-level detector ([get_swing_lows] and the final merge of
    [get_validated_support_levels]), the intrinsic-value estimator
    ([calculate_intrinsic_value] with its nested [is_consistent] and
    [get_discount_rate]) and the weighted scorer of [get_stock_data].

    Numbers.  The provider's tables hold finite numbers or missing values
    (pandas NaN): an [entry] is an [option Q].  Values computed by the
    program are [float64]: an exact rational, or one of the IEEE specials
    [PInf], [NInf], [NaN] that numpy arithmetic produces (division by
    zero, a negative base under a fractional power).  Rounding error and
    overflow of finite values are not modelled.

    Inputs.  A dictionary key is absent or holds a value of its type; a
    table row holds the values of its columns.  What the provider fetches
    (price history, statements, [info]) is an argument of the functions
    below.  Two Python primitives stay parameters: the real power behind
    [**] and the parser [float(str)]. *)

From Stdlib Require Import String Ascii.
From Stdlib Require Import QArith Qabs Lqa ZArith Lia List Bool Sorted.
Import ListNotations.

(** ** Rationals with boolean comparisons *)

Module Num.

Definition Qltb (x y : Q) : bool := negb (Qle_bool y x).

Lemma Qltb_iff (x y : Q) : Qltb x y = true <-> (x < y)%Q.
Proof.
  unfold Qltb. rewrite negb_true_iff. split; intro H.
  - apply Qnot_le_lt. intro L. apply Qle_bool_iff in L. congruence.
  - destruct (Qle_bool y x) eqn:E; [|reflexivity].
    apply Qle_bool_iff in E. exfalso. apply (Qlt_not_le _ _ H E).
Qed.

Lemma Qltb_false_iff (x y : Q) : Qltb x y = false <-> (y <= x)%Q.
Proof.
  unfold Qltb. rewrite negb_false_iff. apply Qle_bool_iff.
Qed.

(** The sum of a list, as Python's [sum] / numpy's reductions compute it. *)
Definition sumQ (l : list Q) : Q := fold_right Qplus 0%Q l.

(** [len(...)] as a number. *)
Definition Qlen {A} (l : list A) : Q := inject_Z (Z.of_nat (length l)).

End Num.
Import Num.

(** ** Python strings *)

Module PyStr.

(** [sub in s] on strings. *)
Definition str_contains (sub s : string) : bool :=
  match String.index 0 sub s with
  | Some _ => true
  | None => false
  end.

Example str_contains_inside :
  str_contains "China" "People's Republic of China" = true /\
  str_contains "China" "United States" = false /\
  str_contains "Net Income" "Discounted Net Income (DNI)" = true.
Proof. repeat split. Qed.

End PyStr.
Import PyStr.

(** ** Series: a pandas Series of a financial line item *)

(** A value of a provider table: a finite number, or missing (NaN). *)
Definition entry := option Q.

(** A pandas Series: index labels (period-end dates, as day numbers) with
    their values, in storage order. *)
Definition Series := list (Z * entry).

(** ** 4.1 Trend classifier: [check_trend] *)

Module Trend.

(** [series.dropna()] *)
Fixpoint dropna (s : Series) : list (Z * Q) :=
  match s with
  | [] => []
  | (d, Some v) :: rest => (d, v) :: dropna rest
  | (_, None) :: rest => dropna rest
  end.

(** [series.sort_index(ascending=False)]: newest first. *)
Fixpoint insert_desc (p : Z * Q) (l : list (Z * Q)) : list (Z * Q) :=
  match l with
  | [] => [p]
  | h :: t => if (fst h <=? fst p)%Z then p :: l else h :: insert_desc p t
  end.

Fixpoint sort_index_desc (l : list (Z * Q)) : list (Z * Q) :=
  match l with
  | [] => []
  | p :: rest => insert_desc p (sort_index_desc rest)
  end.

(** [series.values] *)
Definition values (l : list (Z * Q)) : list Q := map snd l.

(** [np.arange(n)] *)
Definition arange (n : nat) : list Q :=
  map (fun i => inject_Z (Z.of_nat i)) (seq 0 n).

Definition dot (xs ys : list Q) : Q :=
  sumQ (map (fun p => (fst p * snd p)%Q) (combine xs ys)).

(** The numerator and denominator of the least-squares slope. *)
Definition slope_num (xs ys : list Q) : Q :=
  (Qlen xs * dot xs ys - sumQ xs * sumQ ys)%Q.

Definition slope_den (xs : list Q) : Q := slope_num xs xs.

(** [slope, _ = np.polyfit(x, y, 1)]: the slope of the least-squares line
    through the points [(x_i, y_i)]. *)
Definition polyfit_slope (xs ys : list Q) : Q :=
  (slope_num xs ys / slope_den xs)%Q.

(** Step 3 of [increasing]: the loop over [chronological] that clears
    [consistent] at the first step with [curr < prev * (1 - tolerance)]. *)
Fixpoint consistent_increase (chronological : list Q) (tolerance : Q) : bool :=
  match chronological with
  | prev :: ((curr :: _) as rest) =>
      if Qltb curr (prev * (1 - tolerance)) then false
      else consistent_increase rest tolerance
  | _ => true
  end.

Definition default_tolerance : Q := 5 # 100.

Definition check_trend (series : Series) (trend_type : string) (tolerance : Q)
  : bool :=
  let series := dropna series in
  if (length series <? 2)%nat then false
  else
    let series := sort_index_desc series in
    let y := values series in
    let newest := hd 0%Q y in
    let oldest := last y 0%Q in
    if (trend_type =? "increasing")%string then
      if Qltb oldest newest then true
      else if Qltb 0 (polyfit_slope (arange (length y)) (rev y)) then true
      else consistent_increase (rev y) tolerance
    else if (trend_type =? "stable_increasing")%string then
      if Qle_bool (oldest * (1 - tolerance)) newest then true
      else if Qle_bool 0 (polyfit_slope (arange (length y)) (rev y)) then true
      else false
    else if (trend_type =? "reducing_stable")%string then
      if Qle_bool newest (oldest * (1 + tolerance)) then true
      else if Qle_bool (polyfit_slope (arange (length y)) (rev y)) 0 then true
      else false
    else false.

(** The values of the series oldest first, after the missing ones are
    dropped: [series.iloc[::-1]] of the sorted series. *)
Definition chronological (s : Series) : list Q :=
  rev (values (sort_index_desc (dropna s))).

(** A series entry holding a value. *)
Definition point (d : Z) (v : Q) : Z * entry := (d, Some v).

Example check_trend_scenario :
  check_trend [point 3 120; point 2 110; point 1 100]
              "increasing" default_tolerance = true.
Proof. reflexivity. Qed.

Example check_trend_slow_decline :
  check_trend [point 1 100; point 2 99] "increasing" default_tolerance
  = true.
Proof. reflexivity. Qed.

Example check_trend_steep_decline :
  check_trend [point 1 100; point 2 90] "increasing" default_tolerance
  = false.
Proof. reflexivity. Qed.

(** *** Facts about lists used by the classifier *)

Definition strictly_increasing (l : list Q) : Prop := StronglySorted Qlt l.
Definition strictly_decreasing (l : list Q) : Prop :=
  StronglySorted (fun a b => (b < a)%Q) l.

Lemma hd_rev_last (l : list Q) (d : Q) : hd d (rev l) = last l d.
Proof.
  induction l as [|a l IH]; [reflexivity|].
  destruct l as [|b l]; [reflexivity|].
  change (last (a :: b :: l) d) with (last (b :: l) d). rewrite <- IH.
  simpl. destruct (rev l ++ [b]) eqn:E; [|reflexivity].
  destruct (rev l); discriminate.
Qed.

Lemma last_rev_hd (l : list Q) (d : Q) : last (rev l) d = hd d l.
Proof.
  rewrite <- (rev_involutive l) at 2. symmetry. apply hd_rev_last.
Qed.

Lemma last_in (b : Q) (l : list Q) (d : Q) : In (last (b :: l) d) (b :: l).
Proof.
  revert b. induction l as [|c l IH]; intro b.
  - left. reflexivity.
  - change (last (b :: c :: l) d) with (last (c :: l) d).
    right. apply IH.
Qed.

Lemma sorted_hd_last (R : Q -> Q -> Prop) (a b : Q) (l : list Q) (d : Q) :
  StronglySorted R (a :: b :: l) -> R a (last (a :: b :: l) d).
Proof.
  intro H. apply StronglySorted_inv in H. destruct H as [_ H].
  rewrite Forall_forall in H. apply H.
  change (last (a :: b :: l) d) with (last (b :: l) d). apply last_in.
Qed.

Lemma length_insert_desc p l : length (insert_desc p l) = S (length l).
Proof.
  induction l as [|h t IH]; simpl; [reflexivity|].
  destruct (fst h <=? fst p)%Z; simpl; congruence.
Qed.

Lemma length_sort_index_desc l : length (sort_index_desc l) = length l.
Proof.
  induction l as [|p l IH]; simpl; [reflexivity|].
  rewrite length_insert_desc. congruence.
Qed.

Lemma length_chronological s : length (chronological s) = length (dropna s).
Proof.
  unfold chronological, values.
  rewrite length_rev, length_map. apply length_sort_index_desc.
Qed.

(** *** The sign of the least-squares slope on a monotone series *)

Section LeastSquares.

(** Sum of the products of deviations from a pivot point. *)
Definition cross (x0 y0 : Q) (xs ys : list Q) : Q :=
  sumQ (map (fun p => ((fst p - x0) * (snd p - y0))%Q) (combine xs ys)).

Lemma Qlen_cons {A} (a : A) (l : list A) : (Qlen (a :: l) == Qlen l + 1)%Q.
Proof.
  unfold Qlen. simpl length. rewrite Nat2Z.inj_succ, <- Z.add_1_r.
  rewrite inject_Z_plus. reflexivity.
Qed.

Lemma cross_expand x0 y0 xs : forall ys, length xs = length ys ->
  (cross x0 y0 xs ys ==
   dot xs ys - x0 * sumQ ys - y0 * sumQ xs + Qlen xs * x0 * y0)%Q.
Proof.
  induction xs as [|x xs IH]; intros [|y ys] L; try discriminate L.
  - unfold cross, dot, Qlen. simpl combine. simpl map. simpl sumQ.
    simpl length. change (inject_Z (Z.of_nat 0)) with 0%Q. ring.
  - injection L as L. specialize (IH ys L).
    unfold cross, dot in *. simpl combine. simpl map. simpl sumQ.
    rewrite IH. rewrite Qlen_cons. simpl fst. simpl snd. ring.
Qed.

Lemma slope_num_cons x0 y0 xs ys : length xs = length ys ->
  (slope_num (x0 :: xs) (y0 :: ys) == slope_num xs ys + cross x0 y0 xs ys)%Q.
Proof.
  intro L. rewrite (cross_expand x0 y0 xs ys L).
  unfold slope_num, dot. simpl combine. simpl map. simpl sumQ.
  rewrite Qlen_cons. simpl fst. simpl snd. ring.
Qed.

Lemma cross_opposed x0 y0 xs : forall ys,
  Forall (fun x => (x0 < x)%Q) xs -> Forall (fun y => (y < y0)%Q) ys ->
  (cross x0 y0 xs ys <= 0)%Q.
Proof.
  unfold cross.
  induction xs as [|x xs IH]; intros [|y ys] Hx Hy; simpl; try lra.
  inversion Hx; subst. inversion Hy; subst.
  specialize (IH ys H2 H4). simpl in IH.
  assert ((x - x0) * (y - y0) <= 0)%Q by nra. lra.
Qed.

Lemma cross_aligned x0 y0 xs : forall ys,
  Forall (fun x => (x0 < x)%Q) xs -> Forall (fun y => (y0 < y)%Q) ys ->
  (0 <= cross x0 y0 xs ys)%Q.
Proof.
  unfold cross.
  induction xs as [|x xs IH]; intros [|y ys] Hx Hy; simpl; try lra.
  inversion Hx; subst. inversion Hy; subst.
  specialize (IH ys H2 H4). simpl in IH.
  assert (0 <= (x - x0) * (y - y0))%Q by nra. lra.
Qed.

Lemma slope_num_decreasing xs : forall ys, length xs = length ys ->
  strictly_increasing xs -> strictly_decreasing ys ->
  (slope_num xs ys <= 0)%Q.
Proof.
  induction xs as [|x xs IH]; intros [|y ys] L Hx Hy; try discriminate L.
  - apply Qle_bool_iff. reflexivity.
  - injection L as L.
    apply StronglySorted_inv in Hx. destruct Hx as [Hx Fx].
    apply StronglySorted_inv in Hy. destruct Hy as [Hy Fy].
    rewrite (slope_num_cons x y xs ys L).
    specialize (IH ys L Hx Hy).
    pose proof (cross_opposed x y xs ys Fx Fy). lra.
Qed.

Lemma slope_den_nonneg xs : strictly_increasing xs -> (0 <= slope_den xs)%Q.
Proof.
  unfold slope_den.
  induction xs as [|x xs IH]; intro Hx.
  - apply Qle_bool_iff. reflexivity.
  - apply StronglySorted_inv in Hx. destruct Hx as [Hx Fx].
    rewrite (slope_num_cons x x xs xs eq_refl).
    specialize (IH Hx).
    pose proof (cross_aligned x x xs xs Fx Fx). lra.
Qed.

Lemma arange_from_increasing n : forall k,
  strictly_increasing (map (fun i => inject_Z (Z.of_nat i)) (seq k n)).
Proof.
  induction n as [|n IH]; intro k; simpl.
  - constructor.
  - constructor; [apply IH|].
    rewrite Forall_forall. intros q Hq.
    apply in_map_iff in Hq. destruct Hq as [i [<- Hi]].
    apply in_seq in Hi. rewrite <- Zlt_Qlt. lia.
Qed.

Lemma arange_increasing n : strictly_increasing (arange n).
Proof. apply arange_from_increasing. Qed.

Lemma length_arange n : length (arange n) = n.
Proof. unfold arange. rewrite length_map. apply length_seq. Qed.

(** On a strictly decreasing series the fitted slope is not positive. *)
Lemma polyfit_slope_decreasing ys :
  strictly_decreasing ys -> (polyfit_slope (arange (length ys)) ys <= 0)%Q.
Proof.
  intro Hy. unfold polyfit_slope.
  pose proof (slope_num_decreasing (arange (length ys)) ys
                (length_arange _) (arange_increasing _) Hy) as Hn.
  pose proof (slope_den_nonneg (arange (length ys)) (arange_increasing _)) as Hd.
  unfold Qdiv.
  pose proof (Qinv_le_0_compat _ Hd) as Hi.
  set (a := slope_num _ _) in *. set (b := / slope_den _) in *. nra.
Qed.

End LeastSquares.

(** *** Step 3 against its reading as a statement about steps *)

Lemma consistent_increase_false_iff (l : list Q) (tol : Q) :
  consistent_increase l tol = false <->
  exists l1 prev curr l2,
    l = l1 ++ prev :: curr :: l2 /\ (curr < prev * (1 - tol))%Q.
Proof.
  induction l as [|a l IH].
  - simpl. split; [discriminate|].
    intros (l1 & p & c & l2 & E & _). destruct l1; discriminate.
  - destruct l as [|b l].
    + simpl. split; [discriminate|].
      intros (l1 & p & c & l2 & E & _).
      destruct l1 as [|? [|? ?]]; discriminate.
    + change (consistent_increase (a :: b :: l) tol)
        with (if Qltb b (a * (1 - tol)) then false
              else consistent_increase (b :: l) tol).
      destruct (Qltb b (a * (1 - tol))) eqn:E.
      * split; [|reflexivity]. intros _.
        exists [], a, b, l. split; [reflexivity|]. apply Qltb_iff. exact E.
      * rewrite IH. split.
        -- intros (l1 & p & c & l2 & E' & Hlt).
           exists (a :: l1), p, c, l2. split; [|exact Hlt].
           simpl. rewrite E'. reflexivity.
        -- intros (l1 & p & c & l2 & E' & Hlt).
           destruct l1 as [|x l1].
           ++ simpl in E'. injection E' as -> -> ->.
              apply Qltb_iff in Hlt. congruence.
           ++ simpl in E'. injection E' as -> E'.
              exists l1, p, c, l2. split; assumption.
Qed.

(** *** The classifier on short and on monotone series *)

Lemma check_trend_too_short (s : Series) (kind : string) (tol : Q) :
  (length (dropna s) < 2)%nat -> check_trend s kind tol = false.
Proof.
  intro H. unfold check_trend.
  apply Nat.ltb_lt in H. rewrite H. reflexivity.
Qed.

(** C8: a series with fewer than two points left after the missing values
    are dropped fails each of the three trend kinds, whatever the
    tolerance. *)
Theorem check_trend_fewer_than_two_points (s : Series) (tol : Q) :
  (length (dropna s) < 2)%nat ->
  check_trend s "increasing" tol = false /\
  check_trend s "stable_increasing" tol = false /\
  check_trend s "reducing_stable" tol = false.
Proof.
  intro H. repeat split; apply check_trend_too_short; exact H.
Qed.

Lemma check_trend_fewer_than_two_points_witness :
  check_trend [(1%Z, None); point 2 100] "increasing" default_tolerance = false /\
  check_trend [(1%Z, None); point 2 100] "stable_increasing" default_tolerance
    = false /\
  check_trend [(1%Z, None); point 2 100] "reducing_stable" default_tolerance
    = false.
Proof.
  apply (check_trend_fewer_than_two_points [(1%Z, None); point 2 100]).
  simpl. lia.
Defined.

Lemma endpoints_of_chronological (s : Series) :
  hd 0%Q (chronological s) = last (values (sort_index_desc (dropna s))) 0%Q /\
  last (chronological s) 0%Q = hd 0%Q (values (sort_index_desc (dropna s))).
Proof.
  unfold chronological. split; [apply hd_rev_last | apply last_rev_hd].
Qed.

Lemma sorted_endpoints (R : Q -> Q -> Prop) (l : list Q) :
  (2 <= length l)%nat -> StronglySorted R l -> R (hd 0%Q l) (last l 0%Q).
Proof.
  destruct l as [|a [|b l]]; simpl length; try lia.
  intros _ H. apply (sorted_hd_last R a b l 0%Q H).
Qed.

(** C1, as the code has it: with the default tolerance, every strictly
    increasing series of at least two points passes [increasing]; a strictly
    decreasing one fails exactly when some chronological step falls below
    [previous * (1 - tolerance)], and passes when every dip stays within the
    tolerance. *)
Theorem check_trend_increasing_on_monotone (s : Series) :
  (2 <= length (dropna s))%nat ->
  (strictly_increasing (chronological s) ->
   check_trend s "increasing" default_tolerance = true) /\
  (strictly_decreasing (chronological s) ->
   (check_trend s "increasing" default_tolerance = false <->
    exists l1 prev curr l2,
      chronological s = l1 ++ prev :: curr :: l2 /\
      (curr < prev * (1 - default_tolerance))%Q)).
Proof.
  intro Hlen.
  pose proof (endpoints_of_chronological s) as [Hold Hnew].
  assert (Hc : (2 <= length (chronological s))%nat)
    by (rewrite length_chronological; exact Hlen).
  assert (Hlt : (length (dropna s) <? 2)%nat = false)
    by (apply Nat.ltb_ge; exact Hlen).
  split; intro Hmono.
  - pose proof (sorted_endpoints _ _ Hc Hmono) as Hends.
    rewrite Hold, Hnew in Hends.
    unfold check_trend. rewrite Hlt. simpl String.eqb. cbv iota.
    apply Qltb_iff in Hends. rewrite Hends. reflexivity.
  - pose proof (sorted_endpoints _ _ Hc Hmono) as Hends.
    rewrite Hold, Hnew in Hends. cbv beta in Hends.
    pose proof (polyfit_slope_decreasing _ Hmono) as Hslope.
    unfold chronological in Hslope. rewrite length_rev in Hslope.
    rewrite <- consistent_increase_false_iff.
    unfold check_trend. rewrite Hlt. simpl String.eqb. cbv iota.
    apply Qlt_le_weak in Hends.
    apply Qltb_false_iff in Hends. rewrite Hends.
    apply Qltb_false_iff in Hslope. rewrite Hslope.
    unfold chronological. reflexivity.
Qed.

Lemma check_trend_increasing_on_monotone_witness :
  check_trend [point 3 120; point 2 110; point 1 100]
              "increasing" default_tolerance = true /\
  check_trend [point 3 80; point 2 90; point 1 100]
              "increasing" default_tolerance = false.
Proof.
  split.
  - apply (check_trend_increasing_on_monotone
             [point 3 120; point 2 110; point 1 100]).
    + simpl. lia.
    + repeat constructor; reflexivity.
  - apply (check_trend_increasing_on_monotone
             [point 3 80; point 2 90; point 1 100]).
    + simpl. lia.
    + repeat constructor; reflexivity.
    + exists [], 100%Q, 90%Q, [80%Q]. split; reflexivity.
Defined.

(** C1 as worded fails: a strictly decreasing series whose steps all stay
    within the tolerance passes [increasing] through step 3. *)
Lemma check_trend_decreasing_can_pass :
  strictly_decreasing (chronological [point 2 99; point 1 100]) /\
  (2 <= length (dropna [point 2 99; point 1 100]))%nat /\
  check_trend [point 2 99; point 1 100] "increasing" default_tolerance = true.
Proof.
  split; [|split].
  - repeat constructor; reflexivity.
  - simpl. lia.
  - reflexivity.
Qed.

End Trend.

(** ** Computed numbers: numpy's float64 without rounding *)

Module F64.

Inductive float64 : Type :=
| Fin (q : Q)
| PInf
| NInf
| NaN.

(** A table entry read by [.iloc]: a missing value reads as NaN. *)
Definition of_entry (e : entry) : float64 :=
  match e with
  | Some q => Fin q
  | None => NaN
  end.

Definition fneg (x : float64) : float64 :=
  match x with
  | Fin q => Fin (- q)
  | PInf => NInf
  | NInf => PInf
  | NaN => NaN
  end.

(** [abs(x)] *)
Definition fabs (x : float64) : float64 :=
  match x with
  | Fin q => Fin (Qabs q)
  | PInf => PInf
  | NInf => PInf
  | NaN => NaN
  end.

Definition fadd (x y : float64) : float64 :=
  match x, y with
  | NaN, _ => NaN
  | _, NaN => NaN
  | Fin a, Fin b => Fin (a + b)
  | Fin _, PInf => PInf
  | Fin _, NInf => NInf
  | PInf, NInf => NaN
  | PInf, _ => PInf
  | NInf, PInf => NaN
  | NInf, _ => NInf
  end.

Definition fsub (x y : float64) : float64 := fadd x (fneg y).

(** An infinity of the sign of [pos] times the sign of [a]; NaN at zero. *)
Definition scaled_inf (pos : bool) (a : Q) : float64 :=
  match (a ?= 0)%Q with
  | Gt => if pos then PInf else NInf
  | Lt => if pos then NInf else PInf
  | Eq => NaN
  end.

Definition fmul (x y : float64) : float64 :=
  match x, y with
  | NaN, _ => NaN
  | _, NaN => NaN
  | Fin a, Fin b => Fin (a * b)
  | Fin a, PInf => scaled_inf true a
  | Fin a, NInf => scaled_inf false a
  | PInf, Fin b => scaled_inf true b
  | NInf, Fin b => scaled_inf false b
  | PInf, PInf => PInf
  | NInf, NInf => PInf
  | PInf, NInf => NInf
  | NInf, PInf => NInf
  end.

(** numpy's true division: a zero divisor gives an infinity (or NaN for
    0/0) with a warning, never an exception.  The sign of a zero is not
    tracked: every zero is +0. *)
Definition fdiv (x y : float64) : float64 :=
  match x, y with
  | NaN, _ => NaN
  | _, NaN => NaN
  | Fin a, Fin b => if Qeq_bool b 0 then scaled_inf true a else Fin (a / b)
  | Fin _, PInf => Fin 0
  | Fin _, NInf => Fin 0
  | PInf, Fin b => if Qle_bool 0 b then PInf else NInf
  | NInf, Fin b => if Qle_bool 0 b then NInf else PInf
  | PInf, PInf => NaN
  | PInf, NInf => NaN
  | NInf, PInf => NaN
  | NInf, NInf => NaN
  end.

(** [x < y]: false whenever a NaN is involved. *)
Definition flt (x y : float64) : bool :=
  match x, y with
  | NaN, _ => false
  | _, NaN => false
  | Fin a, Fin b => Qltb a b
  | Fin _, PInf => true
  | Fin _, NInf => false
  | PInf, _ => false
  | NInf, NInf => false
  | NInf, _ => true
  end.

(** [x <= y] *)
Definition fle (x y : float64) : bool :=
  match x, y with
  | NaN, _ => false
  | _, NaN => false
  | Fin a, Fin b => Qle_bool a b
  | Fin _, PInf => true
  | Fin _, NInf => false
  | PInf, PInf => true
  | PInf, _ => false
  | NInf, _ => true
  end.

Definition fgt (x y : float64) : bool := flt y x.
Definition fge (x y : float64) : bool := fle y x.

(** [bool(x)]: only a zero is falsy; NaN and the infinities are truthy. *)
Definition truthy (x : float64) : bool :=
  match x with
  | Fin q => negb (Qeq_bool q 0)
  | _ => true
  end.

(** [x != 0] *)
Definition fne0 (x : float64) : bool := truthy x.

(** Python's builtin [max(a, b)]: [b] replaces [a] only when [b > a]. *)
Definition py_max (a b : float64) : float64 := if fgt b a then b else a.

(** Python's builtin [min(a, b)]: [b] replaces [a] only when [b < a]. *)
Definition py_min (a b : float64) : float64 := if flt b a then b else a.

(** [b ** e] on numpy scalars for an exponent 0 < e < 1 (the code's
    [1/len(series)] with at least three points): NaN for a negative base,
    the real power [real_pow b e] for a finite base that is not negative. *)
Definition np_power (real_pow : Q -> Q -> Q) (b : float64) (e : Q) : float64 :=
  match b with
  | Fin q => if Qltb q 0 then NaN else Fin (real_pow q e)
  | PInf => PInf
  | NInf => PInf
  | NaN => NaN
  end.

(** A finite value within closed bounds. *)
Definition within (lo hi : Q) (x : float64) : Prop :=
  match x with
  | Fin q => (lo <= q <= hi)%Q
  | _ => False
  end.

Lemma flt_Fin a b : flt (Fin a) (Fin b) = true <-> (a < b)%Q.
Proof. apply Qltb_iff. Qed.

Lemma fle_Fin a b : fle (Fin a) (Fin b) = true <-> (a <= b)%Q.
Proof. apply Qle_bool_iff. Qed.

End F64.
Import F64.

(** ** 4.2 Support levels: swing lows and the final merge *)

Module Support.

(** [df['Low'].iloc[i]], for the [Low] column of a price history. *)
Definition low_at (lows : list entry) (i : nat) : float64 :=
  of_entry (nth i lows None).

(** The inner loop of [get_swing_lows]: [is_low] stays set when no bar
    within [window] on either side has a lower low. *)
Definition is_swing_low (lows : list entry) (window i : nat) : bool :=
  forallb
    (fun j => negb (fgt (low_at lows i) (low_at lows (i - j))
                    || fgt (low_at lows i) (low_at lows (i + j))))
    (seq 1 window).

(** [get_swing_lows(df, window)]: [i] runs over
    [range(window, len(df) - window)]. *)
Definition get_swing_lows (lows : list entry) (window : nat) : list float64 :=
  map (low_at lows)
      (filter (is_swing_low lows window)
              (seq window (length lows - window - window))).

(** A support candidate: the dictionary appended to [support_candidates]. *)
Record Candidate : Type := {
  price : Q;
  source : string;
  reason : string;
  score : Q
}.

(** [support_candidates.sort(key=lambda x: x['price'], reverse=True)]:
    a stable sort, highest price first. *)
Fixpoint insert_by_price (c : Candidate) (l : list Candidate) : list Candidate :=
  match l with
  | [] => [c]
  | h :: t =>
      if Qle_bool (price h) (price c) then c :: l
      else h :: insert_by_price c t
  end.

Fixpoint sort_by_price_desc (l : list Candidate) : list Candidate :=
  match l with
  | [] => []
  | c :: rest => insert_by_price c (sort_by_price_desc rest)
  end.

(** The variables of the merge loop. *)
Record MergeState : Type := {
  unique_levels : list Candidate;
  current_level : Candidate;
  merged_group : list Candidate
}.

(** [abs(current_level['price'] - next_level['price'])
     / current_level['price'] <= 0.015] *)
Definition close_to (current next : Candidate) : bool :=
  fle (fdiv (fabs (fsub (Fin (price current)) (Fin (price next))))
            (Fin (price current)))
      (Fin (15 # 1000)).

(** One iteration of the loop over [support_candidates[1:]]. *)
Definition merge_step (st : MergeState) (next_level : Candidate) : MergeState :=
  if close_to (current_level st) next_level then
    {| unique_levels := unique_levels st;
       current_level :=
         if Qltb (score (current_level st)) (score next_level)
         then next_level else current_level st;
       merged_group := merged_group st ++ [next_level] |}
  else
    {| unique_levels := unique_levels st ++ [current_level st];
       current_level := next_level;
       merged_group := [next_level] |}.

(** The "Final Selection" of [get_validated_support_levels]: sort, merge
    close levels, keep the first five. *)
Definition final_selection (support_candidates : list Candidate)
  : list Candidate :=
  let support_candidates := sort_by_price_desc support_candidates in
  let levels :=
    match support_candidates with
    | [] => []
    | first :: rest =>
        let st := fold_left merge_step rest
                    {| unique_levels := [];
                       current_level := first;
                       merged_group := [first] |} in
        unique_levels st ++ [current_level st]
    end in
  firstn 5 levels.



Definition level (p s : Q) : Candidate :=
  {| price := p; source := "Price Action"; reason := ""; score := s |}.

Example final_selection_merges :
  map price (final_selection [level 100 3; level 99 6; level 90 3; level 98 4])
  = [99%Q; 90%Q].
Proof. reflexivity. Qed.

Example get_swing_lows_example :
  get_swing_lows [Some 1; Some 5; Some 4; Some 2; Some 6; Some 7; Some 3]%Q 2
  = [Fin 2].
Proof. reflexivity. Qed.

(** *** Swing lows come from interior bars only *)

Lemma get_swing_lows_in (lows : list entry) (W : nat) (v : float64) :
  In v (get_swing_lows lows W) <->
  exists i, (W <= i < length lows - W)%nat /\
            is_swing_low lows W i = true /\ v = low_at lows i.
Proof.
  unfold get_swing_lows. rewrite in_map_iff. split.
  - intros (i & <- & Hi). apply filter_In in Hi. destruct Hi as [Hi Hlow].
    apply in_seq in Hi. exists i. repeat split; try assumption; lia.
  - intros (i & Hi & Hlow & ->). exists i. split; [reflexivity|].
    apply filter_In. split; [|exact Hlow]. apply in_seq. lia.
Qed.

(** C10: with window [W] the loop visits the bars [W .. len-W-1] only.  A
    history of fewer than [2W+1] bars yields no swing low; every reported
    low is the low of an interior bar (and every interior bar that passes
    the window test is reported); and a bar among the first or the last
    [W] whose low is the strict minimum of the whole history is not
    reported: no reported low is as small as its low. *)
Theorem get_swing_lows_interior_bars (lows : list entry) (W : nat) :
  ((length lows < 2 * W + 1)%nat -> get_swing_lows lows W = []) /\
  (forall v, In v (get_swing_lows lows W) <->
     exists i, (W <= i < length lows - W)%nat /\
               is_swing_low lows W i = true /\ v = low_at lows i) /\
  (forall k, (k < length lows)%nat ->
     (k < W \/ length lows - W <= k)%nat ->
     (forall i, i <> k -> (i < length lows)%nat ->
                fle (low_at lows i) (low_at lows k) = false) ->
     forall v, In v (get_swing_lows lows W) ->
               fle v (low_at lows k) = false).
Proof.
  split; [|split].
  - intro H. unfold get_swing_lows.
    replace (length lows - W - W)%nat with 0%nat by lia. reflexivity.
  - intro v. apply get_swing_lows_in.
  - intros k Hk Hedge Hmin v Hv.
    apply get_swing_lows_in in Hv. destruct Hv as (i & Hi & _ & ->).
    apply Hmin; lia.
Qed.

Lemma get_swing_lows_interior_bars_witness :
  get_swing_lows [Some 3; Some 2; Some 1; Some 2]%Q 2 = [] /\
  (forall v,
     In v (get_swing_lows [Some 1; Some 5; Some 4; Some 6; Some 7]%Q 2) ->
     fle v (low_at [Some 1; Some 5; Some 4; Some 6; Some 7]%Q 0) = false).
Proof.
  split.
  - apply (get_swing_lows_interior_bars [Some 3; Some 2; Some 1; Some 2]%Q 2).
    simpl. lia.
  - apply (get_swing_lows_interior_bars
             [Some 1; Some 5; Some 4; Some 6; Some 7]%Q 2).
    + simpl. lia.
    + left. lia.
    + intros i Hne Hlt. simpl in Hlt.
      destruct i as [|[|[|[|[|i]]]]]; try reflexivity; lia.
Defined.

(** *** The merge keeps levels more than 1.5% apart *)





















End Support.

(** ** 4.3 Intrinsic value: [calculate_intrinsic_value] *)

Module Valuation.

Local Open Scope string_scope.

(** *** Python values the function handles *)

(** [s.replace("%", "")] *)
Fixpoint remove_percent (s : string) : string :=
  match s with
  | EmptyString => EmptyString
  | String c rest =>
      if Ascii.eqb c "%"%char then remove_percent rest
      else String c (remove_percent rest)
  end.

(** [d.get(key, default)] for a key that is absent ([None]) or present. *)
Definition get {A : Type} (field : option A) (default : A) : A :=
  match field with
  | Some v => v
  | None => default
  end.

(** The exceptions the body can raise. *)
Inductive exn : Type := TypeError | IndexError.

Inductive result (A : Type) : Type :=
| Ok (a : A)
| Raise (e : exn).
Arguments Ok {A} a.
Arguments Raise {A} e.

Definition bind {A B : Type} (r : result A) (k : A -> result B) : result B :=
  match r with
  | Ok a => k a
  | Raise e => Raise e
  end.

Notation "x <- r ;; k" := (bind r (fun x => k))
  (at level 61, r at next level, right associativity).

(** The keys of [info] that the function reads.  A key is absent or holds
    a value of its type. *)
Record Info : Type := {
  currentPrice : option float64;
  sharesOutstanding : option float64;
  sector : option string;
  industry : option string;
  country : option string;
  bookValue : option float64;
  priceToBook : option float64
}.

(** A pandas DataFrame of a financial statement: row labels with the
    values of their columns, newest period first. *)
Definition DataFrame := list (string * list entry).

(** [df.empty]: no row or no column. *)
Definition df_empty (df : DataFrame) : bool :=
  match df with
  | [] => true
  | (_, []) :: _ => true
  | _ => false
  end.

(** [label in df.index] *)
Definition in_index (label : string) (df : DataFrame) : bool :=
  existsb (fun row => String.eqb (fst row) label) df.

(** [df.loc[label].iloc[0]] for a label of the index. *)
Definition loc_first (df : DataFrame) (label : string) : result float64 :=
  match find (fun row => String.eqb (fst row) label) df with
  | Some (_, v :: _) => Ok (of_entry v)
  | _ => Raise IndexError
  end.

(** An element of [growth_estimates]: what [str(est.get("period", ""))] and
    [str(est.get("stockTrend", "0"))] read. *)
Record GrowthEstimate : Type := {
  period : option string;
  stockTrend : option string
}.

(** The values of a series as [.iloc] reads them, newest first. *)
Definition iloc_values (s : Series) : list float64 :=
  map (fun p => of_entry (snd p)) s.

(** A formatted assumption: the number and the format string applied to it. *)
Inductive display : Type :=
| Money2 (x : float64)       (* f"${x:.2f}" *)
| Plain2 (x : float64)       (* f"{x:.2f}" *)
| Percent2 (x : float64)     (* f"{x:.2f}%" *)
| MoneyB2 (x : float64)      (* f"${x:.2f}B" *)
| PlainB2 (x : float64)      (* f"{x:.2f}B" *)
| Text (s : string).

(** The values of the result dictionary. *)
Inductive pyval : Type :=
| VStr (s : string)
| VNum (x : float64)
| VDict (d : list (string * display)).

Definition pydict := list (string * pyval).

Fixpoint lookup (key : string) (d : pydict) : option pyval :=
  match d with
  | [] => None
  | (k, v) :: rest => if String.eqb k key then Some v else lookup key rest
  end.

(** The dictionary both failure paths return, up to its [method]. *)
Definition error_result (method : string) : pydict :=
  [ ("status", VStr "Error");
    ("intrinsicValue", VNum (Fin 0));
    ("differencePercent", VNum (Fin 0));
    ("method", VStr method);
    ("assumptions", VDict []) ]%string.

(** *** Method selection *)

(** The counter of [is_consistent]: steps with
    [series.iloc[i] >= series.iloc[i+1] * 0.9]. *)
Fixpoint count_increases (series : list float64) : nat :=
  match series with
  | newer :: ((older :: _) as rest) =>
      ((if fge newer (fmul older (Fin (9 # 10))) then 1 else 0)
       + count_increases rest)%nat
  | _ => 0%nat
  end.

Definition is_consistent (series : list float64) : bool :=
  if (length series <? 3)%nat then false
  else (length series - 2 <=? count_increases series)%nat.

(** [series.iloc[0] if not series.empty else 0] *)
Definition current_value (series : list float64) : float64 :=
  match series with
  | [] => Fin 0
  | v :: _ => v
  end.

Definition is_financial (sector industry : string) : bool :=
  str_contains "Financial" sector
  || str_contains "Bank" industry
  || str_contains "Insurance" industry.

(** [get_discount_rate(beta, country)]; [beta] is [None] when the caller
    has none. *)
Definition get_discount_rate (beta : option float64) (country : string) : Q :=
  let beta :=
    match beta with
    | Some b => if truthy b then b else Fin 1
    | None => Fin 1
    end in
  let is_china := str_contains "China" country in
  if is_china then
    if flt beta (Fin (80 # 100)) then 85 # 1000
    else if fge beta (Fin (16 # 10)) then 145 # 1000
    else if flt beta (Fin (85 # 100)) then 85 # 1000
    else if flt beta (Fin (95 # 100)) then 93 # 1000
    else if flt beta (Fin (105 # 100)) then 100 # 1000
    else if flt beta (Fin (115 # 100)) then 108 # 1000
    else if flt beta (Fin (125 # 100)) then 115 # 1000
    else if flt beta (Fin (135 # 100)) then 122 # 1000
    else if flt beta (Fin (145 # 100)) then 130 # 1000
    else 137 # 1000
  else
    if flt beta (Fin (80 # 100)) then 54 # 1000
    else if fge beta (Fin (16 # 10)) then 78 # 1000
    else if flt beta (Fin (85 # 100)) then 54 # 1000
    else if flt beta (Fin (95 # 100)) then 57 # 1000
    else if flt beta (Fin (105 # 100)) then 60 # 1000
    else if flt beta (Fin (115 # 100)) then 63 # 1000
    else if flt beta (Fin (125 # 100)) then 66 # 1000
    else if flt beta (Fin (135 # 100)) then 69 # 1000
    else if flt beta (Fin (145 # 100)) then 72 # 1000
    else if flt beta (Fin (155 # 100)) then 75 # 1000
    else 78 # 1000.

Section PythonPrimitives.

(** The real power [x ** y] for [x >= 0], behind numpy's [**]. *)
Variable real_pow : Q -> Q -> Q.

(** Python's [float(s)]: [None] when it raises [ValueError]. *)
Variable py_float : string -> option float64.

(** [(series.iloc[0] / series.iloc[-1]) ** (1/len(series)) - 1] *)
Definition cagr (series : list float64) : float64 :=
  fsub (np_power real_pow (fdiv (hd NaN series) (last series NaN))
                 (1 / Qlen series))
       (Fin 1).

Definition rev_cagr (revenue_series : list float64) : float64 :=
  if (3 <=? length revenue_series)%nat then cagr revenue_series else Fin 0.

Definition is_speculative (sector industry : string)
    (revenue_series net_income_series op_cash_flow_series : list float64)
  : bool :=
  fgt (rev_cagr revenue_series) (Fin (15 # 100))
  && (flt (current_value net_income_series) (Fin 0)
      || flt (current_value op_cash_flow_series) (Fin 0))
  && negb (is_financial sector industry).

(** Step 1 of [calculate_intrinsic_value]: the [method] string. *)
Definition select_method (sector industry : string)
    (revenue_series net_income_series op_cash_flow_series : list float64)
  : string :=
  let rev_consistent := is_consistent revenue_series in
  let ni_consistent := is_consistent net_income_series in
  let ocf_consistent := is_consistent op_cash_flow_series in
  let current_ni := current_value net_income_series in
  let current_ocf := current_value op_cash_flow_series in
  if is_financial sector industry then "Mean Price-to-Book (PB)"
  else if is_speculative sector industry revenue_series net_income_series
            op_cash_flow_series
  then "Price to Sales Growth (PSG)"
  else if rev_consistent && ni_consistent && ocf_consistent then
    if fgt current_ocf (fmul (Fin (15 # 10)) current_ni)
    then "Discounted Free Cash Flow (DFCF)"
    else "Discounted Operating Cash Flow (DOCF)"
  else if rev_consistent && ni_consistent then "Discounted Net Income (DNI)"
  else if fgt current_ocf (Fin 0)
  then "Discounted Operating Cash Flow (DOCF)"
  else "Discounted Net Income (DNI)".

(** *** Growth-rate schedule *)

(** The loop over [growth_estimates] looking for "Next 5 Years": the first
    matching entry whose [stockTrend] parses sets the rate and breaks; an
    entry that fails to parse is passed over. *)
Fixpoint estimated_growth (growth_estimates : list GrowthEstimate)
    (growth_rate_1_5 : float64) : float64 :=
  match growth_estimates with
  | [] => growth_rate_1_5
  | est :: rest =>
      if str_contains "Next 5 Years" (get (period est) "") then
        match py_float (remove_percent (get (stockTrend est) "0")) with
        | Some v => fdiv v (Fin 100)
        | None => estimated_growth rest growth_rate_1_5
        end
      else estimated_growth rest growth_rate_1_5
  end.

(** The historical branch: the net-income CAGR when there are more than
    three points and the oldest is not zero. *)
Definition historical_growth (net_income_series : list float64)
    (growth_rate_1_5 : float64) : float64 :=
  if negb (length net_income_series =? 0)%nat
     && (3 <? length net_income_series)%nat then
    let start := fabs (last net_income_series NaN) in
    let end_ := hd NaN net_income_series in
    if fgt start (Fin 0) then
      fsub (np_power real_pow (fdiv end_ start) (1 / Qlen net_income_series))
           (Fin 1)
    else growth_rate_1_5
  else growth_rate_1_5.

(** The rate before it is capped. *)
Definition raw_growth_rate_1_5 (growth_estimates : list GrowthEstimate)
    (net_income_series : list float64) : float64 :=
  let growth_rate_1_5 := Fin (5 # 100) in
  match growth_estimates with
  | _ :: _ => estimated_growth growth_estimates growth_rate_1_5
  | [] => historical_growth net_income_series growth_rate_1_5
  end.

(** [min(max(growth_rate_1_5, -0.10), 0.30)] *)
Definition cap_growth (g : float64) : float64 :=
  py_min (py_max g (Fin (- (10 # 100)))) (Fin (30 # 100)).

Definition growth_rate_1_5 (growth_estimates : list GrowthEstimate)
    (net_income_series : list float64) : float64 :=
  cap_growth (raw_growth_rate_1_5 growth_estimates net_income_series).

Definition growth_rate_6_10 (growth_rate_1_5 : float64) : float64 :=
  py_min growth_rate_1_5 (Fin (15 # 100)).

Definition growth_rate_11_20 (country : string) : float64 :=
  if str_contains "China" country then Fin (6 # 100) else Fin (4 # 100).

(** *** The three valuation branches *)

(** The projection loops: [n] times [current_val *= (1 + rate)], each
    value appended to [future_values]. *)
Fixpoint project (n : nat) (rate current_val : float64)
  : list float64 * float64 :=
  match n with
  | O => ([], current_val)
  | S n' =>
      let current_val := fmul current_val (fadd (Fin 1) rate) in
      let (later, final) := project n' rate current_val in
      (current_val :: later, final)
  end.

(** The discounting loop over [enumerate(future_values)], from index [i]. *)
Fixpoint present_value_sum (discount_rate : Q) (i : nat)
    (future_values : list float64) (acc : float64) : float64 :=
  match future_values with
  | [] => acc
  | val :: rest =>
      let pv := fdiv val (Fin ((1 + discount_rate) ^ Z.of_nat (i + 1))) in
      present_value_sum discount_rate (S i) rest (fadd acc pv)
  end.

Definition billions (x : float64) : float64 := fdiv x (Fin 1000000000).

(** [total_debt] and [cash_and_equivalents] read off the balance sheet. *)
Definition balance_sheet_items (balance_sheet : DataFrame)
  : result (float64 * float64) :=
  if negb (df_empty balance_sheet) then
    total_debt <-
      (if in_index "Total Debt" balance_sheet
       then loc_first balance_sheet "Total Debt" else Ok (Fin 0)) ;;
    cash <-
      (if in_index "Cash And Cash Equivalents" balance_sheet
       then loc_first balance_sheet "Cash And Cash Equivalents"
       else if in_index "Cash Cash Equivalents And Short Term Investments"
                 balance_sheet
       then loc_first balance_sheet
              "Cash Cash Equivalents And Short Term Investments"
       else Ok (Fin 0)) ;;
    Ok (total_debt, cash)
  else Ok (Fin 0, Fin 0).

(** [method == "Mean Price-to-Book (PB)"] *)
Definition price_to_book (info : Info) (balance_sheet : DataFrame)
    (shares_outstanding : float64)
  : result (float64 * list (string * display)) :=
  book_value <-
    (let book_value := bookValue info in
     let falsy := match book_value with
                  | Some b => negb (truthy b)
                  | None => true
                  end in
     if falsy && negb (df_empty balance_sheet) then
       equity <-
         (if in_index "Stockholders Equity" balance_sheet
          then loc_first balance_sheet "Stockholders Equity"
          else Ok (Fin 0)) ;;
       Ok (Some (fdiv equity shares_outstanding))
     else Ok book_value) ;;
  let current_pb := priceToBook info in
  let mean_pb :=
    match current_pb with
    | Some pb => if truthy pb then pb else Fin (15 # 10)
    | None => Fin (15 # 10)
    end in
  match book_value with
  | None => Raise TypeError
  | Some book_value =>
      Ok (fmul book_value mean_pb,
          [ ("Current Book Value Per Share", Money2 book_value);
            ("Mean PB Ratio", Plain2 mean_pb) ]%string)
  end.

(** [method == "Price to Sales Growth (PSG)"] *)
Definition price_to_sales_growth (revenue_series : list float64)
    (shares_outstanding growth_rate_1_5 : float64)
  : float64 * list (string * display) :=
  let sales_per_share :=
    match revenue_series with
    | [] => Fin 0
    | newest :: _ => fdiv newest shares_outstanding
    end in
  let growth_rate_whole := fmul growth_rate_1_5 (Fin 100) in
  (fmul (fmul sales_per_share growth_rate_whole) (Fin (20 # 100)),
   [ ("Sales Per Share", Money2 sales_per_share);
     ("Projected Growth Rate", Percent2 growth_rate_whole);
     ("Fair PSG Constant", Text "0.20") ]%string).

(** The discounted family (DFCF, DOCF, DNI). *)
Definition discounted_value (method : string) (cashflow : DataFrame)
    (current_ocf current_ni : float64)
    (growth_rate_1_5 growth_rate_6_10 growth_rate_11_20 : float64)
    (discount_rate : Q) (total_debt cash_and_equivalents : float64)
    (shares_outstanding : float64)
  : result (float64 * list (string * display)) :=
  base <-
    (if str_contains "Free Cash Flow" method then
       capex <-
         (if in_index "Capital Expenditure" cashflow then
            v <- loc_first cashflow "Capital Expenditure" ;; Ok (fabs v)
          else if in_index "Capital Expenditures" cashflow then
            v <- loc_first cashflow "Capital Expenditures" ;; Ok (fabs v)
          else Ok (Fin 0)) ;;
       Ok (fsub current_ocf capex, "Free Cash Flow"%string)
     else if str_contains "Operating Cash Flow" method then
       Ok (current_ocf, "Operating Cash Flow"%string)
     else if str_contains "Net Income" method then
       Ok (current_ni, "Net Income"%string)
     else Ok (Fin 0, ""%string)) ;;
  let (base_value, metric_name) := base in
  let (years_1_5, v5) := project 5 growth_rate_1_5 base_value in
  let (years_6_10, v10) := project 5 growth_rate_6_10 v5 in
  let (years_11_20, _) := project 10 growth_rate_11_20 v10 in
  let future_values := (years_1_5 ++ years_6_10 ++ years_11_20)%list in
  let pv_sum := present_value_sum discount_rate 0 future_values (Fin 0) in
  let equity_value := fsub (fadd pv_sum cash_and_equivalents) total_debt in
  Ok (fdiv equity_value shares_outstanding,
      [ (("Current " ++ metric_name)%string, MoneyB2 (billions base_value));
        ("Growth Rate (Yr 1-5)", Percent2 (fmul growth_rate_1_5 (Fin 100)));
        ("Growth Rate (Yr 6-10)", Percent2 (fmul growth_rate_6_10 (Fin 100)));
        ("Growth Rate (Yr 11-20)",
         Percent2 (fmul growth_rate_11_20 (Fin 100)));
        ("Discount Rate", Percent2 (fmul (Fin discount_rate) (Fin 100)));
        ("Total Debt", MoneyB2 (billions total_debt));
        ("Cash & Equivalents", MoneyB2 (billions cash_and_equivalents));
        ("Shares Outstanding", PlainB2 (billions shares_outstanding))
      ]%string).

(** *** The whole function *)

(** The body of the [try], after the guard on price and shares. *)
Definition valuation_body (info : Info) (balance_sheet cashflow : DataFrame)
    (revenue_series net_income_series op_cash_flow_series : Series)
    (growth_estimates : list GrowthEstimate) (beta : option float64)
    (current_price shares_outstanding : float64) : result pydict :=
  let sector := get (sector info) "" in
  let industry := get (industry info) "" in
  let country := get (country info) "United States" in
  let revenue := iloc_values revenue_series in
  let net_income := iloc_values net_income_series in
  let op_cash_flow := iloc_values op_cash_flow_series in
  let current_ni := current_value net_income in
  let current_ocf := current_value op_cash_flow in
  let method := select_method sector industry revenue net_income op_cash_flow in
  let beta_val :=
    match beta with
    | Some b => if truthy b then b else Fin 1
    | None => Fin 1
    end in
  let discount_rate := get_discount_rate (Some beta_val) country in
  let g_1_5 := growth_rate_1_5 growth_estimates net_income in
  let g_6_10 := growth_rate_6_10 g_1_5 in
  let g_11_20 := growth_rate_11_20 country in
  items <- balance_sheet_items balance_sheet ;;
  let (total_debt, cash_and_equivalents) := items in
  valued <-
    (if String.eqb method "Mean Price-to-Book (PB)" then
       price_to_book info balance_sheet shares_outstanding
     else if String.eqb method "Price to Sales Growth (PSG)" then
       Ok (price_to_sales_growth revenue shares_outstanding g_1_5)
     else
       discounted_value method cashflow current_ocf current_ni
         g_1_5 g_6_10 g_11_20 discount_rate total_debt cash_and_equivalents
         shares_outstanding) ;;
  let (intrinsic_value, assumptions) := valued in
  let diff_percent :=
    if truthy intrinsic_value && fne0 intrinsic_value
    then fsub (fdiv current_price intrinsic_value) (Fin 1)
    else Fin 0 in
  let status :=
    if fgt diff_percent (Fin (15 # 100)) then "Overvalued"
    else if flt diff_percent (Fin (- (15 # 100))) then "Undervalued"
    else "Fairly Valued" in
  Ok [ ("method", VStr method);
       ("intrinsicValue", VNum intrinsic_value);
       ("currentPrice", VNum current_price);
       ("differencePercent", VNum diff_percent);
       ("status", VStr status);
       ("assumptions", VDict assumptions) ]%string.

(** The body with its guard: price and shares must be truthy. *)
Definition guarded_body (info : Info) (balance_sheet cashflow : DataFrame)
    (revenue_series net_income_series op_cash_flow_series : Series)
    (growth_estimates : list GrowthEstimate) (beta : option float64)
  : result pydict :=
  let current_price := get (currentPrice info) (Fin 0) in
  let shares_outstanding := get (sharesOutstanding info) (Fin 1) in
  if negb (truthy current_price) || negb (truthy shares_outstanding) then
    Ok (error_result "N/A")
  else
    valuation_body info balance_sheet cashflow revenue_series
      net_income_series op_cash_flow_series growth_estimates beta
      current_price shares_outstanding.

(** [calculate_intrinsic_value]: the guarded body under
    [try: ... except Exception]. *)
Definition calculate_intrinsic_value (ticker : string) (info : Info)
    (financials balance_sheet cashflow : DataFrame)
    (revenue_series net_income_series op_cash_flow_series : Series)
    (growth_estimates : list GrowthEstimate) (beta : option float64)
  : pydict :=
  match guarded_body info balance_sheet cashflow revenue_series
          net_income_series op_cash_flow_series growth_estimates beta with
  | Ok r => r
  | Raise _ => error_result "Error"
  end.

End PythonPrimitives.

Example discount_rate_scenario :
  get_discount_rate (Some (Fin 1)) "United States" = 60 # 1000.
Proof. reflexivity. Qed.

(** *** The discount-rate table *)

(** The rate of the last bucket of each table. *)
Definition top_bucket_rate (country : string) : Q :=
  if str_contains "China" country then 145 # 1000 else 78 # 1000.

Ltac split_comparisons :=
  repeat match goal with
  | |- context [Qltb ?a ?b] =>
      let E := fresh "E" in
      destruct (Qltb a b) eqn:E;
      [apply Qltb_iff in E | apply Qltb_false_iff in E]
  | |- context [Qle_bool ?a ?b] =>
      let E := fresh "E" in
      destruct (Qle_bool a b) eqn:E;
      [apply Qle_bool_iff in E
      | assert (~ (a <= b)%Q)
          by (let L := fresh in intro L; apply Qle_bool_iff in L; congruence);
        clear E]
  end.

Lemma get_discount_rate_monotone_finite (a b : Q) (country : string) :
  truthy (Fin a) = true -> truthy (Fin b) = true -> (a <= b)%Q ->
  (get_discount_rate (Some (Fin a)) country
   <= get_discount_rate (Some (Fin b)) country)%Q.
Proof.
  intros Ta Tb Hab. unfold get_discount_rate. rewrite Ta, Tb.
  cbv beta iota delta [flt fge fle truthy].
  destruct (str_contains "China" country); split_comparisons; lra.
Qed.

Lemma get_discount_rate_at_most_top (beta : option float64) (country : string) :
  (get_discount_rate beta country <= top_bucket_rate country)%Q.
Proof.
  unfold get_discount_rate, top_bucket_rate.
  destruct (str_contains "China" country);
    repeat match goal with
    | |- context [if ?c then _ else _] => destruct c
    end; lra.
Qed.

(** C5, as the code has it: in both tables the rate is non-decreasing in
    beta over the betas the lookup uses as given, that is the truthy ones;
    every beta of at least 1.6 gets the rate of the last bucket, and no
    beta gets more; a beta of zero is treated like a missing beta, and
    both get the rate of beta 1.0, which is 10% in the China table and 6%
    in the other. *)
Theorem get_discount_rate_monotone (country : string) :
  (forall b1 b2 : float64,
     truthy b1 = true -> truthy b2 = true -> fle b1 b2 = true ->
     (get_discount_rate (Some b1) country
      <= get_discount_rate (Some b2) country)%Q) /\
  (forall b : float64,
     fge b (Fin (16 # 10)) = true ->
     get_discount_rate (Some b) country = top_bucket_rate country) /\
  (forall beta : option float64,
     (get_discount_rate beta country <= top_bucket_rate country)%Q) /\
  (forall b : float64,
     truthy b = false ->
     get_discount_rate (Some b) country = get_discount_rate None country) /\
  get_discount_rate None country
  = get_discount_rate (Some (Fin 1)) country /\
  get_discount_rate (Some (Fin 1)) country
  = (if str_contains "China" country then 100 # 1000 else 60 # 1000).
Proof.
  split; [|split; [|split; [|split; [|split]]]];
    [| | | intros b T; unfold get_discount_rate; rewrite T; reflexivity
     | reflexivity
     | unfold get_discount_rate;
       destruct (str_contains "China" country); reflexivity].
  - intros b1 b2 T1 T2 Hle.
    destruct b1 as [a| | |], b2 as [b| | |]; try discriminate Hle.
    + apply get_discount_rate_monotone_finite; try assumption.
      apply Qle_bool_iff. exact Hle.
    + unfold get_discount_rate. rewrite T1. cbv beta iota delta [flt fge fle truthy].
      destruct (str_contains "China" country); split_comparisons; lra.
    + apply Qle_lteq. right. reflexivity.
    + unfold get_discount_rate. rewrite T2. cbv beta iota delta [flt fge fle truthy].
      destruct (str_contains "China" country); split_comparisons; lra.
    + unfold get_discount_rate.
      destruct (str_contains "China" country); simpl; lra.
    + apply Qle_lteq. right. reflexivity.
  - intros b Hge. unfold get_discount_rate, top_bucket_rate.
    destruct b as [q| | |]; try discriminate Hge.
    + unfold fge, fle in Hge. apply Qle_bool_iff in Hge.
      assert (T : truthy (Fin q) = true).
      { unfold truthy. destruct (Qeq_bool q 0) eqn:E; [|reflexivity].
        apply Qeq_bool_iff in E. lra. }
      rewrite T. cbv beta iota delta [flt fge fle truthy].
      destruct (str_contains "China" country); split_comparisons;
        try reflexivity; lra.
    + destruct (str_contains "China" country); reflexivity.
  - intro beta. apply get_discount_rate_at_most_top.
Qed.

Lemma get_discount_rate_monotone_witness :
  (get_discount_rate (Some (Fin (9 # 10))) "China"
   <= get_discount_rate (Some (Fin (12 # 10))) "China")%Q /\
  get_discount_rate (Some (Fin 2)) "United States"
  = top_bucket_rate "United States" /\
  get_discount_rate (Some (Fin 0)) "China" = get_discount_rate None "China".
Proof.
  destruct (get_discount_rate_monotone "China") as (Hmono & _ & _ & Hzero & _).
  destruct (get_discount_rate_monotone "United States") as (_ & Htop & _).
  split; [|split].
  - apply Hmono; reflexivity.
  - apply Htop. reflexivity.
  - apply Hzero. reflexivity.
Defined.

(** C5 as worded fails at a beta of zero, which the lookup treats as
    missing: it gets the rate of beta 1.0, above the rate of beta 0.5. *)
Lemma get_discount_rate_zero_beta_above :
  fle (Fin 0) (Fin (1 # 2)) = true /\
  get_discount_rate (Some (Fin 0)) "United States" = 60 # 1000 /\
  get_discount_rate (Some (Fin (1 # 2))) "United States" = 54 # 1000 /\
  ~ (get_discount_rate (Some (Fin 0)) "United States"
     <= get_discount_rate (Some (Fin (1 # 2))) "United States")%Q.
Proof.
  repeat split. intro H. apply Qle_bool_iff in H. discriminate H.
Qed.

(** *** Method selection: what it depends on *)

Inductive sign : Type := Negative | Zero | Positive | NotANumber.

Definition sign_of (x : float64) : sign :=
  match x with
  | Fin q =>
      match (q ?= 0)%Q with
      | Lt => Negative
      | Eq => Zero
      | Gt => Positive
      end
  | PInf => Positive
  | NInf => Negative
  | NaN => NotANumber
  end.

(** Two computed numbers are the same number. *)
Definition same_number (x y : float64) : Prop :=
  match x, y with
  | Fin a, Fin b => (a == b)%Q
  | PInf, PInf => True
  | NInf, NInf => True
  | NaN, NaN => True
  | _, _ => False
  end.

Lemma sign_of_Fin (q : Q) :
  (sign_of (Fin q) = Negative /\ (q < 0)%Q) \/
  (sign_of (Fin q) = Zero /\ (q == 0)%Q) \/
  (sign_of (Fin q) = Positive /\ (0 < q)%Q).
Proof.
  unfold sign_of. destruct (q ?= 0)%Q eqn:E.
  - right. left. split; [reflexivity|]. apply Qeq_alt. exact E.
  - left. split; [reflexivity|]. apply Qlt_alt. exact E.
  - right. right. split; [reflexivity|]. apply Qgt_alt in E. exact E.
Qed.

Lemma Qltb_decide (a b : Q) :
  (Qltb a b = true /\ (a < b)%Q) \/ (Qltb a b = false /\ (b <= a)%Q).
Proof.
  destruct (Qltb a b) eqn:E.
  - left. split; [reflexivity|]. apply Qltb_iff. exact E.
  - right. split; [reflexivity|]. apply Qltb_false_iff. exact E.
Qed.

Lemma same_sign_negative (x y : float64) :
  sign_of x = sign_of y -> flt x (Fin 0) = flt y (Fin 0).
Proof.
  destruct x as [a| | |], y as [b| | |]; intro H; try reflexivity;
    try discriminate H; unfold flt;
    try (destruct (sign_of_Fin a) as [[Sa Ha]|[[Sa Ha]|[Sa Ha]]]);
    try (destruct (sign_of_Fin b) as [[Sb Hb]|[[Sb Hb]|[Sb Hb]]]);
    try congruence;
    try (destruct (Qltb_decide a 0) as [[-> Ea]|[-> Ea]]);
    try (destruct (Qltb_decide b 0) as [[-> Eb]|[-> Eb]]);
    try reflexivity; try lra; simpl in *; try congruence.
Qed.

Lemma same_sign_positive (x y : float64) :
  sign_of x = sign_of y -> fgt x (Fin 0) = fgt y (Fin 0).
Proof.
  destruct x as [a| | |], y as [b| | |]; intro H; try reflexivity;
    try discriminate H; unfold fgt, flt;
    try (destruct (sign_of_Fin a) as [[Sa Ha]|[[Sa Ha]|[Sa Ha]]]);
    try (destruct (sign_of_Fin b) as [[Sb Hb]|[[Sb Hb]|[Sb Hb]]]);
    try congruence;
    try (destruct (Qltb_decide 0 a) as [[-> Ea]|[-> Ea]]);
    try (destruct (Qltb_decide 0 b) as [[-> Eb]|[-> Eb]]);
    try reflexivity; try lra; simpl in *; try congruence.
Qed.

Lemma same_number_above (x y c : float64) :
  same_number x y -> fgt x c = fgt y c.
Proof.
  destruct x as [a| | |], y as [b| | |]; simpl; intro H;
    try contradiction; try reflexivity.
  unfold fgt, flt. destruct c as [q| | |]; try reflexivity.
  unfold Qltb. rewrite H. reflexivity.
Qed.

(** C3, as the code has it.  The method is a function of the sector and
    industry, the three consistency flags, the revenue CAGR, the signs of
    the current net income and operating cash flow, and of whether the
    current operating cash flow exceeds 1.5 times the current net income:
    inputs that agree on these select the same method.  A non-financial
    company with revenue CAGR above 15% and negative current net income or
    operating cash flow gets PSG; a financial company always gets PB. *)
Theorem select_method_determined (real_pow : Q -> Q -> Q)
    (sector industry : string) :
  (forall revenue net_income op_cash_flow,
     is_financial sector industry = false ->
     fgt (rev_cagr real_pow revenue) (Fin (15 # 100)) = true ->
     flt (current_value net_income) (Fin 0) = true
     \/ flt (current_value op_cash_flow) (Fin 0) = true ->
     select_method real_pow sector industry revenue net_income op_cash_flow
     = "Price to Sales Growth (PSG)") /\
  (forall revenue net_income op_cash_flow,
     is_financial sector industry = true ->
     select_method real_pow sector industry revenue net_income op_cash_flow
     = "Mean Price-to-Book (PB)") /\
  (forall r1 n1 o1 r2 n2 o2,
     is_consistent r1 = is_consistent r2 ->
     is_consistent n1 = is_consistent n2 ->
     is_consistent o1 = is_consistent o2 ->
     same_number (rev_cagr real_pow r1) (rev_cagr real_pow r2) ->
     sign_of (current_value n1) = sign_of (current_value n2) ->
     sign_of (current_value o1) = sign_of (current_value o2) ->
     fgt (current_value o1) (fmul (Fin (15 # 10)) (current_value n1))
     = fgt (current_value o2) (fmul (Fin (15 # 10)) (current_value n2)) ->
     select_method real_pow sector industry r1 n1 o1
     = select_method real_pow sector industry r2 n2 o2).
Proof.
  split; [|split].
  - intros revenue net_income op_cash_flow Hfin Hcagr Hneg.
    unfold select_method, is_speculative. rewrite Hfin, Hcagr.
    destruct Hneg as [-> | ->]; [reflexivity|].
    rewrite orb_true_r. reflexivity.
  - intros revenue net_income op_cash_flow Hfin.
    unfold select_method. rewrite Hfin. reflexivity.
  - intros r1 n1 o1 r2 n2 o2 Hr Hn Ho Hcagr Hsn Hso Hratio.
    unfold select_method, is_speculative.
    rewrite Hr, Hn, Ho, Hratio.
    rewrite (same_number_above _ _ (Fin (15 # 100)) Hcagr).
    rewrite (same_sign_negative _ _ Hsn), (same_sign_negative _ _ Hso).
    rewrite (same_sign_positive _ _ Hso). reflexivity.
Qed.

Definition flat_pow : Q -> Q -> Q := fun x _ => x.

Lemma select_method_determined_witness :
  select_method flat_pow "Technology" "Software"
    [Fin 8; Fin 4; Fin 1] [Fin (-5); Fin 1; Fin 1] [Fin 2; Fin 1; Fin 1]
  = "Price to Sales Growth (PSG)" /\
  select_method flat_pow "Financial Services" "Banks"
    [Fin 8; Fin 4; Fin 1] [Fin (-5); Fin 1; Fin 1] [Fin 2; Fin 1; Fin 1]
  = "Mean Price-to-Book (PB)" /\
  select_method flat_pow "Technology" "Software"
    [Fin 3; Fin 2; Fin 1] [Fin 4; Fin 4; Fin 4] [Fin 7; Fin 7; Fin 7]
  = select_method flat_pow "Technology" "Software"
    [Fin 6; Fin 4; Fin 2] [Fin 2; Fin 2; Fin 2] [Fin 4; Fin 4; Fin 4].
Proof.
  split; [|split].
  - apply (select_method_determined flat_pow "Technology" "Software");
      [reflexivity | reflexivity | left; reflexivity].
  - apply (select_method_determined flat_pow "Financial Services" "Banks").
    reflexivity.
  - apply (select_method_determined flat_pow "Technology" "Software");
      reflexivity.
Defined.

(** C3 as worded fails: two companies that agree on sector, industry,
    consistency, revenue CAGR and on the signs of net income and operating
    cash flow get different methods when only one has an operating cash
    flow above 1.5 times its net income.  This holds whatever the power
    function is. *)
Lemma select_method_not_determined_by_signs :
  is_consistent [Fin 2; Fin 2; Fin 2] = is_consistent [Fin 1; Fin 1; Fin 1] /\
  sign_of (current_value [Fin 2; Fin 2; Fin 2])
  = sign_of (current_value [Fin 1; Fin 1; Fin 1]) /\
  (forall real_pow : Q -> Q -> Q,
     select_method real_pow "Technology" "Software"
       [Fin 1; Fin 1; Fin 1] [Fin 1; Fin 1; Fin 1] [Fin 2; Fin 2; Fin 2]
     = "Discounted Free Cash Flow (DFCF)" /\
     select_method real_pow "Technology" "Software"
       [Fin 1; Fin 1; Fin 1] [Fin 1; Fin 1; Fin 1] [Fin 1; Fin 1; Fin 1]
     = "Discounted Operating Cash Flow (DOCF)").
Proof.
  split; [reflexivity|]. split; [reflexivity|].
  intro real_pow. unfold select_method, is_speculative.
  split.
  - change (is_financial "Technology" "Software") with false.
    cbv beta iota.
    replace (flt (current_value [Fin 1; Fin 1; Fin 1]) (Fin 0)
             || flt (current_value [Fin 2; Fin 2; Fin 2]) (Fin 0))
      with false by reflexivity.
    rewrite andb_false_r. reflexivity.
  - change (is_financial "Technology" "Software") with false.
    cbv beta iota.
    replace (flt (current_value [Fin 1; Fin 1; Fin 1]) (Fin 0)
             || flt (current_value [Fin 1; Fin 1; Fin 1]) (Fin 0))
      with false by reflexivity.
    rewrite andb_false_r. reflexivity.
Qed.

(** *** The growth-rate schedule *)

Lemma cap_growth_within (g : float64) :
  g <> NaN -> within (- (10 # 100)) (30 # 100) (cap_growth g).
Proof.
  intro Hg. destruct g as [q| | |]; try (exfalso; apply Hg; reflexivity).
  - unfold cap_growth, py_max, py_min.
    cbv beta iota delta [fgt flt].
    destruct (Qltb_decide q (- (10 # 100))) as [[-> E1]|[-> E1]];
      cbv beta iota delta [fgt flt].
    + replace (Qltb (30 # 100) (- (10 # 100))) with false by reflexivity.
      simpl. lra.
    + destruct (Qltb_decide (30 # 100) q) as [[-> E2]|[-> E2]]; simpl; lra.
  - simpl. lra.
  - simpl. lra.
Qed.

Lemma cap_growth_NaN : cap_growth NaN = NaN.
Proof. reflexivity. Qed.

(** The later phases are what the claim says of them. *)
Lemma growth_rate_later_phases (g : float64) (country : string) :
  growth_rate_6_10 g = py_min g (Fin (15 # 100)) /\
  growth_rate_11_20 country
  = (if str_contains "China" country then Fin (6 # 100) else Fin (4 # 100)).
Proof. split; reflexivity. Qed.

(** C7 fails on the code.  With no growth estimates and a net-income
    history of four years that ends in a loss, the rate for years 1-5 is
    the power of a negative ratio, which numpy evaluates to NaN; Python's
    [max] and [min] hand a NaN through, so the capped rate is NaN, not a
    number in [-10%, 30%], and so is the rate for years 6-10.  This holds
    whatever the power function and the parser are. *)
Theorem growth_rate_1_5_escapes_cap
    (real_pow : Q -> Q -> Q) (py_float : string -> option float64) :
  growth_rate_1_5 real_pow py_float [] [Fin (-5); Fin 1; Fin 2; Fin 3] = NaN /\
  growth_rate_6_10
    (growth_rate_1_5 real_pow py_float [] [Fin (-5); Fin 1; Fin 2; Fin 3])
  = NaN /\
  ~ within (- (10 # 100)) (30 # 100)
      (growth_rate_1_5 real_pow py_float [] [Fin (-5); Fin 1; Fin 2; Fin 3]).
Proof.
  assert (E : growth_rate_1_5 real_pow py_float []
                [Fin (-5); Fin 1; Fin 2; Fin 3] = NaN) by reflexivity.
  rewrite E. repeat split. intro H. exact H.
Qed.

(** Apart from NaN the cap holds: a rate that is a number ends within
    [-10%, 30%]. *)
Lemma growth_rate_1_5_capped
    (real_pow : Q -> Q -> Q) (py_float : string -> option float64)
    (growth_estimates : list GrowthEstimate) (net_income : list float64) :
  raw_growth_rate_1_5 real_pow py_float growth_estimates net_income <> NaN ->
  within (- (10 # 100)) (30 # 100)
    (growth_rate_1_5 real_pow py_float growth_estimates net_income).
Proof. intro H. apply cap_growth_within. exact H. Qed.

(** The NaN rate is the one the projection uses: for such a company,
    valued by Discounted Net Income, the intrinsic value and the reported
    rate are NaN. *)
Example calculate_intrinsic_value_nan_rate
    (real_pow : Q -> Q -> Q) (py_float : string -> option float64) :
  let info :=
    {| currentPrice := Some (Fin 10); sharesOutstanding := Some (Fin 100);
       sector := Some "Technology"; industry := Some "Software";
       country := None; bookValue := None; priceToBook := None |} in
  let net_income_series : Series :=
    [(4%Z, Some (-5)%Q); (3%Z, Some 1%Q); (2%Z, Some 2%Q); (1%Z, Some 3%Q)] in
  let r := calculate_intrinsic_value real_pow py_float "X" info [] [] []
             [] net_income_series [] [] None in
  lookup "method" r = Some (VStr "Discounted Net Income (DNI)") /\
  lookup "intrinsicValue" r = Some (VNum NaN) /\
  lookup "status" r = Some (VStr "Fairly Valued").
Proof. cbv zeta. repeat split; vm_compute; reflexivity. Qed.

(** *** The result dictionary *)

Definition is_status (s : string) : Prop :=
  s = "Undervalued" \/ s = "Fairly Valued" \/ s = "Overvalued" \/ s = "Error".

(** The five keys every result carries, with values of their types. *)
Definition well_typed (r : pydict) : Prop :=
  (exists s, lookup "status" r = Some (VStr s) /\ is_status s) /\
  (exists x, lookup "intrinsicValue" r = Some (VNum x)) /\
  (exists x, lookup "differencePercent" r = Some (VNum x)) /\
  (exists s, lookup "method" r = Some (VStr s)) /\
  (exists d, lookup "assumptions" r = Some (VDict d)).

Lemma error_result_well_typed (method : string) :
  well_typed (error_result method).
Proof.
  unfold well_typed, error_result, is_status. simpl.
  repeat split; eexists; try reflexivity.
  split; [reflexivity|]. right. right. right. reflexivity.
Qed.

Lemma valuation_body_well_typed real_pow py_float info balance_sheet cashflow
    revenue_series net_income_series op_cash_flow_series growth_estimates
    beta current_price shares_outstanding r :
  valuation_body real_pow py_float info balance_sheet cashflow revenue_series
    net_income_series op_cash_flow_series growth_estimates beta
    current_price shares_outstanding = Ok r ->
  well_typed r.
Proof.
  unfold valuation_body.
  destruct (balance_sheet_items balance_sheet) as [[total_debt cash]|e];
    [|discriminate].
  cbv beta iota delta [bind].
  match goal with
  | |- match ?v with Ok _ => _ | Raise _ => _ end = _ -> _ =>
      destruct v as [[intrinsic_value assumptions]|e]; [|discriminate]
  end.
  intro H. injection H as <-.
  unfold well_typed, is_status. simpl.
  repeat split; try (eexists; reflexivity).
  match goal with
  | |- context [if ?c then "Overvalued" else _] => destruct c
  end.
  - eexists. split; [reflexivity|]. right. right. left. reflexivity.
  - match goal with
    | |- context [if ?c then "Undervalued" else _] => destruct c
    end; eexists; (split; [reflexivity|]).
    + left. reflexivity.
    + right. left. reflexivity.
Qed.

(** C2, as the code has it.  For every input the function returns a
    dictionary carrying a status out of the four, a numeric
    [intrinsicValue] and [differencePercent], a [method] and an
    [assumptions] mapping; an exception raised in the body is turned into
    the zero-valued Error result; and the zero-valued Error result is
    returned whenever the current price or the shares outstanding is zero
    (a missing price counts as zero). *)
Theorem calculate_intrinsic_value_never_raises
    (real_pow : Q -> Q -> Q) (py_float : string -> option float64)
    (ticker : string) (info : Info)
    (financials balance_sheet cashflow : DataFrame)
    (revenue_series net_income_series op_cash_flow_series : Series)
    (growth_estimates : list GrowthEstimate) (beta : option float64) :
  let r := calculate_intrinsic_value real_pow py_float ticker info financials
             balance_sheet cashflow revenue_series net_income_series
             op_cash_flow_series growth_estimates beta in
  well_typed r /\
  (truthy (get (currentPrice info) (Fin 0)) = false
   \/ truthy (get (sharesOutstanding info) (Fin 1)) = false ->
   r = error_result "N/A" /\
   lookup "status" r = Some (VStr "Error") /\
   lookup "intrinsicValue" r = Some (VNum (Fin 0))) /\
  (forall e,
     guarded_body real_pow py_float info balance_sheet cashflow revenue_series
       net_income_series op_cash_flow_series growth_estimates beta = Raise e ->
     r = error_result "Error" /\
     lookup "status" r = Some (VStr "Error") /\
     lookup "intrinsicValue" r = Some (VNum (Fin 0))).
Proof.
  cbv zeta. unfold calculate_intrinsic_value. split; [|split].
  - destruct (guarded_body _ _ _ _ _ _ _ _ _ _) as [r|e] eqn:E;
      [|apply error_result_well_typed].
    unfold guarded_body in E.
    destruct (negb (truthy (get (currentPrice info) (Fin 0)))
              || negb (truthy (get (sharesOutstanding info) (Fin 1)))).
    + injection E as <-. apply error_result_well_typed.
    + eapply valuation_body_well_typed. exact E.
  - intro H. unfold guarded_body.
    assert (G : negb (truthy (get (currentPrice info) (Fin 0)))
                || negb (truthy (get (sharesOutstanding info) (Fin 1)))
                = true).
    { destruct H as [-> | ->]; [reflexivity|]. apply orb_true_r. }
    rewrite G. repeat split.
  - intros e E. rewrite E. repeat split.
Qed.

Definition no_info : Info :=
  {| currentPrice := None; sharesOutstanding := None; sector := None;
     industry := None; country := None; bookValue := None;
     priceToBook := None |}.

Definition no_parse : string -> option float64 := fun _ => None.

Lemma calculate_intrinsic_value_never_raises_witness :
  calculate_intrinsic_value flat_pow no_parse "X" no_info [] [] [] [] [] [] []
    None
  = error_result "N/A".
Proof.
  apply (calculate_intrinsic_value_never_raises flat_pow no_parse "X" no_info
           [] [] [] [] [] [] [] None).
  left. reflexivity.
Defined.

(** A bank with neither a book value nor a balance sheet: the body raises
    (a missing book value is multiplied) and the handler answers. *)
Example calculate_intrinsic_value_handles_exception :
  let info :=
    {| currentPrice := Some (Fin 10); sharesOutstanding := Some (Fin 100);
       sector := Some "Financial Services"; industry := Some "Banks";
       country := None; bookValue := None; priceToBook := None |} in
  guarded_body flat_pow no_parse info [] [] [] [] [] [] None = Raise TypeError /\
  calculate_intrinsic_value flat_pow no_parse "X" info [] [] [] [] [] [] []
    None
  = error_result "Error".
Proof. split; reflexivity. Qed.

(** C2 as worded fails for a negative price: the guard lets every non-zero
    number through, and the function answers with an ordinary valuation,
    here "Fairly Valued" by Discounted Net Income, whatever the power
    function and the parser are. *)
Lemma calculate_intrinsic_value_negative_price :
  flt (Fin (-5)) (Fin 0) = true /\
  (forall (real_pow : Q -> Q -> Q) (py_float : string -> option float64),
     let r :=
       calculate_intrinsic_value real_pow py_float "X"
         {| currentPrice := Some (Fin (-5));
            sharesOutstanding := Some (Fin 100);
            sector := None; industry := None; country := None;
            bookValue := None; priceToBook := None |}
         [] [] [] [] [] [] [] None in
     lookup "status" r = Some (VStr "Fairly Valued") /\
     lookup "method" r = Some (VStr "Discounted Net Income (DNI)") /\
     lookup "currentPrice" r = Some (VNum (Fin (-5)))).
Proof.
  split; [reflexivity|]. intros real_pow py_float. cbv zeta.
  repeat split; vm_compute; reflexivity.
Qed.

End Valuation.

(** ** 4.4 Composite scorer: the criteria and weights of [get_stock_data] *)

Module Scorer.

Import Trend.
Local Open Scope string_scope.

(** How a criterion's [value] is rendered: the text, or the number and
    its format. *)
Inductive shown : Type :=
| Shown (s : string)
| Percent (x : float64)                             (* f"{x:.2f}%" *)
| Days (x : float64)                                (* f"{x:.0f} days" *)
| Ratio (x : float64)                               (* f"{x:.2f}" *)
| Moat (moat_type : string) (moat_score : Q).       (* f"{type} ({score}/5)" *)

(** An element of [score_criteria]. *)
Record Criterion : Type := {
  name : string;
  status : string;
  value : shown
}.

(** What the scoring section of [get_stock_data] reads: the series, the
    trailing-twelve-month ratios and the company metadata computed above
    it.  [trend_pass] and [trend_val] are the outcome of the 20-year
    price-history test; [ccc_series] is the series built from
    [ccc_values], empty when no year qualified. *)
Record ScorerInputs : Type := {
  trend_pass : bool;
  trend_val : string;
  net_income_series : Series;
  op_income_series : Series;
  op_cash_flow_series : Series;
  revenue_series : Series;
  gross_margin_series : Series;
  net_margin_series : Series;
  accounts_receivable_series : Series;
  roe_ttm : float64;
  roic : float64;
  recent_inventory : float64;
  ccc_series : Series;
  revenue_growth : float64;
  debt_to_ebitda : option float64;
  debt_servicing_ratio : option float64;
  current_ratio : option float64;
  gearing_ratio : option float64;
  sector : string;
  industry : string
}.

(** ["Pass" if p else "Fail"] *)
Definition pass_fail (p : bool) : string := if p then "Pass" else "Fail".

Definition trend_criterion (criterion_name : string) (p : bool) : Criterion :=
  {| name := criterion_name; status := pass_fail p;
     value := Shown (pass_fail p) |}.

(** [series.iloc[0] if not series.empty else 0] *)
Definition first_or_zero (s : Series) : float64 :=
  match s with
  | [] => Fin 0
  | (_, v) :: _ => of_entry v
  end.

(** [series.iloc[-1]] of a series that is not empty. *)
Definition last_value (s : Series) : float64 :=
  of_entry (last (map snd s) None).

(** [(series.iloc[0] - series.iloc[-1]) / abs(series.iloc[-1])] *)
Definition total_growth (s : Series) : float64 :=
  fdiv (fsub (first_or_zero s) (last_value s)) (fabs (last_value s)).

(** Criterion 1: net income, or operating income when net income fails. *)
Definition income_criterion (inp : ScorerInputs) : Criterion :=
  let ni_pass := check_trend (net_income_series inp) "increasing"
                   default_tolerance in
  if ni_pass then
    {| name := "Net Income Increasing"; status := "Pass";
       value := Shown "Pass" |}
  else
    let oi_pass := check_trend (op_income_series inp) "increasing"
                     default_tolerance in
    if oi_pass then
      {| name := "Operating Income Increasing"; status := "Pass";
         value := Shown "Pass" |}
    else
      {| name := "Net Income Increasing"; status := "Fail";
         value := Shown "Fail" |}.

(** Criterion 9: revenue above receivables, or growing faster. *)
Definition rev_ar_pass (inp : ScorerInputs) : bool :=
  match accounts_receivable_series inp, revenue_series inp with
  | _ :: _, _ :: _ =>
      let current_rev := first_or_zero (revenue_series inp) in
      let current_ar := first_or_zero (accounts_receivable_series inp) in
      if fgt current_rev current_ar then true
      else if (2 <=? length (accounts_receivable_series inp))%nat
              && (2 <=? length (revenue_series inp))%nat then
        fgt (total_growth (revenue_series inp))
            (total_growth (accounts_receivable_series inp))
      else false
  | _, _ => false
  end.

Definition has_physical_goods (inp : ScorerInputs) : bool :=
  fgt (recent_inventory inp) (Fin 0).

(** Criterion 10, appended only for a company with inventory and at least
    one year of cash-conversion-cycle values. *)
Definition ccc_criteria (inp : ScorerInputs) : list Criterion :=
  if has_physical_goods inp then
    match ccc_series inp with
    | [] => []
    | _ :: _ =>
        let ccc_pass := check_trend (ccc_series inp) "reducing_stable"
                          (10 # 100) in
        [ {| name := "CCC Stable/Reducing"; status := pass_fail ccc_pass;
             value := Days (first_or_zero (ccc_series inp)) |} ]
    end
  else [].

(** One moat factor: a point above [high], half a point above [low]. *)
Definition moat_points (x : float64) (high low : Q) : Q :=
  if fgt x (Fin high) then 1
  else if fgt x (Fin low) then 1 # 2
  else 0.

Definition moat_score (inp : ScorerInputs) : Q :=
  (0 + moat_points (first_or_zero (gross_margin_series inp)) 40 20
     + moat_points (roic inp) (15 # 100) (10 # 100)
     + moat_points (first_or_zero (revenue_series inp))
         100000000000 10000000000
     + moat_points (first_or_zero (net_margin_series inp)) 20 10
     + moat_points (revenue_growth inp) (15 # 100) (5 # 100))%Q.

Definition moat_type (inp : ScorerInputs) : string :=
  if Qltb 3 (moat_score inp) then "Wide"
  else if Qle_bool 2 (moat_score inp) then "Narrow"
  else "None".

Definition moat_pass (inp : ScorerInputs) : bool :=
  String.eqb (moat_type inp) "Wide" || String.eqb (moat_type inp) "Narrow".

(** [x if x is not None else default] *)
Definition or_default (x : option float64) (default : float64) : float64 :=
  match x with
  | Some v => v
  | None => default
  end.

(** [f"{x:.2f}" if x != 100 else "N/A"] and its percent variant. *)
Definition ratio_or_na (percent : bool) (x : float64) : shown :=
  match x with
  | Fin q => if Qeq_bool q 100 then Shown "N/A"
             else if percent then Percent x else Ratio x
  | _ => if percent then Percent x else Ratio x
  end.

Definition is_reit (inp : ScorerInputs) : bool :=
  str_contains "REIT" (industry inp) || str_contains "Real Estate" (sector inp).

(** Criterion 15, for REITs only. *)
Definition gearing_criteria (inp : ScorerInputs) : list Criterion :=
  if is_reit inp then
    let gr_val := or_default (gearing_ratio inp) (Fin 100) in
    [ {| name := "Gearing Ratio < 45%";
         status := pass_fail (flt gr_val (Fin 45));
         value := ratio_or_na true gr_val |} ]
  else [].

(** [score_criteria] once every criterion has been appended. *)
Definition score_criteria (inp : ScorerInputs) : list Criterion :=
  let de_val := or_default (debt_to_ebitda inp) (Fin 100) in
  let dsr_val := or_default (debt_servicing_ratio inp) (Fin 100) in
  let cr_val := or_default (current_ratio inp) (Fin 0) in
  ([ {| name := "Historical Trend (20Y)";
        status := pass_fail (trend_pass inp);
        value := Shown (trend_val inp) |};
     income_criterion inp;
     trend_criterion "Operating Cash Flow Increasing"
       (check_trend (op_cash_flow_series inp) "increasing" default_tolerance);
     trend_criterion "Revenue Increasing"
       (check_trend (revenue_series inp) "increasing" default_tolerance);
     trend_criterion "Gross Margin Stable/Increasing"
       (check_trend (gross_margin_series inp) "stable_increasing" (10 # 100));
     trend_criterion "Net Margin Stable/Increasing"
       (check_trend (net_margin_series inp) "stable_increasing" (10 # 100));
     {| name := "ROE > 12-15%";
        status := pass_fail (fge (roe_ttm inp) (Fin (12 # 100)));
        value := Percent (fmul (roe_ttm inp) (Fin 100)) |};
     {| name := "ROIC > 12-15%";
        status := pass_fail (fge (roic inp) (Fin (12 # 100)));
        value := Percent (fmul (roic inp) (Fin 100)) |};
     trend_criterion "Revenue > AR or Growing Faster" (rev_ar_pass inp) ]
   ++ ccc_criteria inp
   ++ [ {| name := "Economic Moat"; status := pass_fail (moat_pass inp);
           value := Moat (moat_type inp) (moat_score inp) |};
        {| name := "Debt/EBITDA < 3";
           status := pass_fail (flt de_val (Fin 3));
           value := ratio_or_na false de_val |};
        {| name := "Debt Servicing Ratio < 30%";
           status := pass_fail (flt dsr_val (Fin 30));
           value := ratio_or_na true dsr_val |};
        {| name := "Current Ratio > 1.5";
           status := pass_fail (fgt cr_val (Fin (15 # 10)));
           value := Ratio cr_val |} ]
   ++ gearing_criteria inp)%list.

(** *** Weights *)

(** A weight table: a Python dict from criterion name to weight. *)
Definition WeightTable := list (string * Z).

(** [table.get(key, 0)] *)
Fixpoint dict_get (table : WeightTable) (key : string) : Z :=
  match table with
  | [] => 0%Z
  | (k, w) :: rest => if String.eqb k key then w else dict_get rest key
  end.

Definition weights_ccc : WeightTable :=
  [ ("Historical Trend (20Y)", 15);
    ("Net Income Increasing", 5); ("Operating Income Increasing", 5);
    ("Operating Cash Flow Increasing", 5);
    ("Revenue Increasing", 10);
    ("Gross Margin Stable/Increasing", 10);
    ("Net Margin Stable/Increasing", 5);
    ("ROE > 12-15%", 5);
    ("ROIC > 12-15%", 15);
    ("Revenue > AR or Growing Faster", 1);
    ("CCC Stable/Reducing", 3);
    ("Economic Moat", 20);
    ("Debt/EBITDA < 3", 5);
    ("Debt Servicing Ratio < 30%", 1);
    ("Current Ratio > 1.5", 5) ]%Z.

Definition weights_reit : WeightTable :=
  [ ("Historical Trend (20Y)", 10);
    ("Net Income Increasing", 3); ("Operating Income Increasing", 3);
    ("Operating Cash Flow Increasing", 3);
    ("Revenue Increasing", 3);
    ("Gross Margin Stable/Increasing", 5);
    ("Net Margin Stable/Increasing", 5);
    ("ROE > 12-15%", 10);
    ("ROIC > 12-15%", 15);
    ("Revenue > AR or Growing Faster", 4);
    ("Economic Moat", 5);
    ("Debt/EBITDA < 3", 15);
    ("Debt Servicing Ratio < 30%", 15);
    ("Current Ratio > 1.5", 5);
    ("Gearing Ratio < 45%", 5) ]%Z.

Definition weights_standard : WeightTable :=
  [ ("Historical Trend (20Y)", 5);
    ("Net Income Increasing", 10); ("Operating Income Increasing", 10);
    ("Operating Cash Flow Increasing", 10);
    ("Revenue Increasing", 5);
    ("Gross Margin Stable/Increasing", 10);
    ("Net Margin Stable/Increasing", 5);
    ("ROE > 12-15%", 15);
    ("ROIC > 12-15%", 15);
    ("Revenue > AR or Growing Faster", 5);
    ("Economic Moat", 20);
    ("Debt/EBITDA < 3", 5);
    ("Debt Servicing Ratio < 30%", 2);
    ("Current Ratio > 1.5", 3) ]%Z.

(** The table chosen by archetype. *)
Definition current_weights (inp : ScorerInputs) : WeightTable :=
  if is_reit inp then weights_reit
  else if has_physical_goods inp then weights_ccc
  else weights_standard.

(** The name a criterion is looked up under. *)
Definition lookup_name (criterion_name : string) : string :=
  let lookup_name := criterion_name in
  let lookup_name :=
    if str_contains "Historical Trend" criterion_name
    then "Historical Trend (20Y)" else lookup_name in
  let lookup_name :=
    if str_contains "Net Income Increasing" criterion_name
    then "Net Income Increasing" else lookup_name in
  let lookup_name :=
    if str_contains "Operating Income Increasing" criterion_name
    then "Operating Income Increasing" else lookup_name in
  lookup_name.

(** The running totals of the scoring loop. *)
Record Totals : Type := {
  total_score : Z;
  max_score : Z
}.

(** One iteration of [for criterion in score_criteria]. *)
Definition score_step (weights : WeightTable) (t : Totals) (criterion : Criterion)
  : Totals :=
  let weight := dict_get weights (lookup_name (name criterion)) in
  {| total_score :=
       if String.eqb (status criterion) "Pass"
       then (total_score t + weight)%Z else total_score t;
     max_score := (max_score t + weight)%Z |}.

Definition weighted_score (weights : WeightTable) (criteria : list Criterion)
  : Totals :=
  fold_left (score_step weights) criteria {| total_score := 0; max_score := 0 |}.

(** The ["score"] entry of the response: total, max and the criteria. *)
Definition score (inp : ScorerInputs) : Totals * list Criterion :=
  (weighted_score (current_weights inp) (score_criteria inp),
   score_criteria inp).

(** *** The totals of the scoring loop *)

Definition sumZ (l : list Z) : Z := fold_right Z.add 0%Z l.

(** The weight the loop finds for a criterion. *)
Definition weight_of (weights : WeightTable) (c : Criterion) : Z :=
  dict_get weights (lookup_name (name c)).

Definition passed (c : Criterion) : bool := String.eqb (status c) "Pass".

Definition nonnegative (weights : WeightTable) : Prop :=
  forall key, (0 <= dict_get weights key)%Z.

Ltac split_keys :=
  repeat match goal with
  | |- context [String.eqb ?k ?key] => destruct (String.eqb k key)
  end.

Lemma weights_ccc_nonnegative : nonnegative weights_ccc.
Proof. intro key. unfold weights_ccc, dict_get. split_keys; lia. Qed.

Lemma weights_reit_nonnegative : nonnegative weights_reit.
Proof. intro key. unfold weights_reit, dict_get. split_keys; lia. Qed.

Lemma weights_standard_nonnegative : nonnegative weights_standard.
Proof. intro key. unfold weights_standard, dict_get. split_keys; lia. Qed.

Lemma current_weights_nonnegative (inp : ScorerInputs) :
  nonnegative (current_weights inp).
Proof.
  unfold current_weights.
  destruct (is_reit inp); [apply weights_reit_nonnegative|].
  destruct (has_physical_goods inp);
    [apply weights_ccc_nonnegative | apply weights_standard_nonnegative].
Qed.

Lemma score_loop_sums (weights : WeightTable) (criteria : list Criterion) :
  forall t,
    total_score (fold_left (score_step weights) criteria t)
    = (total_score t
       + sumZ (map (weight_of weights) (filter passed criteria)))%Z /\
    max_score (fold_left (score_step weights) criteria t)
    = (max_score t + sumZ (map (weight_of weights) criteria))%Z.
Proof.
  induction criteria as [|c criteria IH]; intro t; simpl.
  - split; lia.
  - destruct (IH (score_step weights t c)) as [Ht Hm].
    rewrite Ht, Hm. unfold score_step, passed, weight_of. simpl.
    destruct (String.eqb (status c) "Pass"); simpl; split; lia.
Qed.

Lemma passed_weights_at_most_all (weights : WeightTable)
    (criteria : list Criterion) :
  nonnegative weights ->
  (sumZ (map (weight_of weights) (filter passed criteria))
   <= sumZ (map (weight_of weights) criteria))%Z.
Proof.
  intro Hw. induction criteria as [|c criteria IH]; simpl; [lia|].
  pose proof (Hw (lookup_name (name c))) as Hc. fold (weight_of weights c) in Hc.
  destruct (passed c); simpl; lia.
Qed.

Ltac split_criteria :=
  unfold score_criteria, income_criterion, ccc_criteria, gearing_criteria;
  repeat match goal with
  | |- context [if check_trend ?s ?k ?t then _ else _] =>
      destruct (check_trend s k t) eqn:?
  | |- context [if has_physical_goods ?i then _ else _] =>
      destruct (has_physical_goods i) eqn:?
  | |- context [if is_reit ?i then _ else _] => destruct (is_reit i) eqn:?
  | |- context [match ccc_series ?i with [] => _ | _ :: _ => _ end] =>
      destruct (ccc_series i) eqn:?
  end.

(** Every criterion the scorer appends is looked up under its own name. *)
Lemma score_criteria_names_exact (inp : ScorerInputs) :
  Forall (fun c => lookup_name (name c) = name c) (score_criteria inp).
Proof.
  split_criteria; repeat constructor.
Qed.

(** C6: for every archetype's weight table and every list of criteria with
    any pass/fail statuses, the total is at most the max and the max is the
    sum of the table's weights over the criteria of the list (what
    [.get(name, 0)] finds for each); for the list the scorer evaluates,
    each weight is the one filed under the criterion's own name. *)
Theorem composite_score_at_most_max (inp : ScorerInputs) :
  (forall criteria : list Criterion,
     let t := weighted_score (current_weights inp) criteria in
     (total_score t <= max_score t)%Z /\
     max_score t = sumZ (map (weight_of (current_weights inp)) criteria) /\
     total_score t
     = sumZ (map (weight_of (current_weights inp)) (filter passed criteria))) /\
  (let t := fst (score inp) in
   (total_score t <= max_score t)%Z /\
   max_score t
   = sumZ (map (fun c => dict_get (current_weights inp) (name c))
               (snd (score inp)))).
Proof.
  assert (G : forall criteria : list Criterion,
     let t := weighted_score (current_weights inp) criteria in
     (total_score t <= max_score t)%Z /\
     max_score t = sumZ (map (weight_of (current_weights inp)) criteria) /\
     total_score t
     = sumZ (map (weight_of (current_weights inp)) (filter passed criteria))).
  { intro criteria. cbv zeta. unfold weighted_score.
    destruct (score_loop_sums (current_weights inp) criteria
                {| total_score := 0; max_score := 0 |}) as [Ht Hm].
    simpl in Ht, Hm. rewrite Ht, Hm.
    pose proof (passed_weights_at_most_all (current_weights inp) criteria
                  (current_weights_nonnegative inp)).
    repeat split; lia. }
  split; [exact G|].
  cbv zeta. unfold score. simpl fst. simpl snd.
  destruct (G (score_criteria inp)) as [Hle [Hmax _]]. cbv zeta in Hle, Hmax.
  split; [exact Hle|]. rewrite Hmax. f_equal.
  apply map_ext_in. intros c Hc. unfold weight_of.
  pose proof (score_criteria_names_exact inp) as Hn.
  rewrite Forall_forall in Hn. rewrite (Hn c Hc). reflexivity.
Qed.

(** *** Net income or operating income, never both *)

Definition count_named (n : string) (criteria : list Criterion) : nat :=
  length (filter (fun c => String.eqb (name c) n) criteria).

(** The criteria carrying one of the two income names. *)
Definition income_named (c : Criterion) : bool :=
  String.eqb (name c) "Net Income Increasing"
  || String.eqb (name c) "Operating Income Increasing".

(** C9: the criteria list holds exactly one criterion named "Net Income
    Increasing" or "Operating Income Increasing"; the latter is the one
    present exactly when the net-income trend check fails and the
    operating-income check passes; so the two names together add one
    income weight to the max score, never two. *)
Theorem income_criteria_exclusive (inp : ScorerInputs) :
  let criteria := score_criteria inp in
  let ni_pass :=
    check_trend (net_income_series inp) "increasing" default_tolerance in
  let oi_pass :=
    check_trend (op_income_series inp) "increasing" default_tolerance in
  (count_named "Net Income Increasing" criteria
   + count_named "Operating Income Increasing" criteria = 1)%nat /\
  (count_named "Operating Income Increasing" criteria = 1%nat
   <-> ni_pass = false /\ oi_pass = true) /\
  (count_named "Net Income Increasing" criteria = 1%nat
   <-> ni_pass = true \/ oi_pass = false) /\
  sumZ (map (weight_of (current_weights inp)) (filter income_named criteria))
  = dict_get (current_weights inp) "Net Income Increasing".
Proof.
  cbv zeta. unfold count_named, current_weights.
  destruct (check_trend (net_income_series inp) "increasing"
              default_tolerance) eqn:Eni;
    [|destruct (check_trend (op_income_series inp) "increasing"
                 default_tolerance) eqn:Eoi];
    unfold score_criteria, income_criterion, ccc_criteria, gearing_criteria;
    rewrite Eni; try rewrite Eoi;
    destruct (has_physical_goods inp); destruct (ccc_series inp);
    destruct (is_reit inp); simpl;
    (split; [reflexivity|]); (split; [|split]);
      try reflexivity; split;
      try reflexivity; try discriminate; intuition discriminate.
Qed.

End Scorer.

(** ** Response cleaning: [clean_nan] *)

Module Json.

Set Warnings "-register-all".

(** A Python object of the response: a float, a dict, a list, or anything
    else ([None], booleans, integers, strings), which [clean_nan] returns
    as it is. *)
Inductive pyobj : Type :=
| PNone
| PBool (b : bool)
| PInt (z : Z)
| PStr (s : string)
| PFloat (x : float64)
| PDict (items : list (string * pyobj))
| PList (items : list pyobj).

(** [math.isnan(obj) or math.isinf(obj)] *)
Definition is_special (x : float64) : bool :=
  match x with
  | Fin _ => false
  | _ => true
  end.

Fixpoint clean_nan (obj : pyobj) : pyobj :=
  match obj with
  | PFloat x => if is_special x then PNone else obj
  | PDict items =>
      PDict (map (fun kv => match kv with (k, v) => (k, clean_nan v) end) items)
  | PList items => PList (map clean_nan items)
  | _ => obj
  end.

(** Some float anywhere inside the object is NaN or infinite. *)
Fixpoint has_special (obj : pyobj) : bool :=
  match obj with
  | PFloat x => is_special x
  | PDict items =>
      existsb (fun kv => match kv with (_, v) => has_special v end) items
  | PList items => existsb has_special items
  | _ => false
  end.

Section Induction.

Variable P : pyobj -> Prop.
Hypothesis P_none : P PNone.
Hypothesis P_bool : forall b, P (PBool b).
Hypothesis P_int : forall z, P (PInt z).
Hypothesis P_str : forall s, P (PStr s).
Hypothesis P_float : forall x, P (PFloat x).
Hypothesis P_dict :
  forall items, Forall (fun kv => P (snd kv)) items -> P (PDict items).
Hypothesis P_list : forall items, Forall P items -> P (PList items).

(** Induction over objects with the hypothesis for every element of a
    dict or list. *)
Fixpoint pyobj_nested_ind (obj : pyobj) : P obj :=
  match obj with
  | PNone => P_none
  | PBool b => P_bool b
  | PInt z => P_int z
  | PStr s => P_str s
  | PFloat x => P_float x
  | PDict items =>
      P_dict items
        ((fix every (l : list (string * pyobj))
            : Forall (fun kv => P (snd kv)) l :=
            match l with
            | [] => Forall_nil _
            | kv :: rest =>
                Forall_cons kv (pyobj_nested_ind (snd kv)) (every rest)
            end) items)
  | PList items =>
      P_list items
        ((fix every (l : list pyobj) : Forall P l :=
            match l with
            | [] => Forall_nil _
            | v :: rest => Forall_cons v (pyobj_nested_ind v) (every rest)
            end) items)
  end.

End Induction.

Lemma clean_nan_no_special (obj : pyobj) : has_special (clean_nan obj) = false.
Proof.
  induction obj using pyobj_nested_ind; try reflexivity.
  - simpl. destruct x; reflexivity.
  - simpl. induction H as [|[k v] rest Hv Hrest IH]; simpl; [reflexivity|].
    simpl in Hv. rewrite Hv. exact IH.
  - simpl. induction H as [|v rest Hv Hrest IH]; simpl; [reflexivity|].
    rewrite Hv. exact IH.
Qed.

Lemma clean_nan_keeps_clean (obj : pyobj) :
  has_special obj = false -> clean_nan obj = obj.
Proof.
  induction obj using pyobj_nested_ind; try reflexivity.
  - simpl. intros ->. reflexivity.
  - simpl. intro Hs. f_equal.
    induction H as [|[k v] rest Hv Hrest IH]; simpl; [reflexivity|].
    simpl in Hs, Hv. apply orb_false_iff in Hs. destruct Hs as [Hsv Hsr].
    rewrite (Hv Hsv), (IH Hsr). reflexivity.
  - simpl. intro Hs. f_equal.
    induction H as [|v rest Hv Hrest IH]; simpl; [reflexivity|].
    simpl in Hs. apply orb_false_iff in Hs. destruct Hs as [Hsv Hsr].
    rewrite (Hv Hsv), (IH Hsr). reflexivity.
Qed.

(** The cleaned response holds no NaN and no infinity at any depth;
    cleaning twice is cleaning once; and an object without such floats
    comes back unchanged. *)
Theorem clean_nan_removes_specials (obj : pyobj) :
  has_special (clean_nan obj) = false /\
  clean_nan (clean_nan obj) = clean_nan obj /\
  (has_special obj = false -> clean_nan obj = obj).
Proof.
  split; [apply clean_nan_no_special|]. split.
  - apply clean_nan_keeps_clean. apply clean_nan_no_special.
  - apply clean_nan_keeps_clean.
Qed.

Lemma clean_nan_removes_specials_witness :
  clean_nan (PDict [("close"%string, PList [PFloat (Fin 1); PInt 2])])
  = PDict [("close"%string, PList [PFloat (Fin 1); PInt 2])].
Proof.
  apply (clean_nan_removes_specials
           (PDict [("close"%string, PList [PFloat (Fin 1); PInt 2])])).
  reflexivity.
Defined.

Example clean_nan_nested :
  clean_nan (PDict [("valuation"%string,
                     PDict [("intrinsicValue"%string, PFloat NaN);
                            ("currentPrice"%string, PFloat (Fin 10))]);
                    ("history"%string, PList [PFloat PInf; PStr "x"])])
  = PDict [("valuation"%string,
            PDict [("intrinsicValue"%string, PNone);
                   ("currentPrice"%string, PFloat (Fin 10))]);
           ("history"%string, PList [PNone; PStr "x"])].
Proof. reflexivity. Qed.

End Json.

(** ** 4.2 Support levels, from price histories to merged levels *)

From Stdlib Require Import DecimalString.

Module Levels.

Import Support.
Local Open Scope string_scope.

(** A row of a price history: the [Low] and [Close] columns, as numbers. *)
Record Bar : Type := {
  low : Q;
  close : Q
}.

(** A history as [stock.history] returns it: rows in chronological order. *)
Definition History := list Bar.

(** [f"{n}"] for an integer. *)
Definition str_of_nat (n : nat) : string :=
  NilZero.string_of_uint (Nat.to_uint n).

(** [df['Close'].rolling(window=period).mean()] at row [i]: the mean of
    the [period] closes ending at [i], missing before [period] rows. *)
Definition rolling_mean (closes : list Q) (period i : nat) : option Q :=
  if (period <=? i + 1)%nat then
    Some (sumQ (firstn period (skipn (i + 1 - period) closes))
          / inject_Z (Z.of_nat period))%Q
  else None.

(** [df.dropna(subset=[sma_col])]: the rows that have an average, each
    with it. *)
Definition valid_points (df : History) (period : nat) : list (Bar * Q) :=
  flat_map
    (fun i =>
       match nth_error df i, rolling_mean (map close df) period i with
       | Some row, Some sma_val => [(row, sma_val)]
       | _, _ => []
       end)
    (seq 0 (length df)).

(** [low <= sma_val * 1.01 and close >= sma_val] *)
Definition is_bounce (row : Bar * Q) : bool :=
  Qle_bool (low (fst row)) (snd row * (101 # 100))
  && Qle_bool (snd row) (close (fst row)).

Definition bounce_count (points : list (Bar * Q)) : nat :=
  length (filter is_bounce points).

(** The body of [for period in sma_periods] for one period. *)
Definition sma_candidate (tf_name : string) (df : History) (current_price : Q)
    (period : nat) : list Candidate :=
  let points := valid_points df period in
  let bounces := bounce_count points in
  if (3 <=? bounces)%nat then
    match rev points with
    | (_, current_sma) :: _ =>
        if Qltb current_sma current_price then
          [ {| price := current_sma;
               source := tf_name;
               reason := tf_name ++ " " ++ str_of_nat period ++ " SMA - "
                         ++ str_of_nat bounces ++ " verified bounces";
               score := inject_Z (Z.of_nat bounces) * 2 |} ]
        else []
    | [] => []
    end
  else [].

Definition sma_periods : list nat := [50; 100; 150; 200]%nat.

(** The body of [for tf_name, df in timeframes]. *)
Definition timeframe_candidates (tf_name : string) (df : History)
    (current_price : Q) : list Candidate :=
  if (length df <? 200)%nat then []
  else flat_map (sma_candidate tf_name df current_price) sma_periods.

(** The lows read back from [get_swing_lows]: bars hold numbers, so each
    is one. *)
Definition finite_values (l : list float64) : list Q :=
  flat_map (fun x => match x with Fin q => [q] | _ => [] end) l.

Definition swing_lows_of (df : History) (window : nat) : list float64 :=
  get_swing_lows (map (fun row => Some (low row)) df) window.

(** [swing_lows.sort()] *)
Fixpoint insert_asc (x : Q) (l : list Q) : list Q :=
  match l with
  | [] => [x]
  | h :: t => if Qle_bool x h then x :: l else h :: insert_asc x t
  end.

Fixpoint sort_asc (l : list Q) : list Q :=
  match l with
  | [] => []
  | x :: rest => insert_asc x (sort_asc rest)
  end.

(** An element of [clusters]. *)
Record Cluster : Type := {
  cluster_price : Q;
  count : nat
}.

(** [sum(current_cluster) / len(current_cluster)] *)
Definition average (cluster : list Q) : Q := (sumQ cluster / Qlen cluster)%Q.

(** The block that finalizes a cluster: kept with at least two touches
    and an average below the current price. *)
Definition finalize_cluster (current_price : Q) (clusters : list Cluster)
    (current_cluster : list Q) : list Cluster :=
  if (2 <=? length current_cluster)%nat then
    let avg_price := average current_cluster in
    if Qltb avg_price current_price then
      (clusters ++ [ {| cluster_price := avg_price;
                        count := length current_cluster |} ])%list
    else clusters
  else clusters.

(** [abs(price - avg_cluster) / avg_cluster <= 0.02] *)
Definition near_average (price avg_cluster : Q) : bool :=
  fle (fdiv (fabs (fsub (Fin price) (Fin avg_cluster))) (Fin avg_cluster))
      (Fin (2 # 100)).

(** One iteration of the clustering loop over [swing_lows[1:]]. *)
Definition cluster_step (current_price : Q)
    (st : list Cluster * list Q) (price : Q) : list Cluster * list Q :=
  let (clusters, current_cluster) := st in
  if near_average price (average current_cluster) then
    (clusters, (current_cluster ++ [price])%list)
  else
    (finalize_cluster current_price clusters current_cluster, [price]).

(** "Cluster lows within 2%": the clusters of the sorted swing lows. *)
Definition cluster_lows (current_price : Q) (swing_lows : list Q)
  : list Cluster :=
  match swing_lows with
  | [] => []
  | first :: rest =>
      let (clusters, current_cluster) :=
        fold_left (cluster_step current_price) rest ([], [first]) in
      finalize_cluster current_price clusters current_cluster
  end.

Definition cluster_candidate (c : Cluster) : Candidate :=
  {| price := cluster_price c;
     source := "Price Action";
     reason := "Horizontal Cluster - " ++ str_of_nat (count c)
               ++ " touch points";
     score := inject_Z (Z.of_nat (count c)) * (15 # 10) |}.

(** [hist_1y_d['Close'].iloc[-1] if not hist_1y_d.empty else 0] *)
Definition last_close (df : History) : Q :=
  match rev df with
  | row :: _ => close row
  | [] => 0
  end.

(** Everything appended to [support_candidates] before the final
    selection. *)
Definition all_candidates (hist_10y_mo hist_5y_wk hist_1y_d : History)
  : list Candidate :=
  let current_price := last_close hist_1y_d in
  let swing_lows :=
    sort_asc (finite_values (swing_lows_of hist_5y_wk 5
                             ++ swing_lows_of hist_1y_d 3)%list) in
  (timeframe_candidates "Monthly" hist_10y_mo current_price
   ++ timeframe_candidates "Weekly" hist_5y_wk current_price
   ++ timeframe_candidates "Daily" hist_1y_d current_price
   ++ map cluster_candidate (cluster_lows current_price swing_lows))%list.

(** [get_validated_support_levels], given the three histories it
    fetches. *)
Definition get_validated_support_levels
    (hist_10y_mo hist_5y_wk hist_1y_d : History) : list Candidate :=
  final_selection (all_candidates hist_10y_mo hist_5y_wk hist_1y_d).

Example cluster_lows_scenario :
  map (fun c => (Qred (cluster_price c), count c))
      (cluster_lows 20 [10; 101 # 10; 1015 # 100; 15])
  = [(121 # 12, 3%nat)].
Proof. reflexivity. Qed.

(** *** The merge returns candidates, and loses none entirely *)

Lemma in_insert_by_price (x c : Candidate) (l : list Candidate) :
  In x (insert_by_price c l) <-> x = c \/ In x l.
Proof.
  induction l as [|h t IH]; simpl.
  - intuition.
  - destruct (Qle_bool (price h) (price c)); simpl; [intuition|].
    rewrite IH. intuition.
Qed.

Lemma in_sort_by_price_desc (x : Candidate) (l : list Candidate) :
  In x (sort_by_price_desc l) <-> In x l.
Proof.
  induction l as [|c l IH]; simpl; [reflexivity|].
  rewrite in_insert_by_price, IH. intuition.
Qed.

Lemma length_insert_by_price (c : Candidate) (l : list Candidate) :
  length (insert_by_price c l) = S (length l).
Proof.
  induction l as [|h t IH]; simpl; [reflexivity|].
  destruct (Qle_bool (price h) (price c)); simpl; congruence.
Qed.

Lemma length_sort_by_price_desc (l : list Candidate) :
  length (sort_by_price_desc l) = length l.
Proof.
  induction l as [|c l IH]; simpl; [reflexivity|].
  rewrite length_insert_by_price. congruence.
Qed.

Lemma merge_loop_members (rest : list Candidate) : forall (st : MergeState) x,
  In x (unique_levels (fold_left merge_step rest st)
        ++ [current_level (fold_left merge_step rest st)])%list ->
  In x (unique_levels st ++ [current_level st])%list \/ In x rest.
Proof.
  induction rest as [|next rest IH]; intros st x Hx; simpl in *.
  - left. exact Hx.
  - apply IH in Hx. destruct Hx as [Hx|Hx]; [|right; right; exact Hx].
    unfold merge_step in Hx.
    destruct (close_to (current_level st) next); simpl in Hx.
    + destruct (Qltb (score (current_level st)) (score next)).
      * apply in_app_or in Hx. destruct Hx as [Hx|[<-|[]]].
        -- left. apply in_or_app. left. exact Hx.
        -- right. left. reflexivity.
      * left. exact Hx.
    + apply in_app_or in Hx. destruct Hx as [Hx|[<-|[]]].
      * left. exact Hx.
      * right. left. reflexivity.
Qed.

Lemma final_selection_subset (cands : list Candidate) (x : Candidate) :
  In x (final_selection cands) -> In x cands.
Proof.
  intros Hx. unfold final_selection in Hx.
  assert (Hin : In x
    match sort_by_price_desc cands with
    | [] => []
    | first :: rest =>
        (unique_levels (fold_left merge_step rest
           {| unique_levels := []; current_level := first;
              merged_group := [first] |})
         ++ [current_level (fold_left merge_step rest
           {| unique_levels := []; current_level := first;
              merged_group := [first] |})])%list
    end).
  { rewrite <- (firstn_skipn 5). apply in_or_app. left. exact Hx. }
  clear Hx. apply in_sort_by_price_desc.
  destruct (sort_by_price_desc cands) as [|first rest]; [contradiction|].
  apply merge_loop_members in Hin. simpl in Hin.
  destruct Hin as [[<-|[]]|Hin]; [left; reflexivity | right; exact Hin].
Qed.

(** Every level the final selection returns is one of the candidates it
    was given (merging never makes up a level or a price), and it returns
    no level only when there is no candidate. *)
Theorem final_selection_keeps_candidates (cands : list Candidate) :
  (forall x, In x (final_selection cands) -> In x cands) /\
  (final_selection cands = [] <-> cands = []).
Proof.
  split; [intros x Hx; apply final_selection_subset; exact Hx|].
  split.
  - intro H. unfold final_selection in H.
    pose proof (length_sort_by_price_desc cands) as Hlen.
    destruct (sort_by_price_desc cands) as [|first rest].
    + destruct cands; [reflexivity | discriminate Hlen].
    + exfalso.
      destruct (unique_levels (fold_left merge_step rest _)); discriminate H.
  - intros ->. reflexivity.
Qed.

(** *** Clusters of swing lows *)

Definition total_count (clusters : list Cluster) : nat :=
  fold_right (fun c n => (count c + n)%nat) 0%nat clusters.

(** A cluster the code may emit: at least two touches, an average below
    the current price, and an average within the bounds of the lows. *)
Definition sound_cluster (current_price lo hi : Q) (c : Cluster) : Prop :=
  (2 <= count c)%nat /\ (cluster_price c < current_price)%Q /\
  (lo <= cluster_price c <= hi)%Q.

Definition bounded (lo hi : Q) (l : list Q) : Prop :=
  Forall (fun x => (lo <= x <= hi)%Q) l.

Lemma sum_bounds (lo hi : Q) (l : list Q) :
  bounded lo hi l -> (lo * Qlen l <= sumQ l <= hi * Qlen l)%Q.
Proof.
  induction 1 as [|x l Hx Hl IH].
  - unfold Qlen. simpl length. change (inject_Z (Z.of_nat 0)) with 0%Q.
    simpl sumQ. lra.
  - rewrite Trend.Qlen_cons. simpl sumQ. nra.
Qed.

Lemma Qlen_positive {A} (x : A) (l : list A) : (0 < Qlen (x :: l))%Q.
Proof.
  unfold Qlen. rewrite <- (Zlt_Qlt 0). simpl length. lia.
Qed.

Lemma average_bounds (lo hi : Q) (x : Q) (l : list Q) :
  bounded lo hi (x :: l) -> (lo <= average (x :: l) <= hi)%Q.
Proof.
  intro Hb. pose proof (sum_bounds lo hi _ Hb) as [Hlo Hhi].
  pose proof (Qlen_positive x l) as Hpos. unfold average.
  set (n := Qlen (x :: l)) in *. set (t := sumQ (x :: l)) in *.
  split.
  - apply Qle_shift_div_l; assumption.
  - apply Qle_shift_div_r; assumption.
Qed.

Lemma total_count_app (a b : list Cluster) :
  total_count (a ++ b) = (total_count a + total_count b)%nat.
Proof.
  induction a as [|c a IH]; simpl; [reflexivity|]. rewrite IH. lia.
Qed.

Lemma finalize_cluster_sound cp lo hi clusters x current :
  Forall (sound_cluster cp lo hi) clusters ->
  bounded lo hi (x :: current) ->
  Forall (sound_cluster cp lo hi) (finalize_cluster cp clusters (x :: current))
  /\ (total_count (finalize_cluster cp clusters (x :: current))
      <= total_count clusters + length (x :: current))%nat.
Proof.
  intros Hc Hb. unfold finalize_cluster.
  destruct (2 <=? length (x :: current))%nat eqn:E2; [|split; [exact Hc|lia]].
  destruct (Qltb (average (x :: current)) cp) eqn:Elt; [|split; [exact Hc|lia]].
  split.
  - apply Forall_app. split; [exact Hc|]. constructor; [|constructor].
    unfold sound_cluster. simpl cluster_price. simpl count.
    split; [apply Nat.leb_le; exact E2|].
    split; [apply Qltb_iff; exact Elt|]. apply average_bounds. exact Hb.
  - rewrite total_count_app. simpl. lia.
Qed.

Lemma cluster_loop_sound cp lo hi (rest : list Q) :
  forall clusters x current,
    Forall (sound_cluster cp lo hi) clusters ->
    bounded lo hi (x :: current) -> bounded lo hi rest ->
    exists clusters' y current',
      fold_left (cluster_step cp) rest (clusters, x :: current)
      = (clusters', y :: current') /\
      Forall (sound_cluster cp lo hi) clusters' /\
      bounded lo hi (y :: current') /\
      (total_count clusters' + length (y :: current')
       <= total_count clusters + length (x :: current) + length rest)%nat.
Proof.
  induction rest as [|p rest IH]; intros clusters x current Hc Hb Hr.
  - exists clusters, x, current. simpl. repeat split; try assumption. lia.
  - inversion Hr as [|? ? Hp Hr']; subst.
    change (fold_left (cluster_step cp) (p :: rest) (clusters, x :: current))
      with (fold_left (cluster_step cp) rest
              (cluster_step cp (clusters, x :: current) p)).
    assert (Estep : cluster_step cp (clusters, x :: current) p
                    = if near_average p (average (x :: current))
                      then (clusters, ((x :: current) ++ [p])%list)
                      else (finalize_cluster cp clusters (x :: current), [p]))
      by reflexivity.
    rewrite Estep. clear Estep.
    destruct (near_average p (average (x :: current))).
    + assert (Hb' : bounded lo hi (x :: (current ++ [p]))).
      { change (x :: (current ++ [p]))%list with ((x :: current) ++ [p])%list.
        apply Forall_app. split; [exact Hb|]. constructor; [exact Hp|constructor]. }
      destruct (IH clusters x (current ++ [p])%list Hc Hb' Hr')
        as (c' & y & cur' & E & Hc' & Hb'' & Hn).
      change ((x :: current) ++ [p])%list with (x :: (current ++ [p]))%list.
      exists c', y, cur'. repeat split; try assumption.
      simpl length in *. rewrite length_app in Hn. simpl in Hn. lia.
    + destruct (finalize_cluster_sound cp lo hi clusters x current Hc Hb)
        as [Hf Hn0].
      assert (Hb' : bounded lo hi [p]) by (constructor; [exact Hp|constructor]).
      destruct (IH (finalize_cluster cp clusters (x :: current)) p [] Hf Hb' Hr')
        as (c' & y & cur' & E & Hc' & Hb'' & Hn).
      exists c', y, cur'. repeat split; try assumption.
      simpl length in *. lia.
Qed.

Lemma cluster_lows_counted (current_price lo hi : Q) (swing_lows : list Q) :
  bounded lo hi swing_lows ->
  Forall (sound_cluster current_price lo hi)
         (cluster_lows current_price swing_lows) /\
  (total_count (cluster_lows current_price swing_lows)
   <= length swing_lows)%nat.
Proof.
  intro Hb. unfold cluster_lows. destruct swing_lows as [|first rest].
  - split; [constructor | simpl; lia].
  - inversion Hb as [|? ? Hf Hr]; subst.
    assert (Hb1 : bounded lo hi [first])
      by (constructor; [exact Hf|constructor]).
    destruct (cluster_loop_sound current_price lo hi rest [] first []
                (Forall_nil _) Hb1 Hr)
      as (c' & y & cur' & E & Hc' & Hb' & Hn).
    rewrite E.
    destruct (finalize_cluster_sound current_price lo hi c' y cur' Hc' Hb')
      as [Hs Hn'].
    split; [exact Hs|]. simpl length in *. simpl total_count in Hn. lia.
Qed.

(** Whatever the swing lows and the current price: every cluster has at
    least two touch points and an average price below the current price
    and between the smallest and the largest low; the touch points of all
    clusters together are at most the lows given, so fewer than two lows
    give no cluster. *)
Theorem cluster_lows_sound (current_price lo hi : Q) (swing_lows : list Q) :
  bounded lo hi swing_lows ->
  Forall (sound_cluster current_price lo hi)
         (cluster_lows current_price swing_lows) /\
  (total_count (cluster_lows current_price swing_lows)
   <= length swing_lows)%nat /\
  ((length swing_lows < 2)%nat -> cluster_lows current_price swing_lows = []).
Proof.
  intro Hb.
  destruct (cluster_lows_counted current_price lo hi swing_lows Hb) as [Hs Hn].
  split; [exact Hs|]. split; [exact Hn|].
  intro Hshort. destruct (cluster_lows current_price swing_lows) as [|c cl];
    [reflexivity|].
  exfalso. inversion Hs as [|? ? [Hc _] _]; subst. simpl in Hn. lia.
Qed.

Lemma cluster_lows_sound_witness :
  Forall (sound_cluster 20 10 15)
         (cluster_lows 20 [10; 101 # 10; 1015 # 100; 15]).
Proof.
  apply (cluster_lows_sound 20 10 15 [10; 101 # 10; 1015 # 100; 15]).
  repeat constructor; simpl; discriminate.
Defined.

(** *** The whole detector *)

(** What every candidate satisfies: a price below the current price and a
    score of at least three. *)
Definition valid_support (current_price : Q) (c : Candidate) : Prop :=
  (price c < current_price)%Q /\ (3 <= score c)%Q.

Lemma sma_candidate_valid tf_name df cp period :
  Forall (valid_support cp) (sma_candidate tf_name df cp period).
Proof.
  unfold sma_candidate.
  destruct (3 <=? bounce_count (valid_points df period))%nat eqn:E3;
    [|constructor].
  destruct (rev (valid_points df period)) as [|[row current_sma] _];
    [constructor|].
  destruct (Qltb current_sma cp) eqn:Elt; [|constructor].
  constructor; [|constructor]. split; simpl.
  - apply Qltb_iff. exact Elt.
  - apply Nat.leb_le in E3.
    assert (H : (3 <= inject_Z (Z.of_nat (bounce_count (valid_points df period))))%Q).
    { rewrite <- (Zle_Qle 3). lia. }
    lra.
Qed.

Lemma timeframe_candidates_valid tf_name df cp :
  Forall (valid_support cp) (timeframe_candidates tf_name df cp).
Proof.
  unfold timeframe_candidates. destruct (length df <? 200)%nat; [constructor|].
  apply Forall_flat_map. apply Forall_forall. intros period _.
  apply sma_candidate_valid.
Qed.

Lemma bounds_exist (l : list Q) : exists lo hi, bounded lo hi l.
Proof.
  induction l as [|x l (lo & hi & H)].
  - exists 0%Q, 0%Q. constructor.
  - exists (if Qlt_le_dec x lo then x else lo),
           (if Qlt_le_dec hi x then x else hi).
    constructor.
    + destruct (Qlt_le_dec x lo), (Qlt_le_dec hi x); lra.
    + eapply Forall_impl; [|exact H]. cbv beta. intros a Ha.
      destruct (Qlt_le_dec x lo), (Qlt_le_dec hi x); lra.
Qed.

Lemma cluster_candidates_valid cp lows :
  Forall (valid_support cp) (map cluster_candidate (cluster_lows cp lows)).
Proof.
  destruct (bounds_exist lows) as (lo & hi & Hb).
  destruct (cluster_lows_counted cp lo hi lows Hb) as [Hs _].
  apply Forall_map. eapply Forall_impl; [|exact Hs]. cbv beta.
  intros c (Hc & Hp & _). split; simpl; [exact Hp|].
  assert (H : (2 <= inject_Z (Z.of_nat (count c)))%Q).
  { rewrite <- (Zle_Qle 2). lia. }
  lra.
Qed.

Lemma all_candidates_valid mo wk d :
  Forall (valid_support (last_close d)) (all_candidates mo wk d).
Proof.
  unfold all_candidates.
  repeat (apply Forall_app; split);
    try apply timeframe_candidates_valid.
  apply cluster_candidates_valid.
Qed.

(** Whatever the three price histories: at most five levels are returned,
    each strictly below the current price (the last daily close, or 0
    without daily history) and each carrying a score of at least three
    (two touch points or three bounces). *)
Theorem support_levels_below_price (hist_10y_mo hist_5y_wk hist_1y_d : History) :
  (length (get_validated_support_levels hist_10y_mo hist_5y_wk hist_1y_d)
   <= 5)%nat /\
  Forall (valid_support (last_close hist_1y_d))
         (get_validated_support_levels hist_10y_mo hist_5y_wk hist_1y_d).
Proof.
  unfold get_validated_support_levels. split.
  - unfold final_selection. rewrite length_firstn. lia.
  - apply Forall_forall. intros x Hx.
    apply final_selection_subset in Hx.
    pose proof (all_candidates_valid hist_10y_mo hist_5y_wk hist_1y_d) as H.
    rewrite Forall_forall in H. apply H. exact Hx.
Qed.

Lemma swing_lows_of_short (df : History) (window : nat) :
  (length df < 2 * window + 1)%nat -> swing_lows_of df window = [].
Proof.
  intro H. unfold swing_lows_of, get_swing_lows. rewrite length_map.
  replace (length df - window - window)%nat with 0%nat by lia. reflexivity.
Qed.

(** Histories too short for any test give no level: the averages need 200
    bars of a timeframe, the weekly swing lows 11 bars and the daily ones
    7. *)
Theorem support_levels_need_history (hist_10y_mo hist_5y_wk hist_1y_d : History) :
  (length hist_10y_mo < 200)%nat ->
  (length hist_5y_wk < 11)%nat ->
  (length hist_1y_d < 7)%nat ->
  get_validated_support_levels hist_10y_mo hist_5y_wk hist_1y_d = [].
Proof.
  intros Hmo Hwk Hd.
  unfold get_validated_support_levels, all_candidates, timeframe_candidates.
  rewrite (swing_lows_of_short hist_5y_wk 5) by (simpl; lia).
  rewrite (swing_lows_of_short hist_1y_d 3) by (simpl; lia).
  assert (E1 : (length hist_10y_mo <? 200)%nat = true) by (apply Nat.ltb_lt; lia).
  assert (E2 : (length hist_5y_wk <? 200)%nat = true) by (apply Nat.ltb_lt; lia).
  assert (E3 : (length hist_1y_d <? 200)%nat = true) by (apply Nat.ltb_lt; lia).
  rewrite E1, E2, E3. reflexivity.
Qed.

Definition bar (l c : Q) : Bar := {| low := l; close := c |}.

Lemma support_levels_need_history_witness :
  get_validated_support_levels [] [bar 9 10; bar 8 9] [bar 9 10] = [].
Proof.
  apply support_levels_need_history; simpl; lia.
Defined.

End Levels.

(** ** 4.1 Trend classifier: storage order and tolerance *)

From Stdlib Require Import Permutation.

Module TrendOrder.

Import Trend.

(** Newer before older, by index label. *)
Definition newer_first (a b : Z * Q) : Prop := (fst b < fst a)%Z.

Lemma dropna_permutation (s s' : Series) :
  Permutation s s' -> Permutation (dropna s) (dropna s').
Proof.
  induction 1 as [|[d [v|]] l l' H IH|[d1 [v1|]] [d2 [v2|]] l|l1 l2 l3 H1 IH1 H2 IH2];
    simpl; try (constructor; assumption); try apply Permutation_refl;
    try assumption.
  eapply Permutation_trans; eassumption.
Qed.

Lemma insert_desc_permutation (p : Z * Q) (l : list (Z * Q)) :
  Permutation (insert_desc p l) (p :: l).
Proof.
  induction l as [|h t IH]; simpl; [apply Permutation_refl|].
  destruct (fst h <=? fst p)%Z; [apply Permutation_refl|].
  eapply Permutation_trans; [apply perm_skip; exact IH | apply perm_swap].
Qed.

Lemma sort_index_desc_permutation (l : list (Z * Q)) :
  Permutation (sort_index_desc l) l.
Proof.
  induction l as [|p l IH]; simpl; [constructor|].
  eapply Permutation_trans; [apply insert_desc_permutation|].
  apply perm_skip. exact IH.
Qed.

Lemma insert_desc_newer_first (p : Z * Q) (l : list (Z * Q)) :
  ~ In (fst p) (map fst l) ->
  StronglySorted newer_first l -> StronglySorted newer_first (insert_desc p l).
Proof.
  induction l as [|h t IH]; intros Hnew Hs; simpl.
  - constructor; constructor.
  - apply StronglySorted_inv in Hs. destruct Hs as [Ht Hh].
    assert (Hne : fst h <> fst p) by (intro E; apply Hnew; left; exact E).
    destruct (fst h <=? fst p)%Z eqn:E.
    + apply Z.leb_le in E. constructor; [constructor; assumption|].
      constructor; [unfold newer_first; lia|].
      eapply Forall_impl; [|exact Hh]. unfold newer_first. intros a Ha. lia.
    + apply Z.leb_gt in E. constructor.
      * apply IH; [|exact Ht]. intro Hin. apply Hnew. right. exact Hin.
      * assert (Hall : Forall (newer_first h) (p :: t))
          by (constructor; [unfold newer_first; lia | exact Hh]).
        rewrite Forall_forall in *. intros x Hx. apply Hall.
        eapply Permutation_in; [apply insert_desc_permutation | exact Hx].
Qed.

Lemma sort_index_desc_newer_first (l : list (Z * Q)) :
  NoDup (map fst l) -> StronglySorted newer_first (sort_index_desc l).
Proof.
  induction l as [|p l IH]; intro Hnd; simpl; [constructor|].
  inversion Hnd as [|? ? Hnew Hnd']; subst.
  apply insert_desc_newer_first; [|apply IH; exact Hnd'].
  intro Hin. apply Hnew.
  eapply Permutation_in; [|exact Hin].
  apply Permutation_map. apply sort_index_desc_permutation.
Qed.

Lemma sorted_permutations_equal (l1 : list (Z * Q)) : forall l2,
  StronglySorted newer_first l1 -> StronglySorted newer_first l2 ->
  Permutation l1 l2 -> l1 = l2.
Proof.
  induction l1 as [|a l1 IH]; intros l2 H1 H2 Hp.
  - apply Permutation_nil in Hp. congruence.
  - destruct l2 as [|b l2];
      [apply Permutation_sym, Permutation_nil in Hp; discriminate|].
    apply StronglySorted_inv in H1. destruct H1 as [H1 Ha].
    apply StronglySorted_inv in H2. destruct H2 as [H2 Hb].
    assert (E : a = b).
    { assert (Hab : In a (b :: l2))
        by (eapply Permutation_in; [exact Hp | left; reflexivity]).
      assert (Hba : In b (a :: l1))
        by (eapply Permutation_in;
            [apply Permutation_sym; exact Hp | left; reflexivity]).
      destruct Hab as [Hab|Hab]; [congruence|].
      destruct Hba as [Hba|Hba]; [congruence|].
      rewrite Forall_forall in Ha, Hb.
      pose proof (Ha b Hba). pose proof (Hb a Hab).
      unfold newer_first in *. lia. }
    subst b. f_equal. apply IH; try assumption.
    eapply Permutation_cons_inv. exact Hp.
Qed.

(** The classifier does not depend on the order in which the series is
    stored: two series holding the same dated values, with no date twice
    among the values present, get the same verdict for every trend kind
    and tolerance. *)
Theorem check_trend_order_independent (s s' : Series) (kind : string) (tol : Q) :
  Permutation s s' ->
  NoDup (map fst (dropna s)) ->
  check_trend s kind tol = check_trend s' kind tol.
Proof.
  intros Hp Hnd.
  pose proof (dropna_permutation s s' Hp) as Hd.
  assert (Hnd' : NoDup (map fst (dropna s'))).
  { eapply Permutation_NoDup; [|exact Hnd]. apply Permutation_map. exact Hd. }
  assert (Es : sort_index_desc (dropna s) = sort_index_desc (dropna s')).
  { apply sorted_permutations_equal;
      try (apply sort_index_desc_newer_first; assumption).
    eapply Permutation_trans; [apply sort_index_desc_permutation|].
    eapply Permutation_trans; [exact Hd|].
    apply Permutation_sym. apply sort_index_desc_permutation. }
  unfold check_trend.
  rewrite (Permutation_length Hd), Es. reflexivity.
Qed.

Lemma check_trend_order_independent_witness :
  check_trend [point 1 100; point 2 110; point 3 105] "increasing"
              default_tolerance
  = check_trend [point 3 105; point 2 110; point 1 100] "increasing"
                default_tolerance.
Proof.
  apply check_trend_order_independent.
  - apply Permutation_rev.
  - repeat constructor; simpl; intuition discriminate.
Defined.

(** *** A wider tolerance never fails a series that passed *)

Definition nonnegative_values (l : list Q) : Prop :=
  Forall (fun v => (0 <= v)%Q) l.

Lemma consistent_increase_wider (l : list Q) (tol tol' : Q) :
  nonnegative_values l -> (tol <= tol')%Q ->
  consistent_increase l tol = true -> consistent_increase l tol' = true.
Proof.
  intros Hpos Htol. induction l as [|a l IH]; [reflexivity|].
  destruct l as [|b l]; [reflexivity|].
  change (consistent_increase (a :: b :: l) tol)
    with (if Qltb b (a * (1 - tol)) then false
          else consistent_increase (b :: l) tol).
  change (consistent_increase (a :: b :: l) tol')
    with (if Qltb b (a * (1 - tol')) then false
          else consistent_increase (b :: l) tol').
  inversion Hpos as [|? ? Ha Hl]; subst.
  destruct (Qltb b (a * (1 - tol))) eqn:E; [discriminate|].
  apply Qltb_false_iff in E.
  assert (E' : Qltb b (a * (1 - tol')) = false)
    by (apply Qltb_false_iff; nra).
  rewrite E'. apply IH. exact Hl.
Qed.

Lemma last_nonnegative (l : list Q) :
  nonnegative_values l -> (0 <= last l 0)%Q.
Proof.
  induction 1 as [|a l Ha Hl IH]; [simpl; lra|].
  destruct l as [|b l]; [exact Ha|]. exact IH.
Qed.

(** For a series without negative values, raising the tolerance never
    turns a pass into a fail, for any trend kind. *)
Theorem check_trend_tolerance_monotone (s : Series) (kind : string)
    (tol tol' : Q) :
  nonnegative_values (values (dropna s)) ->
  (tol <= tol')%Q ->
  check_trend s kind tol = true -> check_trend s kind tol' = true.
Proof.
  intros Hpos Htol.
  assert (Hy : nonnegative_values (values (sort_index_desc (dropna s)))).
  { unfold nonnegative_values, values in *. rewrite Forall_forall in *.
    intros v Hv. apply Hpos. eapply Permutation_in; [|exact Hv].
    apply Permutation_map. apply sort_index_desc_permutation. }
  pose proof (last_nonnegative _ Hy) as Hold.
  unfold check_trend.
  destruct (length (dropna s) <? 2)%nat; [discriminate|].
  set (y := values (sort_index_desc (dropna s))) in *.
  destruct (kind =? "increasing")%string.
  - destruct (Qltb (last y 0) (hd 0 y)); [reflexivity|].
    destruct (Qltb 0 (polyfit_slope (arange (length y)) (rev y)));
      [reflexivity|].
    apply consistent_increase_wider; [|exact Htol].
    unfold nonnegative_values in *. rewrite Forall_forall in *.
    intros v Hv. apply Hy. apply in_rev. exact Hv.
  - destruct (kind =? "stable_increasing")%string.
    + destruct (Qle_bool (last y 0 * (1 - tol)) (hd 0 y)) eqn:E.
      * intros _. apply Qle_bool_iff in E.
        assert (E' : Qle_bool (last y 0 * (1 - tol')) (hd 0 y) = true)
          by (apply Qle_bool_iff; nra).
        rewrite E'. reflexivity.
      * destruct (Qle_bool 0 (polyfit_slope (arange (length y)) (rev y)));
          [|discriminate].
        intros _. destruct (Qle_bool (last y 0 * (1 - tol')) (hd 0 y));
          reflexivity.
    + destruct (kind =? "reducing_stable")%string; [|discriminate].
      destruct (Qle_bool (hd 0 y) (last y 0 * (1 + tol))) eqn:E.
      * intros _. apply Qle_bool_iff in E.
        assert (E' : Qle_bool (hd 0 y) (last y 0 * (1 + tol')) = true)
          by (apply Qle_bool_iff; nra).
        rewrite E'. reflexivity.
      * destruct (Qle_bool (polyfit_slope (arange (length y)) (rev y)) 0);
          [|discriminate].
        intros _. destruct (Qle_bool (hd 0 y) (last y 0 * (1 + tol')));
          reflexivity.
Qed.

Lemma check_trend_tolerance_monotone_witness :
  check_trend [point 1 100; point 2 96; point 3 93] "increasing" (10 # 100)
  = true.
Proof.
  apply (check_trend_tolerance_monotone
           [point 1 100; point 2 96; point 3 93] "increasing"
           default_tolerance (10 # 100)).
  - repeat constructor; discriminate.
  - discriminate.
  - reflexivity.
Defined.

(** *** The two stable kinds, on values that are not infinite *)

(** A computed series as pandas holds it: each value is a float, which
    can be missing (NaN) or infinite (the margin of a year without
    revenue); [dropna] removes the first and keeps the second. *)
Definition FloatSeries := list (Z * F64.float64).

(** The series as a [Series] of numbers and missing values, when none of
    its values is infinite. *)
Fixpoint finite_series (raw : FloatSeries) : option Series :=
  match raw with
  | [] => Some []
  | (d, F64.Fin q) :: rest =>
      option_map (cons (d, Some q)) (finite_series rest)
  | (d, F64.NaN) :: rest =>
      option_map (cons (d, None)) (finite_series rest)
  | _ :: _ => None
  end.

Lemma Qle_bool_total (a b : Q) : Qle_bool a b = false -> Qle_bool b a = true.
Proof.
  intro H. apply Qle_bool_iff.
  destruct (Qlt_le_dec b a) as [Hlt|Hle]; [lra|].
  apply Qle_bool_iff in Hle. congruence.
Qed.

(** A series none of whose values is infinite, with at least two values
    present, passes as "stable_increasing" or as "reducing_stable" (or
    both), whatever the tolerance: a series that fails the first has a
    negative slope, which the second accepts.  A series holding an
    infinite value is outside this statement. *)
Theorem stable_kinds_cover (raw : FloatSeries) (s : Series) (tol : Q) :
  finite_series raw = Some s ->
  (2 <= length (dropna s))%nat ->
  check_trend s "stable_increasing" tol = true \/
  check_trend s "reducing_stable" tol = true.
Proof.
  intros _ Hlen. unfold check_trend.
  assert (L : (length (dropna s) <? 2)%nat = false)
    by (apply Nat.ltb_ge; exact Hlen).
  rewrite L. simpl String.eqb. cbv iota.
  set (y := values (sort_index_desc (dropna s))).
  destruct (Qle_bool (last y 0 * (1 - tol)) (hd 0 y)); [left; reflexivity|].
  destruct (Qle_bool 0 (polyfit_slope (arange (length y)) (rev y))) eqn:E;
    [left; reflexivity|].
  right. apply Qle_bool_total in E. rewrite E.
  destruct (Qle_bool (hd 0 y) (last y 0 * (1 + tol))); reflexivity.
Qed.

Lemma stable_kinds_cover_witness :
  check_trend [point 1 100; point 2 80; point 3 60] "stable_increasing"
    (10 # 100) = true \/
  check_trend [point 1 100; point 2 80; point 3 60] "reducing_stable"
    (10 # 100) = true.
Proof.
  apply (stable_kinds_cover
           [(1%Z, F64.Fin 100); (2%Z, F64.Fin 80); (3%Z, F64.Fin 60)]
           [point 1 100; point 2 80; point 3 60] (10 # 100));
    [reflexivity | simpl; lia].
Defined.

End TrendOrder.

(** ** 4.3 Intrinsic value: what the estimator guarantees *)

From Stdlib Require Import Qpower.

Module ValuationFacts.

Import Valuation.
Local Open Scope string_scope.

(** *** Consistency allows one dip *)

(** The steps [is_consistent] does not count: newer below 90% of older,
    or a missing value on either side. *)
Fixpoint count_dips (series : list float64) : nat :=
  match series with
  | newer :: ((older :: _) as rest) =>
      ((if fge newer (fmul older (Fin (9 # 10))) then 0 else 1)
       + count_dips rest)%nat
  | _ => 0%nat
  end.

Lemma steps_split (series : list float64) :
  (count_increases series + count_dips series = length series - 1)%nat.
Proof.
  induction series as [|a l IH]; [reflexivity|].
  destruct l as [|b l]; [reflexivity|].
  change (count_increases (a :: b :: l))
    with ((if fge a (fmul b (Fin (9 # 10))) then 1 else 0)
          + count_increases (b :: l))%nat.
  change (count_dips (a :: b :: l))
    with ((if fge a (fmul b (Fin (9 # 10))) then 0 else 1)
          + count_dips (b :: l))%nat.
  simpl length in *. destruct (fge a (fmul b (Fin (9 # 10)))); lia.
Qed.

(** A series is consistent exactly when it has at least three points and
    at most one step where the newer value is not at least 90% of the
    older one. *)
Theorem is_consistent_one_dip (series : list float64) :
  is_consistent series = true <->
  (3 <= length series)%nat /\ (count_dips series <= 1)%nat.
Proof.
  unfold is_consistent. pose proof (steps_split series) as H.
  destruct (length series <? 3)%nat eqn:E.
  - apply Nat.ltb_lt in E. split; [discriminate | lia].
  - apply Nat.ltb_ge in E. rewrite Nat.leb_le. lia.
Qed.

Example is_consistent_examples :
  is_consistent [Fin 120; Fin 80; Fin 100; Fin 90] = true /\
  is_consistent [Fin 120; Fin 80; Fin 100; Fin 130] = false /\
  is_consistent [Fin 120; NaN; Fin 100] = false /\
  is_consistent [Fin 120; Fin 100] = false.
Proof. repeat split. Qed.

Lemma count_dips_gap (l1 : list float64) (a b : float64) (l2 : list float64) :
  (2 <= count_dips (l1 ++ a :: NaN :: b :: l2))%nat.
Proof.
  induction l1 as [|x l1 IH].
  - simpl app.
    change (count_dips (a :: NaN :: b :: l2))
      with ((if fge a (fmul NaN (Fin (9 # 10))) then 0 else 1)
            + ((if fge NaN (fmul b (Fin (9 # 10))) then 0 else 1)
               + count_dips (b :: l2)))%nat.
    assert (E1 : fge a (fmul NaN (Fin (9 # 10))) = false) by reflexivity.
    assert (E2 : fge NaN (fmul b (Fin (9 # 10))) = false).
    { unfold fge, fle. destruct (fmul b (Fin (9 # 10))); reflexivity. }
    rewrite E1, E2. lia.
  - destruct l1 as [|y l1].
    + simpl app in *.
      change (count_dips (x :: a :: NaN :: b :: l2))
        with ((if fge x (fmul a (Fin (9 # 10))) then 0 else 1)
              + count_dips (a :: NaN :: b :: l2))%nat.
      lia.
    + change (count_dips ((x :: y :: l1) ++ a :: NaN :: b :: l2))
        with ((if fge x (fmul y (Fin (9 # 10))) then 0 else 1)
              + count_dips ((y :: l1) ++ a :: NaN :: b :: l2))%nat.
      lia.
Qed.

(** A missing value strictly inside a series spoils two steps at once, so
    such a series is never consistent, whatever its other values. *)
Theorem is_consistent_interior_gap (series l1 l2 : list float64)
    (a b : float64) :
  series = (l1 ++ a :: NaN :: b :: l2)%list ->
  is_consistent series = false.
Proof.
  intros ->. unfold is_consistent.
  pose proof (steps_split (l1 ++ a :: NaN :: b :: l2)) as H.
  pose proof (count_dips_gap l1 a b l2) as G.
  destruct (length (l1 ++ a :: NaN :: b :: l2) <? 3)%nat eqn:E;
    [reflexivity|].
  apply Nat.ltb_ge in E. apply Nat.leb_gt. lia.
Qed.

Lemma is_consistent_interior_gap_witness :
  is_consistent [Fin 130; Fin 120; NaN; Fin 100; Fin 90] = false.
Proof.
  apply (is_consistent_interior_gap _ [Fin 130] [Fin 90] (Fin 120) (Fin 100)).
  reflexivity.
Defined.

(** *** The status against price and intrinsic value *)

(** The dictionary of the final [return], from its computed parts. *)
Definition valued_result (method : string) (intrinsic_value current_price
    : float64) (assumptions : list (string * display)) : pydict :=
  let diff_percent :=
    if truthy intrinsic_value && fne0 intrinsic_value
    then fsub (fdiv current_price intrinsic_value) (Fin 1)
    else Fin 0 in
  let status :=
    if fgt diff_percent (Fin (15 # 100)) then "Overvalued"
    else if flt diff_percent (Fin (- (15 # 100))) then "Undervalued"
    else "Fairly Valued" in
  [ ("method", VStr method);
    ("intrinsicValue", VNum intrinsic_value);
    ("currentPrice", VNum current_price);
    ("differencePercent", VNum diff_percent);
    ("status", VStr status);
    ("assumptions", VDict assumptions) ].

Lemma valuation_body_result real_pow py_float info balance_sheet cashflow
    revenue_series net_income_series op_cash_flow_series growth_estimates
    beta current_price shares_outstanding r :
  valuation_body real_pow py_float info balance_sheet cashflow revenue_series
    net_income_series op_cash_flow_series growth_estimates beta
    current_price shares_outstanding = Ok r ->
  exists method intrinsic_value assumptions,
    r = valued_result method intrinsic_value current_price assumptions.
Proof.
  unfold valuation_body.
  destruct (balance_sheet_items balance_sheet) as [[total_debt cash]|e];
    [|discriminate].
  cbv beta iota delta [bind].
  match goal with
  | |- match ?v with Ok _ => _ | Raise _ => _ end = _ -> _ =>
      destruct v as [[intrinsic_value assumptions]|e]; [|discriminate]
  end.
  intro H. injection H as <-.
  eexists _, intrinsic_value, assumptions. reflexivity.
Qed.

(** Every result is an Error dictionary or a valued one carrying the
    price the caller gave. *)
Lemma calculate_intrinsic_value_result real_pow py_float ticker info
    financials balance_sheet cashflow revenue_series net_income_series
    op_cash_flow_series growth_estimates beta :
  let r := calculate_intrinsic_value real_pow py_float ticker info financials
             balance_sheet cashflow revenue_series net_income_series
             op_cash_flow_series growth_estimates beta in
  (exists method, r = error_result method) \/
  (exists method intrinsic_value assumptions,
     r = valued_result method intrinsic_value
           (get (currentPrice info) (Fin 0)) assumptions).
Proof.
  cbv zeta. unfold calculate_intrinsic_value.
  destruct (guarded_body _ _ _ _ _ _ _ _ _ _) as [r|e] eqn:E;
    [|left; eexists; reflexivity].
  unfold guarded_body in E.
  destruct (negb (truthy (get (currentPrice info) (Fin 0)))
            || negb (truthy (get (sharesOutstanding info) (Fin 1)))).
  - injection E as <-. left. eexists. reflexivity.
  - right. eapply valuation_body_result. exact E.
Qed.

Lemma status_zero_value (method : string) (p v : Q) assumptions :
  (v == 0)%Q ->
  lookup "status" (valued_result method (Fin v) (Fin p) assumptions)
  = Some (VStr "Fairly Valued") /\
  lookup "differencePercent" (valued_result method (Fin v) (Fin p) assumptions)
  = Some (VNum (Fin 0)).
Proof.
  intro Hv. unfold valued_result.
  assert (T : truthy (Fin v) = false).
  { unfold truthy. apply negb_false_iff. apply Qeq_bool_iff. exact Hv. }
  rewrite T. split; reflexivity.
Qed.

Lemma status_by_ratio (method : string) (p v : Q) assumptions :
  ~ (v == 0)%Q ->
  lookup "status" (valued_result method (Fin v) (Fin p) assumptions)
  = Some (VStr (if Qltb (15 # 100) (p / v + - (1))
                then "Overvalued"
                else if Qltb (p / v + - (1)) (- (15 # 100))
                     then "Undervalued" else "Fairly Valued")).
Proof.
  intro Hv. unfold valued_result.
  assert (E0 : Qeq_bool v 0 = false).
  { destruct (Qeq_bool v 0) eqn:E; [|reflexivity].
    apply Qeq_bool_iff in E. contradiction. }
  assert (T : truthy (Fin v) = true) by (unfold truthy; rewrite E0; reflexivity).
  unfold fne0. rewrite T. cbv beta iota delta [andb fdiv fsub fneg fadd].
  rewrite E0. cbv beta iota delta [fgt flt].
  destruct (Qltb (15 # 100) (p / v + - (1)));
    [reflexivity|].
  destruct (Qltb (p / v + - (1)) (- (15 # 100))); reflexivity.
Qed.

Lemma ratio_times (p v : Q) : ~ (v == 0)%Q -> (p / v * v == p)%Q.
Proof. intro Hv. field. exact Hv. Qed.

(** For every result that carries a price [p] and a finite intrinsic value
    [v]: a value of zero is reported "Fairly Valued" with a difference of
    0; for a positive value the status is "Overvalued" exactly when
    [p > 1.15 v] and "Undervalued" exactly when [p < 0.85 v]; and a
    negative value with a positive price is reported "Undervalued". *)
Theorem valuation_status_thresholds
    (real_pow : Q -> Q -> Q) (py_float : string -> option float64)
    (ticker : string) (info : Info)
    (financials balance_sheet cashflow : DataFrame)
    (revenue_series net_income_series op_cash_flow_series : Series)
    (growth_estimates : list GrowthEstimate) (beta : option float64)
    (p v : Q) :
  let r := calculate_intrinsic_value real_pow py_float ticker info financials
             balance_sheet cashflow revenue_series net_income_series
             op_cash_flow_series growth_estimates beta in
  lookup "currentPrice" r = Some (VNum (Fin p)) ->
  lookup "intrinsicValue" r = Some (VNum (Fin v)) ->
  ((v == 0)%Q ->
   lookup "status" r = Some (VStr "Fairly Valued") /\
   lookup "differencePercent" r = Some (VNum (Fin 0))) /\
  ((0 < v)%Q ->
   (lookup "status" r = Some (VStr "Overvalued") <-> ((115 # 100) * v < p)%Q) /\
   (lookup "status" r = Some (VStr "Undervalued") <-> (p < (85 # 100) * v)%Q)) /\
  ((v < 0)%Q -> (0 < p)%Q -> lookup "status" r = Some (VStr "Undervalued")).
Proof.
  cbv zeta. intros Hp Hv.
  destruct (calculate_intrinsic_value_result real_pow py_float ticker info
              financials balance_sheet cashflow revenue_series
              net_income_series op_cash_flow_series growth_estimates beta)
    as [[m E]|(m & iv & a & E)]; cbv zeta in E; rewrite E in *.
  - discriminate Hp.
  - simpl in Hp, Hv. injection Hp as Hp. injection Hv as Hv. subst iv.
    rewrite Hp. clear E Hp.
    split; [apply status_zero_value|]. split.
    + intro Hpos. assert (Hne : ~ (v == 0)%Q) by lra.
      rewrite (status_by_ratio m p v a Hne).
      pose proof (ratio_times p v Hne) as Er.
      destruct (Qltb_decide (15 # 100) (p / v + - (1))) as [[-> H1]|[-> H1]].
      * split; split; intro H; try reflexivity; try discriminate H; nra.
      * destruct (Qltb_decide (p / v + - (1)) (- (15 # 100)))
          as [[-> H2]|[-> H2]];
          split; split; intro H; try reflexivity; try discriminate H; nra.
    + intros Hneg Hpos. assert (Hne : ~ (v == 0)%Q) by lra.
      rewrite (status_by_ratio m p v a Hne).
      pose proof (ratio_times p v Hne) as Er.
      destruct (Qltb_decide (15 # 100) (p / v + - (1))) as [[-> H1]|[-> H1]];
        [exfalso; nra|].
      destruct (Qltb_decide (p / v + - (1)) (- (15 # 100)))
        as [[-> H2]|[-> H2]]; [reflexivity|exfalso; nra].
Qed.

Definition bank_info : Info :=
  {| currentPrice := Some (Fin 50); sharesOutstanding := Some (Fin 100);
     sector := Some "Financial Services"; industry := Some "Banks";
     country := None; bookValue := Some (Fin 20);
     priceToBook := Some (Fin 2) |}.

Lemma valuation_status_thresholds_witness :
  lookup "status"
    (calculate_intrinsic_value flat_pow no_parse "X" bank_info
       [] [] [] [] [] [] [] None)
  = Some (VStr "Overvalued").
Proof.
  apply (valuation_status_thresholds flat_pow no_parse "X" bank_info
           [] [] [] [] [] [] [] None 50 (20 * 2));
    [reflexivity | reflexivity | reflexivity | reflexivity].
Defined.

(** *** The discount rate against the growth rates *)

Lemma get_discount_rate_range (beta : option float64) (country : string) :
  (54 # 1000 <= get_discount_rate beta country <= 145 # 1000)%Q.
Proof.
  unfold get_discount_rate.
  destruct (str_contains "China" country);
    repeat match goal with
    | |- context [if ?c then _ else _] => destruct c
    end; lra.
Qed.

(** Whatever the beta and the country, the discount rate lies between
    5.4% and 14.5%, and it exceeds the growth rate of years 11-20 of the
    same country by at least 1.4 percentage points. *)
Theorem discount_rate_above_terminal_growth
    (beta : option float64) (country : string) :
  (54 # 1000 <= get_discount_rate beta country <= 145 # 1000)%Q /\
  exists g : Q,
    growth_rate_11_20 country = Fin g /\
    (g + (14 # 1000) <= get_discount_rate beta country)%Q.
Proof.
  split; [apply get_discount_rate_range|].
  unfold growth_rate_11_20, get_discount_rate.
  destruct (str_contains "China" country);
    (eexists; split; [reflexivity|]);
    repeat match goal with
    | |- context [if ?c then _ else _] => destruct c
    end; lra.
Qed.

(** For one beta, a country whose name contains "China" is discounted at
    least 3.1 percentage points above a country whose name does not. *)
Theorem discount_rate_china_premium
    (beta : option float64) (china other : string) :
  str_contains "China" china = true ->
  str_contains "China" other = false ->
  (get_discount_rate beta other + (31 # 1000)
   <= get_discount_rate beta china)%Q.
Proof.
  intros Hc Ho. unfold get_discount_rate. rewrite Hc, Ho.
  destruct beta as [[q| | |]|]; simpl; try lra;
    destruct (Qeq_bool q 0); simpl;
    cbv beta iota delta [flt fge fle]; split_comparisons; lra.
Qed.

Lemma discount_rate_china_premium_witness :
  (get_discount_rate (Some (Fin (12 # 10))) "United States" + (31 # 1000)
   <= get_discount_rate (Some (Fin (12 # 10))) "China")%Q.
Proof.
  apply (discount_rate_china_premium (Some (Fin (12 # 10)))
           "China" "United States");
    reflexivity.
Defined.

(** *** Growth rates from the net-income history *)

Lemma hd_iloc_values (series : Series) (i : Z) (v : entry) rest :
  series = (i, v) :: rest -> hd NaN (iloc_values series) = of_entry v.
Proof. intros ->. reflexivity. Qed.

(** The historical rate is a number when the newest net income is a
    non-negative number and the oldest is a number. *)
Lemma historical_growth_number real_pow (net_income : list float64)
    (e s d : Q) :
  hd NaN net_income = Fin e -> (0 <= e)%Q ->
  last net_income NaN = Fin s ->
  exists q, historical_growth real_pow net_income (Fin d) = Fin q.
Proof.
  intros He Hpos Hs. unfold historical_growth. rewrite He, Hs.
  destruct (negb (length net_income =? 0)%nat && (3 <? length net_income)%nat);
    [|eexists; reflexivity].
  cbv beta iota delta [fabs fgt flt].
  destruct (Qltb_decide 0 (Qabs s)) as [[-> Hlt]|[-> Hlt]];
    [|eexists; reflexivity].
  unfold fdiv.
  assert (E0 : Qeq_bool (Qabs s) 0 = false).
  { destruct (Qeq_bool (Qabs s) 0) eqn:E; [|reflexivity].
    apply Qeq_bool_iff in E. lra. }
  rewrite E0. unfold np_power.
  assert (Hq : (0 <= e / Qabs s)%Q).
  { apply Qle_shift_div_l; [exact Hlt|]. lra. }
  destruct (Qltb_decide (e / Qabs s) 0) as [[-> Hneg]|[-> Hneg]];
    [exfalso; lra|].
  eexists. reflexivity.
Qed.

Lemma growth_rate_6_10_within (q : Q) :
  (- (10 # 100) <= q <= 30 # 100)%Q ->
  within (- (10 # 100)) (15 # 100) (growth_rate_6_10 (Fin q)) /\
  fle (growth_rate_6_10 (Fin q)) (Fin q) = true.
Proof.
  intro Hq. unfold growth_rate_6_10, py_min. cbv beta iota delta [flt].
  destruct (Qltb_decide (15 # 100) q) as [[-> H]|[-> H]]; simpl;
    (split; [lra|]); apply Qle_bool_iff; lra.
Qed.

(** With no analyst estimates, a net-income history whose newest value is
    a non-negative number and whose oldest value is a number gives growth
    rates that are numbers: years 1-5 within [-10%, 30%], years 6-10
    within [-10%, 15%] and never above years 1-5. *)
Theorem growth_rates_in_range
    (real_pow : Q -> Q -> Q) (py_float : string -> option float64)
    (net_income : list float64) (e s : Q) :
  hd NaN net_income = Fin e -> (0 <= e)%Q ->
  last net_income NaN = Fin s ->
  let g_1_5 := growth_rate_1_5 real_pow py_float [] net_income in
  let g_6_10 := growth_rate_6_10 g_1_5 in
  within (- (10 # 100)) (30 # 100) g_1_5 /\
  within (- (10 # 100)) (15 # 100) g_6_10 /\
  fle g_6_10 g_1_5 = true.
Proof.
  intros He Hpos Hs. cbv zeta.
  destruct (historical_growth_number real_pow net_income e s (5 # 100)
              He Hpos Hs) as [q Hq].
  assert (Hw : within (- (10 # 100)) (30 # 100)
                 (growth_rate_1_5 real_pow py_float [] net_income)).
  { apply growth_rate_1_5_capped. unfold raw_growth_rate_1_5.
    rewrite Hq. discriminate. }
  destruct (growth_rate_1_5 real_pow py_float [] net_income) as [g| | |];
    try contradiction.
  split; [exact Hw|]. apply growth_rate_6_10_within. exact Hw.
Qed.

Lemma growth_rates_in_range_witness :
  within (- (10 # 100)) (30 # 100)
    (growth_rate_1_5 flat_pow no_parse [] [Fin 8; Fin 4; Fin 2; Fin 1]) /\
  within (- (10 # 100)) (15 # 100)
    (growth_rate_6_10
       (growth_rate_1_5 flat_pow no_parse [] [Fin 8; Fin 4; Fin 2; Fin 1])) /\
  fle (growth_rate_6_10
         (growth_rate_1_5 flat_pow no_parse [] [Fin 8; Fin 4; Fin 2; Fin 1]))
      (growth_rate_1_5 flat_pow no_parse [] [Fin 8; Fin 4; Fin 2; Fin 1])
  = true.
Proof.
  apply (growth_rates_in_range flat_pow no_parse
           [Fin 8; Fin 4; Fin 2; Fin 1] 8 1);
    [reflexivity | discriminate | reflexivity].
Defined.

(** *** A loss in the newest year *)

(** The historical rate is NaN when the history has more than three
    points, the newest is a loss and the oldest is a number other than
    zero. *)
Lemma historical_growth_loss real_pow (net_income : list float64)
    (e s d : Q) :
  (3 < length net_income)%nat ->
  hd NaN net_income = Fin e -> (e < 0)%Q ->
  last net_income NaN = Fin s -> ~ (s == 0)%Q ->
  historical_growth real_pow net_income (Fin d) = NaN.
Proof.
  intros Hlen He Hneg Hs Hs0. unfold historical_growth. rewrite He, Hs.
  assert (L1 : (length net_income =? 0)%nat = false)
    by (apply Nat.eqb_neq; lia).
  assert (L2 : (3 <? length net_income)%nat = true)
    by (apply Nat.ltb_lt; exact Hlen).
  rewrite L1, L2. cbv beta iota delta [negb andb fabs fgt flt].
  assert (Hpos : (0 < Qabs s)%Q).
  { pose proof (Qabs_nonneg s) as Hn.
    destruct (Qeq_dec (Qabs s) 0) as [E|E]; [|lra].
    exfalso. apply Hs0.
    assert (Hle : (Qabs s <= 0)%Q) by lra.
    apply Qabs_Qle_condition in Hle. lra. }
  destruct (Qltb_decide 0 (Qabs s)) as [[-> Hlt]|[-> Hlt]]; [|exfalso; lra].
  unfold fdiv.
  assert (E0 : Qeq_bool (Qabs s) 0 = false).
  { destruct (Qeq_bool (Qabs s) 0) eqn:E; [|reflexivity].
    apply Qeq_bool_iff in E. lra. }
  rewrite E0. unfold np_power.
  assert (Hq : (e / Qabs s < 0)%Q).
  { assert (Hd : (e / Qabs s * Qabs s == e)%Q) by (field; lra).
    destruct (Qlt_le_dec (e / Qabs s) 0) as [H|H]; [exact H|].
    exfalso. nra. }
  destruct (Qltb_decide (e / Qabs s) 0) as [[-> H]|[-> H]];
    [reflexivity | exfalso; lra].
Qed.

Lemma fmul_NaN_r (x : float64) : fmul x NaN = NaN.
Proof. destruct x; reflexivity. Qed.

Lemma fadd_NaN_r (x : float64) : fadd x NaN = NaN.
Proof. destruct x; reflexivity. Qed.

Lemma fdiv_NaN_r (x : float64) : fdiv x NaN = NaN.
Proof. destruct x; reflexivity. Qed.

Lemma project_from_NaN (n : nat) (rate : float64) :
  project n rate NaN = (repeat NaN n, NaN).
Proof.
  induction n as [|n IH]; [reflexivity|].
  simpl. rewrite IH. reflexivity.
Qed.

Lemma project_NaN_rate (n : nat) (current_val : float64) :
  project (S n) NaN current_val = (repeat NaN (S n), NaN).
Proof.
  simpl. rewrite fmul_NaN_r, project_from_NaN. reflexivity.
Qed.

Lemma present_value_sum_from_NaN (discount_rate : Q) (future_values : list float64) :
  forall i, present_value_sum discount_rate i future_values NaN = NaN.
Proof.
  induction future_values as [|v rest IH]; intro i; [reflexivity|].
  simpl. apply IH.
Qed.

Lemma present_value_sum_NaN_first (discount_rate : Q) (i : nat)
    (rest : list float64) (acc : float64) :
  present_value_sum discount_rate i (NaN :: rest) acc = NaN.
Proof.
  simpl. rewrite fadd_NaN_r. apply present_value_sum_from_NaN.
Qed.

(** A NaN rate for years 1-5 makes the discounted value NaN. *)
Lemma discounted_value_NaN_rate (method : string) (cashflow : DataFrame)
    (current_ocf current_ni g_6_10 g_11_20 : float64) (discount_rate : Q)
    (total_debt cash shares : float64) v a :
  discounted_value method cashflow current_ocf current_ni NaN g_6_10 g_11_20
    discount_rate total_debt cash shares = Ok (v, a) ->
  v = NaN.
Proof.
  unfold discounted_value.
  match goal with
  | |- bind ?b _ = _ -> _ => destruct b as [[base_value metric_name]|e]
  end; [|discriminate].
  cbv beta iota delta [bind].
  rewrite (project_NaN_rate 4 base_value), project_from_NaN.
  destruct (project 10 g_11_20 NaN) as [years_11_20 final].
  change (repeat NaN 5 ++ repeat NaN 5 ++ years_11_20)%list
    with (NaN :: (repeat NaN 4 ++ repeat NaN 5 ++ years_11_20))%list.
  rewrite present_value_sum_NaN_first.
  intro H. injection H as <- _. reflexivity.
Qed.

Lemma select_method_not_book real_pow (sector industry : string)
    (revenue net_income op_cash_flow : list float64) :
  is_financial sector industry = false ->
  String.eqb (select_method real_pow sector industry revenue net_income
                op_cash_flow) "Mean Price-to-Book (PB)" = false.
Proof.
  intro H. unfold select_method. rewrite H.
  repeat match goal with
  | |- context [if ?c then _ else _] => destruct c
  end; reflexivity.
Qed.

Lemma valuation_body_NaN_rate real_pow py_float info balance_sheet cashflow
    revenue_series net_income_series op_cash_flow_series growth_estimates
    beta current_price shares_outstanding r :
  is_financial (get (sector info) "") (get (industry info) "") = false ->
  growth_rate_1_5 real_pow py_float growth_estimates
    (iloc_values net_income_series) = NaN ->
  valuation_body real_pow py_float info balance_sheet cashflow revenue_series
    net_income_series op_cash_flow_series growth_estimates beta
    current_price shares_outstanding = Ok r ->
  exists method assumptions,
    r = valued_result method NaN current_price assumptions.
Proof.
  intros Hfin Hg. unfold valuation_body.
  rewrite Hg, (select_method_not_book real_pow _ _ _ _ _ Hfin).
  destruct (balance_sheet_items balance_sheet) as [[total_debt cash]|e];
    [|discriminate].
  cbv beta iota delta [bind].
  destruct (String.eqb _ "Price to Sales Growth (PSG)").
  - unfold price_to_sales_growth.
    change (fmul NaN (Fin 100)) with NaN. rewrite fmul_NaN_r.
    change (fmul NaN (Fin (20 # 100))) with NaN.
    intro H. injection H as <-. eexists _, _. reflexivity.
  - match goal with
    | |- match ?d with Ok _ => _ | Raise _ => _ end = _ -> _ =>
        destruct d as [[v a]|e] eqn:Ed; [|discriminate]
    end.
    apply discounted_value_NaN_rate in Ed. subst v.
    intro H. injection H as <-. eexists _, _. reflexivity.
Qed.

Lemma valued_result_NaN (method : string) (current_price : float64)
    assumptions :
  lookup "intrinsicValue" (valued_result method NaN current_price assumptions)
  = Some (VNum NaN) /\
  lookup "differencePercent"
    (valued_result method NaN current_price assumptions) = Some (VNum NaN) /\
  lookup "status" (valued_result method NaN current_price assumptions)
  = Some (VStr "Fairly Valued").
Proof.
  unfold valued_result. simpl truthy. simpl fne0. simpl andb.
  rewrite fdiv_NaN_r. repeat split; reflexivity.
Qed.

(** For a company that is not a financial one, with no analyst estimates
    and a net-income history of more than three years whose newest value
    is a loss and whose oldest value is a number other than zero, the
    valuation is never a number: the result is the Error dictionary, or
    its intrinsic value and difference are NaN and its status is
    "Fairly Valued". *)
Theorem loss_year_value_is_nan
    (real_pow : Q -> Q -> Q) (py_float : string -> option float64)
    (ticker : string) (info : Info)
    (financials balance_sheet cashflow : DataFrame)
    (revenue_series net_income_series op_cash_flow_series : Series)
    (beta : option float64) (e s : Q) :
  is_financial (get (sector info) "") (get (industry info) "") = false ->
  (3 < length net_income_series)%nat ->
  hd NaN (iloc_values net_income_series) = Fin e -> (e < 0)%Q ->
  last (iloc_values net_income_series) NaN = Fin s -> ~ (s == 0)%Q ->
  let r := calculate_intrinsic_value real_pow py_float ticker info financials
             balance_sheet cashflow revenue_series net_income_series
             op_cash_flow_series [] beta in
  lookup "status" r = Some (VStr "Error") \/
  (lookup "intrinsicValue" r = Some (VNum NaN) /\
   lookup "differencePercent" r = Some (VNum NaN) /\
   lookup "status" r = Some (VStr "Fairly Valued")).
Proof.
  intros Hfin Hlen He Hneg Hs Hs0. cbv zeta.
  assert (Hg : growth_rate_1_5 real_pow py_float []
                 (iloc_values net_income_series) = NaN).
  { unfold growth_rate_1_5, raw_growth_rate_1_5.
    rewrite (historical_growth_loss real_pow _ e s (5 # 100));
      try assumption; [reflexivity|].
    unfold iloc_values. rewrite length_map. exact Hlen. }
  unfold calculate_intrinsic_value.
  destruct (guarded_body _ _ _ _ _ _ _ _ _ _) as [r|x] eqn:E;
    [|left; reflexivity].
  unfold guarded_body in E.
  destruct (negb (truthy (get (currentPrice info) (Fin 0)))
            || negb (truthy (get (sharesOutstanding info) (Fin 1)))).
  - injection E as <-. left. reflexivity.
  - right.
    destruct (valuation_body_NaN_rate _ _ _ _ _ _ _ _ _ _ _ _ _ Hfin Hg E)
      as (m & a & ->).
    apply valued_result_NaN.
Qed.

Definition loss_history : Series :=
  [(4%Z, Some (-5)%Q); (3%Z, Some 1%Q); (2%Z, Some 2%Q); (1%Z, Some 3%Q)].

Definition software_info : Info :=
  {| currentPrice := Some (Fin 10); sharesOutstanding := Some (Fin 100);
     sector := Some "Technology"; industry := Some "Software";
     country := None; bookValue := None; priceToBook := None |}.

Lemma loss_year_value_is_nan_witness :
  lookup "status"
    (calculate_intrinsic_value flat_pow no_parse "X" software_info
       [] [] [] [] loss_history [] [] None) = Some (VStr "Error") \/
  (lookup "intrinsicValue"
     (calculate_intrinsic_value flat_pow no_parse "X" software_info
        [] [] [] [] loss_history [] [] None) = Some (VNum NaN) /\
   lookup "differencePercent"
     (calculate_intrinsic_value flat_pow no_parse "X" software_info
        [] [] [] [] loss_history [] [] None) = Some (VNum NaN) /\
   lookup "status"
     (calculate_intrinsic_value flat_pow no_parse "X" software_info
        [] [] [] [] loss_history [] [] None) = Some (VStr "Fairly Valued")).
Proof.
  apply (loss_year_value_is_nan flat_pow no_parse "X" software_info
           [] [] [] [] loss_history [] None (-5) 3);
    [reflexivity | simpl; lia | reflexivity | reflexivity | reflexivity
    | discriminate].
Defined.

(** *** The sign of a discounted value *)

(** A finite number above zero. *)
Definition positive (x : float64) : Prop :=
  match x with
  | Fin q => (0 < q)%Q
  | _ => False
  end.

(** The value of a valuation branch, without its assumptions. *)
Definition fmap_value (r : result (float64 * list (string * display)))
  : result float64 :=
  match r with
  | Ok (v, _) => Ok v
  | Raise e => Raise e
  end.

(** The base the discounted methods project, with the name of its
    metric: operating cash flow less capital expenditure, operating cash
    flow, or net income. *)
Definition discount_base (method : string) (cashflow : DataFrame)
    (current_ocf current_ni : float64) : result (float64 * string) :=
  if str_contains "Free Cash Flow" method then
    capex <-
      (if in_index "Capital Expenditure" cashflow then
         v <- loc_first cashflow "Capital Expenditure" ;; Ok (fabs v)
       else if in_index "Capital Expenditures" cashflow then
         v <- loc_first cashflow "Capital Expenditures" ;; Ok (fabs v)
       else Ok (Fin 0)) ;;
    Ok (fsub current_ocf capex, "Free Cash Flow")
  else if str_contains "Operating Cash Flow" method then
    Ok (current_ocf, "Operating Cash Flow")
  else if str_contains "Net Income" method then
    Ok (current_ni, "Net Income")
  else Ok (Fin 0, "").

Lemma project_positive (n : nat) (g : Q) :
  (-1 < g)%Q ->
  forall b : Q, (0 < b)%Q ->
    Forall positive (fst (project n (Fin g) (Fin b))) /\
    positive (snd (project n (Fin g) (Fin b))).
Proof.
  intro Hg. induction n as [|n IH]; intros b Hb.
  - split; [constructor | exact Hb].
  - simpl.
    assert (Hb' : (0 < b * (1 + g))%Q) by nra.
    destruct (IH _ Hb') as [Hall Hlast].
    destruct (project n (Fin g) (Fin (b * (1 + g)))) as [later final].
    split; [constructor; [exact Hb' | exact Hall] | exact Hlast].
Qed.

Lemma power_positive (r : Q) (n : nat) :
  (-1 < r)%Q -> (0 < (1 + r) ^ Z.of_nat n)%Q.
Proof. intro Hr. apply Qpower_0_lt. lra. Qed.

(** Discounting positive values adds to the accumulator. *)
Lemma present_value_sum_grows (discount_rate : Q) (future_values : list float64) :
  (-1 < discount_rate)%Q -> Forall positive future_values ->
  forall (i : nat) (a : Q),
    exists v,
      present_value_sum discount_rate i future_values (Fin a) = Fin v /\
      (a <= v)%Q /\ (future_values <> [] -> (a < v)%Q).
Proof.
  intros Hr Hall. induction Hall as [|x rest Hx Hrest IH]; intros i a.
  - exists a. split; [reflexivity|]. split; [lra|]. intro H. contradiction.
  - destruct x as [q| | |]; try contradiction. simpl in Hx. simpl.
    pose proof (power_positive discount_rate (i + 1) Hr) as Hp.
    assert (E0 : Qeq_bool ((1 + discount_rate) ^ Z.of_nat (i + 1)) 0 = false).
    { destruct (Qeq_bool _ 0) eqn:E; [|reflexivity].
      apply Qeq_bool_iff in E. lra. }
    rewrite E0.
    destruct (IH (S i) (a + q / (1 + discount_rate) ^ Z.of_nat (i + 1))%Q)
      as (v & Ev & Hle & _).
    exists v. split; [exact Ev|].
    assert (Hq : (0 < q / (1 + discount_rate) ^ Z.of_nat (i + 1))%Q).
    { apply Qlt_shift_div_l; [exact Hp | lra]. }
    split; [lra|]. intros _. lra.
Qed.

Lemma discounted_value_by_base (method : string) (cashflow : DataFrame)
    (current_ocf current_ni g_1_5 g_6_10 g_11_20 : float64)
    (discount_rate : Q) (total_debt cash shares : float64) :
  fmap_value (discounted_value method cashflow current_ocf current_ni
                g_1_5 g_6_10 g_11_20 discount_rate total_debt cash shares)
  = (base <- discount_base method cashflow current_ocf current_ni ;;
     let (base_value, _) := base in
     let (years_1_5, v5) := project 5 g_1_5 base_value in
     let (years_6_10, v10) := project 5 g_6_10 v5 in
     let (years_11_20, _) := project 10 g_11_20 v10 in
     Ok (fdiv (fsub (fadd (present_value_sum discount_rate 0
                             (years_1_5 ++ years_6_10 ++ years_11_20)%list
                             (Fin 0))
                          cash)
                    total_debt)
              shares)).
Proof.
  unfold discounted_value, discount_base, fmap_value.
  repeat match goal with
  | |- context [if ?c then _ else _] => destruct c
  end;
  repeat match goal with
  | |- context [loc_first ?d ?l] => destruct (loc_first d l)
  end; cbv beta iota delta [bind]; try reflexivity;
  repeat match goal with
  | |- context [project ?n ?g ?b] => destruct (project n g b)
  end; reflexivity.
Qed.

Lemma project_length (n : nat) (rate : float64) :
  forall current_val, length (fst (project n rate current_val)) = n.
Proof.
  induction n as [|n IH]; intro current_val; [reflexivity|].
  cbn [project]. specialize (IH (fmul current_val (fadd (Fin 1) rate))).
  destruct (project n rate (fmul current_val (fadd (Fin 1) rate)))
    as [later final].
  simpl in IH. simpl. f_equal. exact IH.
Qed.

(** A discounted valuation (DFCF, DOCF, DNI) of a positive base with
    growth rates and a discount rate above -100%, at least as much cash as
    debt and a positive share count gives a positive intrinsic value per
    share. *)
Theorem discounted_value_positive (method : string) (cashflow : DataFrame)
    (current_ocf current_ni : float64) (metric_name : string)
    (b g_1_5 g_6_10 g_11_20 discount_rate total_debt cash shares : Q) :
  discount_base method cashflow current_ocf current_ni
  = Ok (Fin b, metric_name) ->
  (0 < b)%Q ->
  (-1 < g_1_5)%Q -> (-1 < g_6_10)%Q -> (-1 < g_11_20)%Q ->
  (-1 < discount_rate)%Q ->
  (total_debt <= cash)%Q -> (0 < shares)%Q ->
  exists v,
    fmap_value (discounted_value method cashflow current_ocf current_ni
                  (Fin g_1_5) (Fin g_6_10) (Fin g_11_20) discount_rate
                  (Fin total_debt) (Fin cash) (Fin shares)) = Ok (Fin v) /\
    (0 < v)%Q.
Proof.
  intros Hbase Hb H1 H2 H3 Hr Hdebt Hshares.
  rewrite discounted_value_by_base, Hbase. cbv beta iota delta [bind].
  destruct (project_positive 5 g_1_5 H1 b Hb) as [A1 L1].
  pose proof (project_length 5 (Fin g_1_5) (Fin b)) as N1.
  destruct (project 5 (Fin g_1_5) (Fin b)) as [years_1_5 v5].
  simpl fst in *. simpl snd in *.
  destruct v5 as [b5| | |]; try contradiction. simpl in L1.
  destruct (project_positive 5 g_6_10 H2 b5 L1) as [A2 L2].
  destruct (project 5 (Fin g_6_10) (Fin b5)) as [years_6_10 v10].
  simpl fst in *. simpl snd in *.
  destruct v10 as [b10| | |]; try contradiction. simpl in L2.
  destruct (project_positive 10 g_11_20 H3 b10 L2) as [A3 _].
  destruct (project 10 (Fin g_11_20) (Fin b10)) as [years_11_20 v20].
  simpl fst in *.
  assert (Hall : Forall positive (years_1_5 ++ years_6_10 ++ years_11_20)%list).
  { apply Forall_app. split; [exact A1|].
    apply Forall_app. split; assumption. }
  destruct (present_value_sum_grows discount_rate _ Hr Hall 0%nat 0%Q)
    as (pv & -> & _ & Hpv).
  assert (Hpos : (0 < pv)%Q).
  { apply Hpv. destruct years_1_5; [discriminate N1 | discriminate]. }
  cbv beta iota delta [fadd fsub fneg fdiv].
  assert (E0 : Qeq_bool shares 0 = false).
  { destruct (Qeq_bool shares 0) eqn:E; [|reflexivity].
    apply Qeq_bool_iff in E. lra. }
  rewrite E0. eexists. split; [reflexivity|].
  apply Qlt_shift_div_l; [exact Hshares | lra].
Qed.

Lemma discounted_value_positive_witness :
  exists v,
    fmap_value (discounted_value "Discounted Net Income (DNI)" []
                  (Fin 0) (Fin 100) (Fin (5 # 100)) (Fin (5 # 100))
                  (Fin (4 # 100)) (6 # 100) (Fin 10) (Fin 20) (Fin 50))
    = Ok (Fin v) /\
    (0 < v)%Q.
Proof.
  apply (discounted_value_positive "Discounted Net Income (DNI)" []
           (Fin 0) (Fin 100) "Net Income" 100 (5 # 100) (5 # 100) (4 # 100)
           (6 # 100) 10 20 50);
    reflexivity || discriminate.
Defined.

(** *** Price to sales growth *)

(** With a newest revenue [r], a share count [s] other than zero and a
    growth rate [g] within its cap, the PSG value is [20 g (r / s)]: at
    most six times the sales per share in size. *)
Theorem psg_value_bounded (revenue : list float64) (rest : list float64)
    (r s g : Q) :
  revenue = Fin r :: rest -> ~ (s == 0)%Q ->
  (- (10 # 100) <= g <= 30 # 100)%Q ->
  exists v,
    fst (price_to_sales_growth revenue (Fin s) (Fin g)) = Fin v /\
    (v == 20 * g * (r / s))%Q /\
    (Qabs v <= 6 * Qabs (r / s))%Q.
Proof.
  intros -> Hs Hg. unfold price_to_sales_growth, fdiv.
  assert (E0 : Qeq_bool s 0 = false).
  { destruct (Qeq_bool s 0) eqn:E; [|reflexivity].
    apply Qeq_bool_iff in E. contradiction. }
  rewrite E0. simpl fst. cbv beta iota delta [fmul].
  eexists. split; [reflexivity|].
  set (t := (r / s)%Q).
  split; [ring|].
  apply Qabs_Qle_condition.
  destruct (Qlt_le_dec t 0) as [Ht|Ht].
  - rewrite (Qabs_neg t) by lra. split; nra.
  - rewrite (Qabs_pos t) by lra. split; nra.
Qed.

Lemma psg_value_bounded_witness :
  exists v,
    fst (price_to_sales_growth [Fin 500; Fin 300] (Fin 100) (Fin (20 # 100)))
    = Fin v /\
    (v == 20 * (20 # 100) * (500 / 100))%Q /\
    (Qabs v <= 6 * Qabs (500 / 100))%Q.
Proof.
  apply (psg_value_bounded [Fin 500; Fin 300] [Fin 300] 500 100 (20 # 100));
    [reflexivity | discriminate | split; discriminate].
Defined.

End ValuationFacts.

(** ** 4.4 The scorer: archetypes, criteria and the moat *)

Module ScorerFacts.

Import Trend Scorer.
Local Open Scope string_scope.

(** *** The maximum by archetype *)

Lemma weights_sum_nonnegative (weights : WeightTable)
    (criteria : list Criterion) :
  nonnegative weights ->
  (0 <= sumZ (map (weight_of weights) criteria))%Z.
Proof.
  intro Hw. induction criteria as [|c criteria IH]; simpl; [lia|].
  pose proof (Hw (lookup_name (name c))) as Hc.
  fold (weight_of weights c) in Hc. lia.
Qed.

Lemma max_score_archetypes (inp : ScorerInputs) :
  max_score (fst (score inp))
  = (if is_reit inp then 103
     else if has_physical_goods inp then
       match ccc_series inp with
       | [] => 102
       | _ :: _ => 105
       end
     else 110)%Z.
Proof.
  unfold score, weighted_score, current_weights. simpl fst.
  split_criteria; reflexivity.
Qed.

(** The maximum score depends on the archetype alone: 103 for a REIT, 105
    for a company with inventory and a cash-conversion-cycle history (102
    without the history), 110 for every other company; it is never 100,
    and the total never exceeds it. *)
Theorem max_score_by_archetype (inp : ScorerInputs) :
  max_score (fst (score inp))
  = (if is_reit inp then 103
     else if has_physical_goods inp then
       match ccc_series inp with
       | [] => 102
       | _ :: _ => 105
       end
     else 110)%Z /\
  (102 <= max_score (fst (score inp)) <= 110)%Z /\
  (0 <= total_score (fst (score inp)) <= 110)%Z.
Proof.
  pose proof (max_score_archetypes inp) as E.
  assert (R : (102 <= max_score (fst (score inp)) <= 110)%Z).
  { rewrite E. destruct (is_reit inp); [lia|].
    destruct (has_physical_goods inp); [|lia].
    destruct (ccc_series inp); lia. }
  split; [exact E|]. split; [exact R|].
  unfold score in *. simpl fst in *. unfold weighted_score in *.
  destruct (score_loop_sums (current_weights inp) (score_criteria inp)
              {| total_score := 0; max_score := 0 |}) as [Ht Hm].
  pose proof (passed_weights_at_most_all (current_weights inp)
                (score_criteria inp) (current_weights_nonnegative inp)) as Hle.
  pose proof (weights_sum_nonnegative (current_weights inp)
                (filter passed (score_criteria inp))
                (current_weights_nonnegative inp)) as Hpos.
  change (total_score {| total_score := 0; max_score := 0 |}) with 0%Z in Ht.
  change (max_score {| total_score := 0; max_score := 0 |}) with 0%Z in Hm.
  lia.
Qed.

(** *** Which criteria are listed *)

Definition names (criteria : list Criterion) : list string :=
  map name criteria.

Definition pass_or_fail (c : Criterion) : Prop :=
  status c = "Pass" \/ status c = "Fail".

Lemma pass_fail_cases (p : bool) :
  pass_fail p = "Pass" \/ pass_fail p = "Fail".
Proof. destruct p; [left | right]; reflexivity. Qed.

Ltac distinct_names :=
  repeat (constructor; [simpl; intuition discriminate|]); constructor.

(** The criteria list has no two criteria of one name and between 13 and
    15 entries; the cash-conversion-cycle criterion is listed exactly for
    a company with inventory and at least one year of cycle values, the
    gearing criterion exactly for a REIT; every status is "Pass" or
    "Fail". *)
Theorem score_criteria_shape (inp : ScorerInputs) :
  NoDup (names (score_criteria inp)) /\
  (13 <= length (score_criteria inp) <= 15)%nat /\
  (In "CCC Stable/Reducing" (names (score_criteria inp))
   <-> has_physical_goods inp = true /\ ccc_series inp <> []) /\
  (In "Gearing Ratio < 45%" (names (score_criteria inp))
   <-> is_reit inp = true) /\
  Forall pass_or_fail (score_criteria inp).
Proof.
  unfold names. split_criteria; simpl;
    (split; [distinct_names|]);
    (split; [lia|]);
    (split; [split; [intuition discriminate | intros [? ?]; 
                     try discriminate; try congruence; tauto]|]);
    (split; [split; [intuition discriminate | intro; try discriminate; tauto]|]);
    repeat (constructor; try (apply pass_fail_cases);
            try (left; reflexivity); try (right; reflexivity)).
Qed.

(** Every listed criterion carries a positive weight in the table of the
    company's archetype, except the cash-conversion-cycle criterion of a
    REIT, which weighs nothing. *)
Theorem listed_criteria_weigh (inp : ScorerInputs) (c : Criterion) :
  In c (score_criteria inp) ->
  (0 < weight_of (current_weights inp) c)%Z \/
  (is_reit inp = true /\ name c = "CCC Stable/Reducing" /\
   weight_of (current_weights inp) c = 0%Z).
Proof.
  unfold current_weights, weight_of. split_criteria; intro H;
    cbn [In app] in H;
    repeat match goal with
    | H : _ \/ _ |- _ => destruct H as [<-|H]
    | H : False |- _ => contradiction
    end;
    first [ left; vm_compute; reflexivity
          | right; repeat split; vm_compute; reflexivity ].
Qed.

Definition plain_inputs : ScorerInputs :=
  {| trend_pass := true; trend_val := "Increasing";
     net_income_series := []; op_income_series := [];
     op_cash_flow_series := []; revenue_series := [];
     gross_margin_series := []; net_margin_series := [];
     accounts_receivable_series := [];
     roe_ttm := Fin (20 # 100); roic := Fin (20 # 100);
     recent_inventory := Fin 0; ccc_series := [];
     revenue_growth := Fin (10 # 100);
     debt_to_ebitda := None; debt_servicing_ratio := None;
     current_ratio := None; gearing_ratio := None;
     sector := "Technology"; industry := "Software" |}.

Lemma listed_criteria_weigh_witness :
  (0 < weight_of (current_weights plain_inputs)
         (income_criterion plain_inputs))%Z \/
  (is_reit plain_inputs = true /\
   name (income_criterion plain_inputs) = "CCC Stable/Reducing" /\
   weight_of (current_weights plain_inputs) (income_criterion plain_inputs)
   = 0%Z).
Proof.
  apply (listed_criteria_weigh plain_inputs (income_criterion plain_inputs)).
  simpl. right. left. reflexivity.
Defined.

(** *** The moat *)

Lemma moat_points_cases (x : float64) (high low : Q) :
  moat_points x high low = 0%Q \/ moat_points x high low = (1 # 2)%Q
  \/ moat_points x high low = 1%Q.
Proof.
  unfold moat_points. destruct (fgt x (Fin high)); [tauto|].
  destruct (fgt x (Fin low)); tauto.
Qed.

(** The moat score is a whole number of half points between 0 and 5; the
    moat is "Wide" from 3.5 points, "Narrow" from 2 to 3 points, and the
    criterion passes from 2 points. *)
Theorem moat_score_half_points (inp : ScorerInputs) :
  exists k : Z,
    (0 <= k <= 10)%Z /\
    (moat_score inp == k # 2)%Q /\
    (moat_type inp = "Wide" <-> (7 <= k)%Z) /\
    (moat_type inp = "Narrow" <-> (4 <= k <= 6)%Z) /\
    (moat_pass inp = true <-> (4 <= k)%Z).
Proof.
  unfold moat_pass, moat_type, moat_score.
  destruct (moat_points_cases (first_or_zero (gross_margin_series inp)) 40 20)
    as [-> | [-> | ->]];
  destruct (moat_points_cases (roic inp) (15 # 100) (10 # 100))
    as [-> | [-> | ->]];
  destruct (moat_points_cases (first_or_zero (revenue_series inp))
              100000000000 10000000000) as [-> | [-> | ->]];
  destruct (moat_points_cases (first_or_zero (net_margin_series inp)) 20 10)
    as [-> | [-> | ->]];
  destruct (moat_points_cases (revenue_growth inp) (15 # 100) (5 # 100))
    as [-> | [-> | ->]];
  match goal with
  | |- context [Qltb 3 ?q] =>
      let k := eval vm_compute in (Qnum (Qred (q * 2))) in
      exists k
  end;
  (split; [lia|]); (split; [reflexivity|]);
  match goal with
  | |- context [Qltb 3 ?q] =>
      let wide := eval vm_compute in (Qltb 3 q) in
      let narrow := eval vm_compute in (Qle_bool 2 q) in
      change (Qltb 3 q) with wide; change (Qle_bool 2 q) with narrow
  end;
  cbv iota; simpl String.eqb; simpl orb;
  repeat split; intros; try reflexivity; try lia;
  match goal with
  | H : _ = _ |- _ => discriminate H
  end.
Qed.

End ScorerFacts.

(** ** 4.5 The 20-year price trend *)

Module History.

Import Num F64.

(** The price history: the index of each row, in nanoseconds, and its
    Close, oldest first. *)
Definition PriceHistory := list (Z * float64).

Definition ns_per_day : Z := 86400000000000.

(** [trend_val]: the label and the number its format string renders. *)
Inductive trend_value : Type :=
| NotAvailable                      (* "N/A" *)
| Downtrend (cagr : float64)        (* f"Downtrend (CAGR {cagr:.1%})" *)
| Stagnant (cagr : float64)         (* f"Stagnant (CAGR {cagr:.1%})" *)
| Declining (drawdown : float64)    (* f"Declining (Down {drawdown:.1%} from High)" *)
| Increasing (cagr : float64).      (* f"Increasing (CAGR {cagr:.1%})" *)

Definition is_nan (x : float64) : bool :=
  match x with
  | NaN => true
  | _ => false
  end.

(** [series.max()]: the greatest value that is not NaN; NaN when there is
    none. *)
Definition series_max (values : list float64) : float64 :=
  match filter (fun x => negb (is_nan x)) values with
  | [] => NaN
  | x :: rest => fold_left (fun m y => if flt m y then y else m) rest x
  end.

(** [history[history.index >= cutoff_date]] *)
Definition since (cutoff_date : Z) (history : PriceHistory) : PriceHistory :=
  filter (fun row => (cutoff_date <=? fst row)%Z) history.

(** [(hist.index[-1] - hist.index[0]).days] *)
Definition span_days (hist : PriceHistory) : Z :=
  ((last (map fst hist) 0 - hd 0 (map fst hist)) / ns_per_day)%Z.

Section Power.

Variable real_pow : Q -> Q -> Q.

(** The historical-trend block of [get_stock_data]: [(trend_pass,
    trend_val)]. *)
Definition historical_trend (history : PriceHistory) (cutoff_date : Z)
  : bool * trend_value :=
  match history with
  | [] => (false, NotAvailable)
  | _ :: _ =>
      let hist_20y := since cutoff_date history in
      match hist_20y with
      | [] => (false, NotAvailable)
      | _ :: _ =>
          let start_price := hd NaN (map snd hist_20y) in
          let end_price := last (map snd hist_20y) NaN in
          let max_price := series_max (map snd hist_20y) in
          let days := span_days hist_20y in
          let years := (inject_Z days / (36525 # 100))%Q in
          let cagr :=
            if Qltb 1 years && fgt start_price (Fin 0) then
              fsub (np_power real_pow (fdiv end_price start_price)
                             (1 / years))
                   (Fin 1)
            else Fin 0 in
          let drawdown :=
            if fgt max_price (Fin 0)
            then fdiv (fsub max_price end_price) max_price
            else Fin 0 in
          if flt cagr (Fin 0) then (false, Downtrend cagr)
          else if flt cagr (Fin (5 # 100)) then (false, Stagnant cagr)
          else if fgt drawdown (Fin (30 # 100))
          then (false, Declining drawdown)
          else (true, Increasing cagr)
      end
  end.

End Power.

Definition flat_power (x _ : Q) : Q := x.

Example historical_trend_scenario :
  historical_trend flat_power
    [(0, Fin 100); (200 * ns_per_day, Fin 180); (400 * ns_per_day, Fin 150)]%Z
    0
  = (true, Increasing (Fin (150 / 100 + - (1)))).
Proof. reflexivity. Qed.

(** *** A year or less of history *)

Lemma years_over_one (days : Z) :
  Qltb 1 (inject_Z days / (36525 # 100)) = true <-> (366 <= days)%Z.
Proof.
  rewrite Qltb_iff.
  assert (E : (inject_Z days / (36525 # 100) == inject_Z days * (100 # 36525))%Q)
    by (field).
  rewrite E. unfold Qlt, Qmult, inject_Z. simpl. lia.
Qed.

(** When the rows since the cutoff span 365 days or less, the trend fails
    as "Stagnant" with a CAGR of 0, whatever the prices. *)
Theorem historical_trend_short_span (real_pow : Q -> Q -> Q)
    (history : PriceHistory) (cutoff_date : Z) :
  since cutoff_date history <> [] ->
  (span_days (since cutoff_date history) <= 365)%Z ->
  historical_trend real_pow history cutoff_date = (false, Stagnant (Fin 0)).
Proof.
  intros Hne Hspan. unfold historical_trend.
  destruct history as [|row history]; [contradiction Hne; reflexivity|].
  destruct (since cutoff_date (row :: history)) as [|r hist] eqn:E;
    [contradiction Hne; reflexivity|].
  cbv zeta.
  assert (Y : Qltb 1 (inject_Z (span_days (r :: hist)) / (36525 # 100))
              = false).
  { destruct (Qltb 1 _) eqn:Eq; [|reflexivity].
    apply years_over_one in Eq. lia. }
  rewrite Y. reflexivity.
Qed.

Lemma historical_trend_short_span_witness :
  historical_trend flat_power
    [(0, Fin 100); (300 * ns_per_day, Fin 900)]%Z 0
  = (false, Stagnant (Fin 0)).
Proof.
  apply (historical_trend_short_span flat_power
           [(0, Fin 100); (300 * ns_per_day, Fin 900)]%Z 0);
    [discriminate | vm_compute; discriminate].
Defined.

(** *** A missing last close *)

Lemma fsub_NaN_r (x : float64) : fsub x NaN = NaN.
Proof. destruct x; reflexivity. Qed.

(** When the rows since the cutoff span more than a year, start at a
    positive number and end in a missing (NaN) close, the trend passes
    as "Increasing" with a NaN growth rate: no comparison with a NaN
    selects a failing branch. *)
Theorem historical_trend_nan_close_passes (real_pow : Q -> Q -> Q)
    (history : PriceHistory) (cutoff_date : Z) (start_price : Q) :
  (366 <= span_days (since cutoff_date history))%Z ->
  hd NaN (map snd (since cutoff_date history)) = Fin start_price ->
  (0 < start_price)%Q ->
  last (map snd (since cutoff_date history)) NaN = NaN ->
  historical_trend real_pow history cutoff_date = (true, Increasing NaN).
Proof.
  intros Hspan Hstart Hpos Hend. unfold historical_trend.
  destruct history as [|row history]; [discriminate Hstart|].
  destruct (since cutoff_date (row :: history)) as [|r hist] eqn:E;
    [discriminate Hstart|].
  cbv zeta. rewrite Hstart, Hend.
  apply years_over_one in Hspan. rewrite Hspan.
  assert (G : fgt (Fin start_price) (Fin 0) = true)
    by (apply Qltb_iff; exact Hpos).
  rewrite G. simpl andb. rewrite fsub_NaN_r.
  change (fdiv NaN (Fin start_price)) with NaN.
  change (np_power real_pow NaN (1 / (inject_Z (span_days (r :: hist))
                                      / (36525 # 100)))) with NaN.
  change (fsub NaN (Fin 1)) with NaN.
  change (fdiv NaN (series_max (map snd (r :: hist)))) with NaN.
  destruct (fgt (series_max (map snd (r :: hist))) (Fin 0)); reflexivity.
Qed.

Lemma historical_trend_nan_close_passes_witness :
  historical_trend flat_power
    [(0, Fin 100); (200 * ns_per_day, Fin 40); (400 * ns_per_day, NaN)]%Z 0
  = (true, Increasing NaN).
Proof.
  apply (historical_trend_nan_close_passes flat_power
           [(0, Fin 100); (200 * ns_per_day, Fin 40); (400 * ns_per_day, NaN)]%Z
           0 100);
    [vm_compute; discriminate | reflexivity | reflexivity | reflexivity].
Defined.

(** *** What a pass guarantees *)

Lemma filter_numbers (closes : list Q) :
  filter (fun x => negb (is_nan x)) (map Fin closes) = map Fin closes.
Proof.
  induction closes as [|c closes IH]; [reflexivity|].
  simpl. rewrite IH. reflexivity.
Qed.

Lemma fold_max_numbers (closes : list Q) :
  forall a : Q,
    exists m : Q,
      fold_left (fun m y => if flt m y then y else m) (map Fin closes) (Fin a)
      = Fin m /\
      (a <= m)%Q /\ (forall c, In c closes -> (c <= m)%Q).
Proof.
  induction closes as [|c closes IH]; intro a.
  - exists a. split; [reflexivity|]. split; [lra|]. intros c [].
  - simpl. cbv beta iota delta [flt].
    destruct (Valuation.Qltb_decide a c) as [[-> H]|[-> H]].
    + destruct (IH c) as (m & E & Hle & Hall). exists m.
      split; [exact E|]. split; [lra|].
      intros x [<-|Hx]; [exact Hle | apply Hall; exact Hx].
    + destruct (IH a) as (m & E & Hle & Hall). exists m.
      split; [exact E|]. split; [exact Hle|].
      intros x [<-|Hx]; [lra | apply Hall; exact Hx].
Qed.

Lemma series_max_numbers (c : Q) (closes : list Q) :
  exists m : Q,
    series_max (map Fin (c :: closes)) = Fin m /\
    (forall x, In x (c :: closes) -> (x <= m)%Q).
Proof.
  unfold series_max. rewrite filter_numbers. simpl map.
  destruct (fold_max_numbers closes c) as (m & E & Hle & Hall).
  exists m. split; [exact E|].
  intros x [<-|Hx]; [exact Hle | apply Hall; exact Hx].
Qed.

Lemma last_numbers (c : Q) (closes : list Q) :
  last (map Fin (c :: closes)) NaN = Fin (last (c :: closes) 0).
Proof.
  revert c. induction closes as [|d closes IH]; intro c; [reflexivity|].
  change (last (map Fin (c :: d :: closes)) NaN)
    with (last (map Fin (d :: closes)) NaN).
  change (last (c :: d :: closes) 0%Q) with (last (d :: closes) 0%Q).
  apply IH.
Qed.

(** When every close since the cutoff is a number and the trend passes,
    the rows span more than a year, the first close is positive, the CAGR
    shown is at least 5%, and the last close is at least 70% of every
    close of the period. *)
Theorem historical_trend_pass_sound (real_pow : Q -> Q -> Q)
    (history : PriceHistory) (cutoff_date : Z) (closes : list Q)
    (label : trend_value) :
  map snd (since cutoff_date history) = map Fin closes ->
  historical_trend real_pow history cutoff_date = (true, label) ->
  (366 <= span_days (since cutoff_date history))%Z /\
  (0 < hd 0 closes)%Q /\
  (forall c, In c closes -> ((70 # 100) * c <= last closes 0)%Q) /\
  exists cagr : Q,
    label = Increasing (Fin cagr) /\ (5 # 100 <= cagr)%Q.
Proof.
  intros Hmap. unfold historical_trend.
  destruct history as [|row history]; [discriminate|].
  destruct (since cutoff_date (row :: history)) as [|r hist] eqn:E;
    [discriminate|].
  destruct closes as [|q0 closes]; [discriminate Hmap|].
  cbv zeta. rewrite Hmap.
  destruct (series_max_numbers q0 closes) as (m & -> & Hmax).
  rewrite last_numbers.
  set (e := last (q0 :: closes) 0%Q).
  set (years := (inject_Z (span_days (r :: hist)) / (36525 # 100))%Q).
  change (hd NaN (map Fin (q0 :: closes))) with (Fin q0).
  cbv beta iota delta [fgt flt].
  destruct (Qltb 1 years) eqn:Y; [|simpl; discriminate].
  destruct (Valuation.Qltb_decide 0 q0) as [[-> Hq0]|[-> Hq0]]; [|simpl; discriminate].
  simpl andb. cbv iota.
  assert (Hm : (0 < m)%Q).
  { pose proof (Hmax q0 (or_introl eq_refl)). lra. }
  assert (Q0 : Qeq_bool q0 0 = false).
  { destruct (Qeq_bool q0 0) eqn:Eq; [|reflexivity].
    apply Qeq_bool_iff in Eq. lra. }
  assert (M0 : Qeq_bool m 0 = false).
  { destruct (Qeq_bool m 0) eqn:Eq; [|reflexivity].
    apply Qeq_bool_iff in Eq. lra. }
  destruct (Valuation.Qltb_decide 0 m) as [[-> _]|[-> Hn]]; [|exfalso; lra].
  unfold fdiv, fsub, fneg, fadd. rewrite Q0, M0.
  assert (Rm : ((m + - e) / m * m == m + - e)%Q) by (field; lra).
  unfold np_power.
  destruct (Valuation.Qltb_decide (e / q0) 0) as [[-> Hneg]|[-> Hneg]].
  - (* a negative last close: the growth rate is NaN, the drawdown large *)
    assert (Re : (e / q0 * q0 == e)%Q) by (field; lra).
    assert (He : (e < 0)%Q) by nra.
    cbv beta iota delta [flt].
    destruct (Valuation.Qltb_decide (30 # 100) ((m + - e) / m)) as [[-> D]|[-> D]];
      [discriminate|].
    exfalso. nra.
  - cbv beta iota delta [flt].
    destruct (Valuation.Qltb_decide (real_pow (e / q0) (1 / years) + - (1)) 0)
      as [[-> C0]|[-> C0]]; [discriminate|].
    destruct (Valuation.Qltb_decide (real_pow (e / q0) (1 / years) + - (1)) (5 # 100))
      as [[-> C5]|[-> C5]]; [discriminate|].
    destruct (Valuation.Qltb_decide (30 # 100) ((m + - e) / m)) as [[-> D]|[-> D]];
      [discriminate|].
    intro H. injection H as <-.
    split; [apply years_over_one; exact Y|].
    split; [exact Hq0|].
    split.
    + intros c Hc. pose proof (Hmax c Hc). simpl hd. nra.
    + eexists. split; [reflexivity | exact C5].
Qed.

Lemma historical_trend_pass_sound_witness :
  (366 <= span_days
            (since 0 [(0, Fin 100); (200 * ns_per_day, Fin 180);
                      (400 * ns_per_day, Fin 150)]))%Z /\
  (0 < hd 0 [100; 180; 150])%Q /\
  (forall c, In c [100; 180; 150]%Q ->
             ((70 # 100) * c <= last [100; 180; 150] 0)%Q) /\
  exists cagr : Q,
    Increasing (Fin (150 / 100 + - (1))) = Increasing (Fin cagr) /\
    (5 # 100 <= cagr)%Q.
Proof.
  apply (historical_trend_pass_sound flat_power
           [(0, Fin 100); (200 * ns_per_day, Fin 180);
            (400 * ns_per_day, Fin 150)]%Z 0 [100; 180; 150]%Q
           (Increasing (Fin (150 / 100 + - (1)))));
    reflexivity.
Defined.

End History.
